(** * pdf-table-extractor: a shallow embedding of the table pipeline

    The Python sources are embedded module by module.  Page coordinates
    (Python floats) are modelled as rationals [Q]; float equality is [Qeq].
    A Python [str] is modelled by its UTF-8 encoding, a [string] of bytes;
    its length and its white space are read off the encoding.
    A Python exception is modelled as [None]; diagnostics written with
    [print] are modelled as an explicit list of events. *)

From Stdlib Require Import QArith Qminmax ZArith List Bool Lia Lqa Permutation Sorted.
From Stdlib Require Import String Ascii.
Import ListNotations.

Open Scope Q_scope.

(* ================================================================== *)
(** * Part I: the embedding                                            *)
(* ================================================================== *)

(** ** Python primitives on numbers *)
Module Py.

Definition ltb (a b : Q) : bool := negb (Qle_bool b a).
Definition leb (a b : Q) : bool := Qle_bool a b.
Definition eqb (a b : Q) : bool := Qeq_bool a b.

(** [max(a, b)] and [min(a, b)]: the first argument wins a tie. *)
Definition max2 (a b : Q) : Q := if ltb a b then b else a.
Definition min2 (a b : Q) : Q := if ltb b a then b else a.

(** [abs(a)]. *)
Definition abs (a : Q) : Q := if ltb a 0 then - a else a.

(** [max(iterable)] and [min(iterable)]; [None] is the ValueError raised on
    an empty iterable. *)
Definition max_of (l : list Q) : option Q :=
  match l with
  | [] => None
  | x :: r => Some (fold_left max2 r x)
  end.

Definition min_of (l : list Q) : option Q :=
  match l with
  | [] => None
  | x :: r => Some (fold_left min2 r x)
  end.

End Py.

(** ** Python strings, through their UTF-8 encoding *)
Module PyStr.

(** A continuation byte [10xxxxxx] of a multi-byte character. *)
Definition is_continuation (c : ascii) : bool :=
  let n := nat_of_ascii c in ((128 <=? n) && (n <? 192))%nat.

(** [len(s)]: the number of code points, one per byte that is not a
    continuation byte. *)
Fixpoint len (s : string) : nat :=
  match s with
  | EmptyString => O
  | String c r => if is_continuation c then len r else S (len r)
  end.

(** [c.isspace()] for a character of one byte: U+0009..U+000D and
    U+001C..U+0020. *)
Definition is_space (c : ascii) : bool :=
  let n := nat_of_ascii c in
  ((9 <=? n) && (n <=? 13) || (28 <=? n) && (n <=? 32))%nat.

(** [c.isspace()] for a character of two bytes: U+0085 and U+00A0. *)
Definition is_space2 (c c1 : ascii) : bool :=
  let n := nat_of_ascii c in
  let n1 := nat_of_ascii c1 in
  ((n =? 194) && ((n1 =? 133) || (n1 =? 160)))%nat.

(** [c.isspace()] for a character of three bytes: U+1680, U+2000..U+200A,
    U+2028, U+2029, U+202F, U+205F and U+3000. *)
Definition is_space3 (c c1 c2 : ascii) : bool :=
  let n := nat_of_ascii c in
  let n1 := nat_of_ascii c1 in
  let n2 := nat_of_ascii c2 in
  ((n =? 225) && (n1 =? 154) && (n2 =? 128)
   || (n =? 226) && (n1 =? 128)
      && ((128 <=? n2) && (n2 <=? 138) || (n2 =? 168) || (n2 =? 169) || (n2 =? 175))
   || (n =? 226) && (n1 =? 129) && (n2 =? 159)
   || (n =? 227) && (n1 =? 128) && (n2 =? 128))%nat.

(** [s.strip() == '']: every character of [s] is white space. *)
Fixpoint all_space (s : string) : bool :=
  match s with
  | EmptyString => true
  | String c r =>
      if is_space c then all_space r
      else
        match r with
        | EmptyString => false
        | String c1 r1 =>
            if is_space2 c c1 then all_space r1
            else
              match r1 with
              | EmptyString => false
              | String c2 r2 => if is_space3 c c1 c2 then all_space r2 else false
              end
        end
  end.

End PyStr.

(** ** Python lists, sorting and dictionaries *)
Module PyList.

Section Generic.
Context {A : Type}.

(** [list.sort(key=...)] is stable: an element is placed before the first
    later element whose key is not smaller.  [le a b] is [key a <= key b]. *)
Fixpoint insert_by (le : A -> A -> bool) (x : A) (l : list A) : list A :=
  match l with
  | [] => [x]
  | y :: r => if le x y then x :: y :: r else y :: insert_by le x r
  end.

Fixpoint sort_by (le : A -> A -> bool) (l : list A) : list A :=
  match l with
  | [] => []
  | x :: r => insert_by le x (sort_by le r)
  end.

(** [max(l, key=...)] and [min(l, key=...)]: the first extremal element;
    [None] is the ValueError on an empty list. *)
Definition max_by (key : A -> Q) (l : list A) : option A :=
  match l with
  | [] => None
  | x :: r => Some (fold_left (fun m y => if Py.ltb (key m) (key y) then y else m) r x)
  end.

Definition min_by (key : A -> Q) (l : list A) : option A :=
  match l with
  | [] => None
  | x :: r => Some (fold_left (fun m y => if Py.ltb (key y) (key m) then y else m) r x)
  end.

(** [l[i] = v] for an index in range. *)
Fixpoint set_nth (i : nat) (v : A) (l : list A) : list A :=
  match l, i with
  | [], _ => []
  | _ :: r, O => v :: r
  | x :: r, S j => x :: set_nth j v r
  end.

(** A dictionary with integer keys, in insertion order. *)
Definition dict : Type := list (Z * A).

Fixpoint get (d : dict) (k : Z) : option A :=
  match d with
  | [] => None
  | (k', v) :: r => if (k =? k')%Z then Some v else get r k
  end.

Definition keys (d : dict) : list Z := map fst d.

End Generic.

Arguments dict : clear implicits.

(** [d[k].append(v)] on a [defaultdict(list)]. *)
Fixpoint append_at {A : Type} (d : dict (list A)) (k : Z) (v : A) : dict (list A) :=
  match d with
  | [] => [(k, [v])]
  | (k', vs) :: r =>
      if (k =? k')%Z then (k', vs ++ [v]) :: r else (k', vs) :: append_at r k v
  end.

End PyList.

(** ** Bounding boxes: [(x0, top, x1, bottom)] *)
Record BBox : Type := mkBBox { bx0 : Q; btop : Q; bx1 : Q; bbottom : Q }.

Inductive Orientation : Type := Portrait | Landscape.

Definition Orientation_eqb (a b : Orientation) : bool :=
  match a, b with
  | Portrait, Portrait | Landscape, Landscape => true
  | _, _ => false
  end.

(** ** build_structure_map.py *)
Module BuildStructureMap.

(** [calculate_iou(box_a, box_b)].  [None] is the ZeroDivisionError of the
    final division. *)
Definition calculate_iou (box_a box_b : BBox) : option Q :=
  let x_left := Py.max2 (bx0 box_a) (bx0 box_b) in
  let y_top := Py.max2 (btop box_a) (btop box_b) in
  let x_right := Py.min2 (bx1 box_a) (bx1 box_b) in
  let y_bottom := Py.min2 (bbottom box_a) (bbottom box_b) in
  if Py.ltb x_right x_left || Py.ltb y_bottom y_top then Some 0
  else
    let intersection_area := (x_right - x_left) * (y_bottom - y_top) in
    let box_a_area := (bx1 box_a - bx0 box_a) * (bbottom box_a - btop box_a) in
    let box_b_area := (bx1 box_b - bx0 box_b) * (bbottom box_b - btop box_b) in
    let denominator := box_a_area + box_b_area - intersection_area in
    if Py.eqb denominator 0 then None
    else Some (intersection_area / denominator).

(** The tag stored under ["geom_type"]. *)
Inductive GeomType : Type :=
| GLine | LineHorizontal | LineVertical | GRect | VirtualLine.

Definition GeomType_eqb (a b : GeomType) : bool :=
  match a, b with
  | GLine, GLine | LineHorizontal, LineHorizontal | LineVertical, LineVertical
  | GRect, GRect | VirtualLine, VirtualLine => true
  | _, _ => false
  end.

(** A packaged geometry of a table element. *)
Record Geometry : Type := mkGeometry {
  gx0 : Q; gtop : Q; gx1 : Q; gbottom : Q; geom_type : GeomType
}.

Inductive Strategy : Type := Lattice | Stream | TextOnly.

(** A table element: [{"type": "table", "bbox", "parsing_strategy",
    "reason", "geometries"}]. *)
Record TableElement : Type := mkTableElement {
  tbbox : BBox;
  parsing_strategy : Strategy;
  reason : string;
  geometries : list Geometry
}.

(** An entry of [find_text_alignment_tables]' result:
    [{"bbox", "geometries"}]. *)
Record TextCandidate : Type := mkTextCandidate {
  cand_bbox : BBox;
  cand_geometries : list Geometry
}.

(** The primitives of [page_elements] (lines, rectangles, text blocks and
    images); only [type] and [bbox] are read by the deduplication step. *)
Inductive PrimType : Type := PLine | PRect | PTextBlock | PImage.

Record Primitive : Type := mkPrimitive { p_type : PrimType; p_bbox : BBox }.

(** An element of the page layout. *)
Inductive Element : Type :=
| Prim (p : Primitive)
| Table (t : TableElement).

Definition element_bbox (e : Element) : BBox :=
  match e with
  | Prim p => p_bbox p
  | Table t => tbbox t
  end.

(** The inner loop of step 4: does [calculate_iou(box, b) > threshold] hold
    for some [b], scanning in order and stopping at the first hit?  [None]
    when a scanned call raises. *)
Fixpoint any_iou_above (threshold : Q) (box : BBox) (boxes : list BBox) : option bool :=
  match boxes with
  | [] => Some false
  | b :: r =>
      match calculate_iou box b with
      | None => None
      | Some v => if Py.ltb threshold v then Some true else any_iou_above threshold box r
      end
  end.

(** The table element appended for a surviving text-alignment candidate. *)
Definition text_only_table (c : TextCandidate) : TableElement :=
  {| tbbox := cand_bbox c;
     parsing_strategy := TextOnly;
     reason := "Found by text alignment";
     geometries := cand_geometries c |}.

(** Lines 202-220: [final_tables]. *)
Fixpoint add_text_tables (geo_table_bboxes : list BBox)
    (text_table_bboxes : list TextCandidate) (final_tables : list TableElement)
  : option (list TableElement) :=
  match text_table_bboxes with
  | [] => Some final_tables
  | c :: r =>
      match any_iou_above (1 # 10) (cand_bbox c) geo_table_bboxes with
      | None => None
      | Some true => add_text_tables geo_table_bboxes r final_tables
      | Some false =>
          add_text_tables geo_table_bboxes r (final_tables ++ [text_only_table c])
      end
  end.

Definition dedup_tables (geometric_tables : list TableElement)
    (text_table_bboxes : list TextCandidate) : option (list TableElement) :=
  add_text_tables (map tbbox geometric_tables) text_table_bboxes geometric_tables.

(** Lines 222-233: [elements_to_keep] before the tables are added. *)
Fixpoint keep_elements (final_table_bboxes : list BBox) (page_elements : list Primitive)
  : option (list Primitive) :=
  match page_elements with
  | [] => Some []
  | el :: r =>
      let inside :=
        match p_type el with
        | PTextBlock => any_iou_above (8 # 10) (p_bbox el) final_table_bboxes
        | _ => Some false
        end in
      match inside with
      | None => None
      | Some is_inside_table =>
          match keep_elements final_table_bboxes r with
          | None => None
          | Some kept => Some (if is_inside_table then kept else el :: kept)
          end
      end
  end.

Definition top_le (a b : Element) : bool :=
  Py.leb (btop (element_bbox a)) (btop (element_bbox b)).

(** Step 4 of [analyze_page_layout]: the ["elements"] of the page layout. *)
Definition final_elements (page_elements : list Primitive)
    (geometric_tables : list TableElement) (text_table_bboxes : list TextCandidate)
  : option (list Element) :=
  match dedup_tables geometric_tables text_table_bboxes with
  | None => None
  | Some final_tables =>
      match keep_elements (map tbbox final_tables) page_elements with
      | None => None
      | Some elements_to_keep =>
          Some (PyList.sort_by top_le (map Prim elements_to_keep ++ map Table final_tables))
      end
  end.

(** Line 38 of [analyze_page_layout]:
    ["portrait" if page.width <= page.height else "landscape"]. *)
Definition page_orientation (width height : Q) : Orientation :=
  if Py.leb width height then Portrait else Landscape.

(** The [dimensions] entry written to the structure map:
    [(page.width, page.height)]. *)
Definition recorded_dimensions (width height : Q) : list Q := [width; height].

End BuildStructureMap.

(** A grid cell as the ruling-based segmenter returns it: [None] or a string. *)
Definition Cell : Type := option string.

(** ** lattice_table.py *)
Module LatticeTable.

Record TableInfo : Type := mkTableInfo {
  page_num : Z;
  table_index : Z;
  bbox : BBox;
  data : list (list Cell);
  max_cols : Z;
  orientation : Orientation;
  is_merged : bool;         (* absent key reads as [False] *)
  merged_pages : list Z     (* absent key reads as [[]] *)
}.

(** [table['id'] = (table['page_num'], table['table_index'])]. *)
Definition TableId : Type := (Z * Z)%type.
Definition table_id (t : TableInfo) : TableId := (page_num t, table_index t).

Definition id_eqb (a b : TableId) : bool :=
  (fst a =? fst b)%Z && (snd a =? snd b)%Z.

(** [id in processed_table_ids]; the set is kept as a list. *)
Definition id_in (i : TableId) (s : list TableId) : bool := existsb (id_eqb i) s.

(** The lines printed at a merge check: "检查合并: 第N页表格i与第N+1页表格j"
    followed by "决定: 合并表格" ([true]) or "决定: 不合并表格" ([false]). *)
Inductive Event : Type :=
| SkipOrientation (current_page next_page : Z)
| Decision (current_bottom next_top : TableId) (merge : bool).

(** Sort key [(x['page_num'], x['bbox'][1])], compared as a tuple. *)
Definition page_top_le (a b : TableInfo) : bool :=
  (page_num a <? page_num b)%Z
  || ((page_num a =? page_num b)%Z && Py.leb (btop (bbox a)) (btop (bbox b))).

(** What the loop over page pairs reads. *)
Record Context : Type := mkContext {
  tables_by_page : PyList.dict (list TableInfo);
  bottom_tables_by_page : PyList.dict TableInfo;
  top_tables_by_page : PyList.dict TableInfo;
  min_portrait_y0 : Q;
  max_portrait_y1 : Q;
  min_landscape_y0 : Q;
  max_landscape_y1 : Q
}.

Definition is_orientation (o : Orientation) (t : TableInfo) : bool :=
  Orientation_eqb (orientation t) o.

(** [min(values) if values else 0] and [max(values) if values else 0]. *)
Definition min_or_0 (values : list Q) : Q :=
  match Py.min_of values with Some m => m | None => 0 end.
Definition max_or_0 (values : list Q) : Q :=
  match Py.max_of values with Some m => m | None => 0 end.

(** One dictionary entry per page with tables, built with [pick]
    ([max]/[min] by key); the [if tables] guard skips an empty list. *)
Fixpoint pick_by_page (pick : list TableInfo -> option TableInfo)
    (d : PyList.dict (list TableInfo)) : PyList.dict TableInfo :=
  match d with
  | [] => []
  | (p, tables) :: r =>
      match pick tables with
      | Some t => (p, t) :: pick_by_page pick r
      | None => pick_by_page pick r
      end
  end.

(** [all_tables] here is the sorted copy. *)
Definition make_context (all_tables : list TableInfo) : Context :=
  let portrait_tables := filter (is_orientation Portrait) all_tables in
  let landscape_tables := filter (is_orientation Landscape) all_tables in
  let tables_by_page :=
    fold_left (fun d t => PyList.append_at d (page_num t) t) all_tables [] in
  {| tables_by_page := tables_by_page;
     bottom_tables_by_page :=
       pick_by_page (PyList.max_by (fun x => bbottom (bbox x))) tables_by_page;
     top_tables_by_page :=
       pick_by_page (PyList.min_by (fun x => btop (bbox x))) tables_by_page;
     min_portrait_y0 := min_or_0 (map (fun t => btop (bbox t)) portrait_tables);
     max_portrait_y1 := max_or_0 (map (fun t => bbottom (bbox t)) portrait_tables);
     min_landscape_y0 := min_or_0 (map (fun t => btop (bbox t)) landscape_tables);
     max_landscape_y1 := max_or_0 (map (fun t => bbottom (bbox t)) landscape_tables) |}.

Record LoopState : Type := mkLoopState {
  merged_tables : list TableInfo;
  processed_table_ids : list TableId;
  log : list Event
}.

Definition y0_tolerance : Q := 2.
Definition y1_tolerance : Q := 12.

Definition max_global_y1 (c : Context) (o : Orientation) : Q :=
  match o with Portrait => max_portrait_y1 c | Landscape => max_landscape_y1 c end.
Definition min_global_y0 (c : Context) (o : Orientation) : Q :=
  match o with Portrait => min_portrait_y0 c | Landscape => min_landscape_y0 c end.

Definition cols_match (cb nt : TableInfo) : bool := (max_cols cb =? max_cols nt)%Z.

Definition x_aligned (cb nt : TableInfo) : bool :=
  Py.ltb (Py.abs (bx0 (bbox cb) - bx0 (bbox nt))) 10
  && Py.ltb (Py.abs (bx1 (bbox cb) - bx1 (bbox nt))) 10.

Definition is_bottom_y1_max (c : Context) (cb : TableInfo) : bool :=
  Py.leb (max_global_y1 c (orientation cb) - bbottom (bbox cb)) y1_tolerance.

Definition is_top_y0_min (c : Context) (cb nt : TableInfo) : bool :=
  Py.leb (btop (bbox nt) - min_global_y0 c (orientation cb)) y0_tolerance.

Definition should_merge (c : Context) (cb nt : TableInfo) : bool :=
  cols_match cb nt && x_aligned cb nt && (is_bottom_y1_max c cb || is_top_y0_min c cb nt).

(** The merged table: a deep copy of the bottom table whose rows are
    extended by the top table's rows. *)
Definition merge_two (cb nt : TableInfo) (current_page next_page : Z) : TableInfo :=
  {| page_num := page_num cb;
     table_index := table_index cb;
     bbox := mkBBox (bx0 (bbox cb)) (btop (bbox cb)) (bx1 (bbox cb)) (bbottom (bbox nt));
     data := data cb ++ data nt;
     max_cols := max_cols cb;
     orientation := orientation cb;
     is_merged := true;
     merged_pages := [current_page; next_page] |}.

Definition tables_of (c : Context) (p : Z) : list TableInfo :=
  match PyList.get (tables_by_page c) p with Some l => l | None => [] end.

Definition is_nil {A : Type} (l : list A) : bool :=
  match l with [] => true | _ => false end.

(** The body of [for i in range(len(page_nums) - 1)] at
    [current_page = page_nums[i]], [next_page = page_nums[i + 1]]. *)
Definition merge_pair (c : Context) (st : LoopState) (current_page next_page : Z)
  : LoopState :=
  if negb (next_page =? current_page + 1)%Z then st
  else if is_nil (tables_of c current_page) || is_nil (tables_of c next_page) then st
  else
    match PyList.get (bottom_tables_by_page c) current_page with
    | None => st
    | Some cb =>
        if id_in (table_id cb) (processed_table_ids st) then st
        else
          match PyList.get (top_tables_by_page c) next_page with
          | None => st
          | Some nt =>
              if id_in (table_id nt) (processed_table_ids st) then st
              else if negb (Orientation_eqb (orientation cb) (orientation nt)) then
                {| merged_tables := merged_tables st;
                   processed_table_ids := processed_table_ids st;
                   log := log st ++ [SkipOrientation current_page next_page] |}
              else if should_merge c cb nt then
                {| merged_tables :=
                     merged_tables st ++ [merge_two cb nt current_page next_page];
                   processed_table_ids :=
                     processed_table_ids st ++ [table_id cb; table_id nt];
                   log := log st ++ [Decision (table_id cb) (table_id nt) true] |}
              else
                {| merged_tables := merged_tables st ++ [cb];
                   processed_table_ids := processed_table_ids st ++ [table_id cb];
                   log := log st ++ [Decision (table_id cb) (table_id nt) false] |}
          end
    end.

(** [(page_nums[i], page_nums[i+1])] for [i] in [range(len(page_nums) - 1)]. *)
Definition page_pairs (page_nums : list Z) : list (Z * Z) :=
  combine page_nums (tl page_nums).

Definition merge_loop (c : Context) (page_nums : list Z) (st : LoopState) : LoopState :=
  fold_left (fun s pq => merge_pair c s (fst pq) (snd pq)) (page_pairs page_nums) st.

(** "添加最后一页的底部表格（如果未处理）". *)
Definition add_last_bottom (c : Context) (page_nums : list Z) (st : LoopState)
  : LoopState :=
  match PyList.get (bottom_tables_by_page c) (last page_nums 0%Z) with
  | Some lb =>
      if id_in (table_id lb) (processed_table_ids st) then st
      else {| merged_tables := merged_tables st ++ [lb];
              processed_table_ids := processed_table_ids st ++ [table_id lb];
              log := log st |}
  | None => st
  end.

(** "添加未处理的表格". *)
Definition add_unprocessed (all_tables : list TableInfo) (st : LoopState) : LoopState :=
  fold_left
    (fun s t =>
       if id_in (table_id t) (processed_table_ids s) then s
       else {| merged_tables := merged_tables s ++ [t];
               processed_table_ids := processed_table_ids s ++ [table_id t];
               log := log s |})
    all_tables st.

(** [merge_cross_page_tables] with its final loop state; [page_orientations]
    is not read by the function body and is left out. *)
Definition merge_cross_page_run (all_tables : list TableInfo) : LoopState :=
  let all_tables := PyList.sort_by page_top_le all_tables in
  let c := make_context all_tables in
  let page_nums := PyList.sort_by Z.leb (PyList.keys (tables_by_page c)) in
  let st := merge_loop c page_nums (mkLoopState [] [] []) in
  add_unprocessed all_tables (add_last_bottom c page_nums st).

Definition merge_cross_page_tables (all_tables : list TableInfo) : list TableInfo :=
  if is_nil all_tables then []
  else merged_tables (merge_cross_page_run all_tables).

(** *** Centered-text repair *)

(** [cell is None or (isinstance(cell, str) and cell.strip() == '')]. *)
Definition is_empty_cell (cell : Cell) : bool :=
  match cell with
  | None => true
  | Some s => PyStr.all_space s
  end.

(** [is_empty_column(table, col_idx)]. *)
Definition is_empty_column (table : list (list Cell)) (col_idx : nat) : bool :=
  forallb
    (fun row =>
       negb ((col_idx <? List.length row)%nat && negb (is_empty_cell (nth col_idx row None))))
    table.

(** The [while col_idx < len(row) - 2] loop on one (mutable) row; [fuel]
    bounds the number of iterations. *)
Fixpoint scan_row (fuel : nat) (row : list Cell) (col_idx : nat) : list Cell :=
  match fuel with
  | O => row
  | S fuel' =>
      if (col_idx + 2 <? List.length row)%nat then
        if is_empty_cell (nth col_idx row None)
           && negb (is_empty_cell (nth (col_idx + 1) row None))
           && ((col_idx + 2 <? List.length row)%nat
               && is_empty_cell (nth (col_idx + 2) row None))
        then
          let row1 := PyList.set_nth col_idx (nth (col_idx + 1) row None) row in
          let row2 := PyList.set_nth (col_idx + 1) None row1 in
          scan_row fuel' row2 (col_idx + 3)
        else scan_row fuel' row (col_idx + 1)
      else row
  end.

(** Every iteration advances [col_idx], so [len(row)] iterations suffice. *)
Definition fix_row (row : list Cell) : list Cell := scan_row (List.length row) row 0.

(** [max(len(row) for row in table_data)] on a non-empty table. *)
Definition current_cols (table_data : list (list Cell)) : nat :=
  fold_right Nat.max O (map (@List.length Cell) table_data).

(** [remove_empty_columns(table_data, empty_cols)]. *)
Definition remove_empty_columns (table_data : list (list Cell)) (empty_cols : list nat)
  : list (list Cell) :=
  if is_nil empty_cols then table_data
  else
    map (fun row =>
           map snd
             (filter (fun ic => negb (existsb (Nat.eqb (fst ic)) empty_cols))
                     (combine (seq 0 (List.length row)) row)))
        table_data.

(** [fix_centered_text_issues(table_data, estimated_cols)]. *)
Definition fix_centered_text_issues (table_data : list (list Cell)) (estimated_cols : Z)
  : list (list Cell) :=
  if is_nil table_data then table_data
  else
    if (Z.abs (Z.of_nat (current_cols table_data) - estimated_cols) <=? 1)%Z
    then table_data
    else
      let processed_table := map fix_row table_data in
      let empty_cols :=
        filter (is_empty_column processed_table) (seq 0 (current_cols table_data)) in
      remove_empty_columns processed_table empty_cols.

(** Lines 70-72 of [extract_lattice_tables]:
    [dimensions[0] < dimensions[1] if len(dimensions) >= 2 else True]. *)
Definition is_portrait (dimensions : list Q) : bool :=
  match dimensions with
  | d0 :: d1 :: _ => Py.ltb d0 d1
  | _ => true
  end.

Definition page_orientation (dimensions : list Q) : Orientation :=
  if is_portrait dimensions then Portrait else Landscape.

End LatticeTable.

(** ** lattice_table_detector.py *)
Module LatticeTableDetector.

(** A ruling: [x0], [top], [x1] and an optional [bottom], read as
    [line.get('bottom', line['top'])]. *)
Record Line : Type := mkLine { x0 : Q; top : Q; x1 : Q; bottom : option Q }.

Definition bottom_or_top (l : Line) : Q :=
  match bottom l with Some b => b | None => top l end.

Definition Point : Type := (Q * Q)%type.
Definition ClosedCell : Type := (Point * Point)%type.

Definition point_eqb (p q : Point) : bool :=
  Py.eqb (fst p) (fst q) && Py.eqb (snd p) (snd q).

(** Keeps the first occurrence of every value: the loop
    [if point not in unique: unique.append(point)], and [set(...)]. *)
Definition unique_by {A : Type} (eqb : A -> A -> bool) (l : list A) : list A :=
  fold_left (fun u p => if existsb (eqb p) u then u else u ++ [p]) l [].

(** [find_line_intersections(h_lines, v_lines)]. *)
Definition find_line_intersections (h_lines v_lines : list Line) : list Point :=
  let intersections :=
    flat_map
      (fun h_line =>
         let h_y := top h_line in
         let h_x0 := x0 h_line in
         let h_x1 := x1 h_line in
         flat_map
           (fun v_line =>
              let v_x := x0 v_line in
              let v_y0 := top v_line in
              let v_y1 := bottom_or_top v_line in
              if Py.leb h_x0 v_x && Py.leb v_x h_x1
                 && Py.leb v_y0 h_y && Py.leb h_y v_y1
              then [(v_x, h_y)] else [])
           v_lines)
      h_lines in
  unique_by point_eqb intersections.

(** [(l[i], l[i+1])] for [i] in [range(len(l) - 1)]. *)
Definition adjacent (l : list Q) : list (Q * Q) := combine l (tl l).

Definition top_edge (h_lines : list Line) (x1_ y1_ x2_ : Q) : bool :=
  existsb (fun h => Py.eqb (top h) y1_ && Py.leb (x0 h) x1_ && Py.leb x2_ (x1 h)) h_lines.

Definition bottom_edge (h_lines : list Line) (x1_ y2_ x2_ : Q) : bool :=
  existsb (fun h => Py.eqb (top h) y2_ && Py.leb (x0 h) x1_ && Py.leb x2_ (x1 h)) h_lines.

Definition left_edge (v_lines : list Line) (x1_ y1_ y2_ : Q) : bool :=
  existsb (fun v => Py.eqb (x0 v) x1_ && Py.leb (top v) y1_ && Py.leb y2_ (bottom_or_top v))
          v_lines.

Definition right_edge (v_lines : list Line) (x2_ y1_ y2_ : Q) : bool :=
  existsb (fun v => Py.eqb (x0 v) x2_ && Py.leb (top v) y1_ && Py.leb y2_ (bottom_or_top v))
          v_lines.

(** [sum([top_edge, bottom_edge, left_edge, right_edge])]. *)
Definition edges_count (h_lines v_lines : list Line) (c : ClosedCell) : nat :=
  let '((x1_, y1_), (x2_, y2_)) := c in
  Nat.b2n (top_edge h_lines x1_ y1_ x2_) + Nat.b2n (bottom_edge h_lines x1_ y2_ x2_)
  + Nat.b2n (left_edge v_lines x1_ y1_ y2_) + Nat.b2n (right_edge v_lines x2_ y1_ y2_).

(** [find_closed_cells(h_lines, v_lines, intersections)]. *)
Definition find_closed_cells (h_lines v_lines : list Line) (intersections : list Point)
  : list ClosedCell :=
  let sorted_x := PyList.sort_by Py.leb (unique_by Py.eqb (map fst intersections)) in
  let sorted_y := PyList.sort_by Py.leb (unique_by Py.eqb (map snd intersections)) in
  flat_map
    (fun xs =>
       flat_map
         (fun ys =>
            let '(x1_, x2_) := xs in
            let '(y1_, y2_) := ys in
            let cell_width := x2_ - x1_ in
            let cell_height := y2_ - y1_ in
            if Py.ltb cell_width 1 || Py.ltb cell_height 1 then []
            else if (3 <=? edges_count h_lines v_lines ((x1_, y1_), (x2_, y2_)))%nat
                 then [((x1_, y1_), (x2_, y2_))]
                 else [])
         (adjacent sorted_y))
    (adjacent sorted_x).

End LatticeTableDetector.

(** A word of a text block: [{"text", "x0", "x1", "top", "bottom"}]. *)
Record Word : Type := mkWord {
  w_text : string; w_x0 : Q; w_x1 : Q; w_top : Q; w_bottom : Q
}.

(** A text block of the structure map with its words. *)
Record TextBlock : Type := mkTextBlock {
  tb_text : string; tb_bbox : BBox; tb_words : list Word
}.

(** Warnings printed while words are placed. *)
Inductive Diagnostic : Type :=
| UnableToAssign (text : string) (row : nat)   (* "Unable to strictly assign word" *)
| NoOverlap (text : string) (row : nat)        (* "has no overlap with any column" *)
| NoTextInTable                                (* "No text found in table" *)
| NoValidRows                                  (* "No valid rows detected" *)
| BoundariesOverlap (col : nat)                (* "Column boundaries overlap" *)
| NoSeparatorsFound.                           (* "表格中未找到垂直线" *)

(** Banding of the text blocks of a table into rows, shared by the stream
    and the text-only placer (thresholds 2 and 5). *)
Module Rows.

(** [tb.bbox] within the table's bbox, 5 units of slack on every side. *)
Definition in_table (tbl : BBox) (tb : TextBlock) : bool :=
  Py.leb (bx0 tbl - 5) (bx0 (tb_bbox tb)) && Py.leb (bx1 (tb_bbox tb)) (bx1 tbl + 5)
  && Py.leb (btop tbl - 5) (btop (tb_bbox tb))
  && Py.leb (bbottom (tb_bbox tb)) (bbottom tbl + 5).

Definition by_top (a b : TextBlock) : bool := Py.leb (btop (tb_bbox a)) (btop (tb_bbox b)).
Definition by_x0 (a b : TextBlock) : bool := Py.leb (bx0 (tb_bbox a)) (bx0 (tb_bbox b)).

Record Banding : Type := mkBanding {
  text_rows : list (list TextBlock);
  current_row_texts : list TextBlock;
  current_top : Q
}.

Definition band_step (threshold : Q) (st : Banding) (text : TextBlock) : Banding :=
  let st1 :=
    if Py.ltb threshold (btop (tb_bbox text) - current_top st) then
      match current_row_texts st with
      | [] => mkBanding (text_rows st) [] (btop (tb_bbox text))
      | row => mkBanding (text_rows st ++ [PyList.sort_by by_x0 row]) []
                         (btop (tb_bbox text))
      end
    else st in
  mkBanding (text_rows st1) (current_row_texts st1 ++ [text]) (current_top st1).

(** [table_texts] is non-empty and already sorted by [top]. *)
Definition band (threshold : Q) (first : TextBlock) (table_texts : list TextBlock)
  : list (list TextBlock) :=
  let st := fold_left (band_step threshold) table_texts
                      (mkBanding [] [] (btop (tb_bbox first))) in
  match current_row_texts st with
  | [] => text_rows st
  | row => text_rows st ++ [PyList.sort_by by_x0 row]
  end.

(** [processed_row[i]] extended by [text], joined with a blank. *)
Definition put (processed_row : list string) (i : nat) (text : string) : list string :=
  let old := nth i processed_row EmptyString in
  PyList.set_nth i
    (match old with
     | EmptyString => text
     | _ => (old ++ " " ++ text)%string
     end)
    processed_row.

End Rows.

(** ** stream_table.py *)
Module StreamTable.

Definition by_word_x0 (a b : Word) : bool := Py.leb (w_x0 a) (w_x0 b).

(** "从文本块行中提取词元行": the words of a row, sorted by [x0]. *)
Definition word_rows_of (text_rows : list (list TextBlock)) : list (list Word) :=
  map (fun text_row => PyList.sort_by by_word_x0 (flat_map tb_words text_row)) text_rows.

(** Lines 110-119: one iteration of the loop that tracks
    [(max_words_count, max_words_rows)]. *)
Definition count_step (acc : nat * list (list Word)) (words_in_row : list Word)
  : nat * list (list Word) :=
  let '(max_words_count, max_words_rows) := acc in
  let words_count := List.length words_in_row in
  if (max_words_count <? words_count)%nat then (words_count, [words_in_row])
  else if (words_count =? max_words_count)%nat
       then (max_words_count, max_words_rows ++ [words_in_row])
       else acc.

Definition max_words (word_rows : list (list Word)) : nat * list (list Word) :=
  fold_left count_step word_rows (O, []).

Definition max_words_count (word_rows : list (list Word)) : nat := fst (max_words word_rows).
Definition max_words_rows (word_rows : list (list Word)) : list (list Word) :=
  snd (max_words word_rows).

(** [cols[i].append(v)]. *)
Fixpoint append_col (cols : list (list Q)) (i : nat) (v : Q) : list (list Q) :=
  match cols, i with
  | [], _ => []
  | c :: r, O => (c ++ [v]) :: r
  | c :: r, S j => c :: append_col r j v
  end.

(** Lines 129-137 for one coordinate [f] ([x0] or [x1]): the values of the
    words at each ordinal position of the given rows. *)
Definition collect (f : Word -> Q) (count : nat) (rows : list (list Word))
  : list (list Q) :=
  fold_left
    (fun cols row =>
       fold_left
         (fun cols' iw =>
            if (fst iw <? count)%nat then append_col cols' (fst iw) (f (snd iw))
            else cols')
         (combine (seq 0 (List.length row)) row) cols)
    rows (repeat [] count).

(** Lines 140-146 on the lists collected from [rows]. *)
Definition boundaries_from (count : nat) (rows : list (list Word)) : list (Q * Q) :=
  let column_x0s := collect w_x0 count rows in
  let column_x1s := collect w_x1 count rows in
  flat_map
    (fun i =>
       match Py.min_of (nth i column_x0s []), Py.max_of (nth i column_x1s []) with
       | Some lo, Some hi => [(lo, hi)]
       | _, _ => []
       end)
    (seq 0 count).

(** [column_boundaries] of a table with the given word rows. *)
Definition column_boundaries (word_rows : list (list Word)) : list (Q * Q) :=
  boundaries_from (max_words_count word_rows) (max_words_rows word_rows).

(** [is_standard_row = len(words_in_row) == max_words_count]. *)
Definition is_standard_row (word_rows : list (list Word)) (words_in_row : list Word)
  : bool :=
  (List.length words_in_row =? max_words_count word_rows)%nat.

(** Lines 170-177: the first column that contains the word, 1 unit of slack. *)
Fixpoint first_containing (word_x0 word_x1 : Q) (bs : list (Q * Q)) (col_idx : nat)
  : option nat :=
  match bs with
  | [] => None
  | (col_x0, col_x1) :: r =>
      if Py.leb (col_x0 - 1) word_x0 && Py.leb word_x1 (col_x1 + 1) then Some col_idx
      else first_containing word_x0 word_x1 r (S col_idx)
  end.

(** Lines 183-195: [(max_overlap, best_col_idx)], [None] standing for -1. *)
Fixpoint best_overlap (word_x0 word_x1 : Q) (bs : list (Q * Q)) (col_idx : nat)
    (acc : Q * option nat) : Q * option nat :=
  match bs with
  | [] => acc
  | (col_x0, col_x1) :: r =>
      let overlap_start := Py.max2 word_x0 col_x0 in
      let overlap_end := Py.min2 word_x1 col_x1 in
      let overlap := Py.max2 0 (overlap_end - overlap_start) in
      best_overlap word_x0 word_x1 r (S col_idx)
        (if Py.ltb (fst acc) overlap then (overlap, Some col_idx) else acc)
  end.

(** The body of [for word in words_in_row]. *)
Definition place_word (standard : bool) (bs : list (Q * Q)) (row_idx : nat)
    (st : list string * list Diagnostic) (word : Word) : list string * list Diagnostic :=
  let '(processed_row, diags) := st in
  if standard then
    match first_containing (w_x0 word) (w_x1 word) bs O with
    | Some col_idx => (Rows.put processed_row col_idx (w_text word), diags)
    | None => (processed_row, diags ++ [UnableToAssign (w_text word) (S row_idx)])
    end
  else
    match snd (best_overlap (w_x0 word) (w_x1 word) bs O (0, None)) with
    | Some best_col_idx => (Rows.put processed_row best_col_idx (w_text word), diags)
    | None => (processed_row, diags ++ [NoOverlap (w_text word) (S row_idx)])
    end.

Definition place_row (word_rows : list (list Word)) (bs : list (Q * Q)) (row_idx : nat)
    (words_in_row : list Word) : list string * list Diagnostic :=
  fold_left (place_word (is_standard_row word_rows words_in_row) bs row_idx)
            words_in_row (repeat EmptyString (List.length bs), []).

(** Lines 149-151: adjacent boundaries that touch or overlap. *)
Definition overlap_warnings (bs : list (Q * Q)) : list Diagnostic :=
  flat_map
    (fun ib =>
       let '(i, (b, b')) := ib in
       if Py.leb (fst b') (snd b) then [BoundariesOverlap (S i)] else [])
    (combine (seq 0 (List.length bs)) (combine bs (tl bs))).

(** Step 3 over all rows: the grid and the warnings, in order. *)
Definition place_rows (word_rows : list (list Word)) : list (list string) * list Diagnostic :=
  let bs := column_boundaries word_rows in
  let placed :=
    map (fun ir => place_row word_rows bs (fst ir) (snd ir))
        (combine (seq 0 (List.length word_rows)) word_rows) in
  (map fst placed, overlap_warnings bs ++ flat_map snd placed).

(** One stream table of a page: the grid written to the CSV file ([None]
    when the table is skipped) and the warnings. *)
Definition extract_table (tbl : BBox) (text_elements : list TextBlock)
  : option (list (list string)) * list Diagnostic :=
  let table_texts := filter (Rows.in_table tbl) text_elements in
  match PyList.sort_by Rows.by_top table_texts with
  | [] => (None, [NoTextInTable])
  | first :: rest =>
      let word_rows := word_rows_of (Rows.band 2 first (first :: rest)) in
      if (max_words_count word_rows =? 0)%nat then (None, [NoValidRows])
      else let '(grid, diags) := place_rows word_rows in (Some grid, diags)
  end.

End StreamTable.

(** ** text_only.py *)
Module TextOnly.

(** Steps 2-4: the sorted separators, extended by the table's edges. *)
Definition column_separators (tbl : BBox) (geoms : list BuildStructureMap.Geometry)
  : list Q * list Diagnostic :=
  let virtual_lines :=
    filter (fun g => BuildStructureMap.GeomType_eqb (BuildStructureMap.geom_type g)
                       BuildStructureMap.VirtualLine) geoms in
  let seps :=
    PyList.sort_by Py.leb
      (map BuildStructureMap.gx0
           (filter (fun l => Py.eqb (BuildStructureMap.gx0 l) (BuildStructureMap.gx1 l))
                   virtual_lines)) in
  match seps with
  | [] => ([bx0 tbl; bx1 tbl], [NoSeparatorsFound])
  | s0 :: _ =>
      let seps1 := if Py.ltb (bx0 tbl + 5) s0 then bx0 tbl :: seps else seps in
      let seps2 :=
        if Py.ltb (last seps1 0) (bx1 tbl - 5) then seps1 ++ [bx1 tbl] else seps1 in
      (seps2, [])
  end.

(** Lines 130-134: the number of separators, from the second on, that the
    word's center has reached before the first one it is left of. *)
Fixpoint count_passed (word_center : Q) (seps : list Q) : nat :=
  match seps with
  | [] => O
  | s :: r => if Py.ltb word_center s then O else S (count_passed word_center r)
  end.

Definition column_of (seps : list Q) (word : Word) : nat :=
  let word_center := (w_x0 word + w_x1 word) / 2 in
  count_passed word_center (tl seps).

(** The body of [for word in text_block.get('words', [])]: no branch of it
    prints. *)
Definition place_word (seps : list Q) (st : list string * list Diagnostic) (word : Word)
  : list string * list Diagnostic :=
  let '(processed_row, diags) := st in
  let col_idx := column_of seps word in
  if (col_idx <? List.length processed_row)%nat
  then (Rows.put processed_row col_idx (w_text word), diags)
  else (processed_row, diags).

Definition place_row (seps : list Q) (row : list TextBlock)
  : list string * list Diagnostic :=
  fold_left (place_word seps) (flat_map tb_words row)
            (repeat EmptyString (List.length seps - 1), []).

(** One text-only table of a page: the grid written to the CSV file and
    the warnings. *)
Definition extract_table (t : BuildStructureMap.TableElement)
    (text_elements : list TextBlock) : option (list (list string)) * list Diagnostic :=
  let tbl := BuildStructureMap.tbbox t in
  let '(seps, d0) := column_separators tbl (BuildStructureMap.geometries t) in
  let table_texts := filter (Rows.in_table tbl) text_elements in
  match PyList.sort_by Rows.by_top table_texts with
  | [] => (None, d0 ++ [NoTextInTable])
  | first :: rest =>
      let placed := map (place_row seps) (Rows.band 5 first (first :: rest)) in
      (Some (map fst placed), d0 ++ flat_map snd placed)
  end.

End TextOnly.

(** ** text_alignment_table_finder.py *)
Module TextAlignment.

(** [int(x)] on a float: truncation toward zero. *)
Definition py_int (q : Q) : Z := Z.quot (Qnum q) (Zpos (Qden q)).

(** What the loop body does with one band. *)
Inductive Outcome : Type :=
| Emitted (c : BuildStructureMap.TextCandidate)
| Rejected          (* [continue] *)
| Raised.           (* an exception *)

(** [(min x0, min top, max x1, max bottom)] over the words of the band. *)
Definition group_bbox (group : list (list Word)) : option BBox :=
  let ws := List.concat group in
  match Py.min_of (map w_x0 ws), Py.min_of (map w_top ws),
        Py.max_of (map w_x1 ws), Py.max_of (map w_bottom ws) with
  | Some a, Some b, Some c, Some d => Some (mkBBox a b c d)
  | _, _, _, _ => None
  end.

(** [Counter(l)]: the counts, in the order of first occurrence. *)
Fixpoint counter_add (c : list (nat * nat)) (k : nat) : list (nat * nat) :=
  match c with
  | [] => [(k, 1%nat)]
  | (k', n) :: r => if (k =? k')%nat then (k', S n) :: r else (k', n) :: counter_add r k
  end.

Definition counter (l : list nat) : list (nat * nat) := fold_left counter_add l [].

(** [most_common(1)]: the first entry with the greatest count. *)
Definition most_common_1 (c : list (nat * nat)) : option (nat * nat) :=
  match c with
  | [] => None
  | e :: r => Some (fold_left (fun m e' => if (snd m <? snd e')%nat then e' else m) r e)
  end.

(** [for i in range(lo, hi): projection[i] += 1]. *)
Fixpoint incr_range (lo hi : Z) (i : Z) (projection : list nat) : list nat :=
  match projection with
  | [] => []
  | v :: r =>
      (if (lo <=? i)%Z && (i <? hi)%Z then S v else v) :: incr_range lo hi (i + 1) r
  end.

Definition projection_of (box : BBox) (table_width : Z) (template_words : list Word)
  : list nat :=
  fold_left
    (fun projection word =>
       let start_x := py_int (w_x0 word - bx0 box) in
       let end_x := py_int (w_x1 word - bx0 box) in
       incr_range (Z.max 0 start_x) (Z.min table_width end_x) 0 projection)
    template_words (repeat O (Z.to_nat table_width)).

(** A gap [(start, end, width)]. *)
Definition Gap : Type := (Z * Z * Z)%type.
Definition gap_start (g : Gap) : Z := fst (fst g).
Definition gap_end (g : Gap) : Z := snd (fst g).
Definition gap_width (g : Gap) : Z := snd g.

(** Lines 95-101 from index [i] on; [rest] is [projection[i:]]. *)
Fixpoint scan_gaps (rest : list nat) (i : Z) (in_gap : bool) (start : Z)
    (gaps : list Gap) : bool * Z * list Gap :=
  match rest with
  | [] => (in_gap, start, gaps)
  | v :: r =>
      let is_zero := (v =? 0)%nat in
      if is_zero && negb in_gap then scan_gaps r (i + 1) true i gaps
      else if negb is_zero && in_gap
           then scan_gaps r (i + 1) false start (gaps ++ [(start, i, (i - start)%Z)])
           else scan_gaps r (i + 1) in_gap start gaps
  end.

(** Lines 92-102; [None] is the IndexError of [projection[0]]. *)
Definition find_gaps (projection : list nat) (table_width : Z) : option (list Gap) :=
  match projection with
  | [] => None
  | p0 :: r =>
      let in_gap := (p0 =? 0)%nat in
      let start := if in_gap then 0%Z else (-1)%Z in
      let '(in_gap', start', gaps) := scan_gaps r 1 in_gap start [] in
      Some (if in_gap'
            then gaps ++ [(start', table_width, (table_width - start')%Z)]
            else gaps)
  end.

Definition min_gap_width : Z := 3.

(** [sort(key=lambda g: g[2], reverse=True)]: widest first, ties in their
    original order. *)
Definition wider_first (a b : Gap) : bool := (gap_width b <=? gap_width a)%Z.

Definition wide_gaps (gaps : list Gap) : list Gap :=
  PyList.sort_by wider_first (filter (fun g => (min_gap_width <? gap_width g)%Z) gaps).

(** The virtual line of a gap: at the gap's middle, from the band's top to
    its bottom. *)
Definition virtual_line (box : BBox) (g : Gap) : BuildStructureMap.Geometry :=
  let separator_x := bx0 box + inject_Z (gap_start g) + inject_Z (gap_width g) / 2 in
  {| BuildStructureMap.gx0 := separator_x;
     BuildStructureMap.gtop := btop box;
     BuildStructureMap.gx1 := separator_x;
     BuildStructureMap.gbottom := bbottom box;
     BuildStructureMap.geom_type := BuildStructureMap.VirtualLine |}.

(** [most_common_word_count] of a band. *)
Definition modal_count (group : list (list Word)) : option nat :=
  option_map fst (most_common_1 (counter (map (@List.length Word) group))).

Definition template_words (group : list (list Word)) (m : nat) : list Word :=
  flat_map (fun row => if (List.length row =? m)%nat then row else []) group.

(** The projection and the gaps of a band, when it gets that far. *)
Definition band_projection (group : list (list Word)) (box : BBox) (m : nat) : list nat :=
  projection_of box (py_int (bx1 box - bx0 box)) (template_words group m).

(** The body of [for group in table_line_groups]. *)
Definition process_group (group : list (list Word)) : Outcome :=
  match group_bbox group with
  | None => Raised
  | Some box =>
      match modal_count group with
      | None => Rejected
      | Some m =>
          if (m <? 2)%nat then Rejected
          else if LatticeTable.is_nil (template_words group m) then Rejected
          else
            let table_width := py_int (bx1 box - bx0 box) in
            if (table_width <=? 0)%Z then Rejected
            else
              match find_gaps (band_projection group box m) table_width with
              | None => Raised
              | Some gaps =>
                  let num_expected_gaps := (m - 1)%nat in
                  let top_gaps := firstn num_expected_gaps (wide_gaps gaps) in
                  if (List.length top_gaps <? num_expected_gaps)%nat then Rejected
                  else
                    Emitted {| BuildStructureMap.cand_bbox := box;
                               BuildStructureMap.cand_geometries :=
                                 map (virtual_line box) top_gaps |}
              end
      end
  end.

(** Lines 21-34: the words, sorted by [(top, x0)], clustered into lines. *)
Definition top_x0_le (a b : Word) : bool :=
  Py.ltb (w_top a) (w_top b) || (Py.eqb (w_top a) (w_top b) && Py.leb (w_x0 a) (w_x0 b)).

Definition by_x0 (a b : Word) : bool := Py.leb (w_x0 a) (w_x0 b).

(** [(bottom - top) * 0.7 if (bottom - top) > 0 else 3]. *)
Definition tolerance_of (w : Word) : Q :=
  if Py.ltb 0 (w_bottom w - w_top w) then (w_bottom w - w_top w) * (7 # 10) else 3.

Record Clustering : Type := mkClustering {
  lines : list (list Word);
  current_line : list Word;
  tolerance : Q
}.

Definition cluster_step (st : Clustering) (word : Word) : Clustering :=
  if Py.ltb (Py.abs (w_top word - w_top (last (current_line st) word))) (tolerance st)
  then mkClustering (lines st) (current_line st ++ [word]) (tolerance st)
  else mkClustering (lines st ++ [PyList.sort_by by_x0 (current_line st)]) [word]
                    (tolerance_of word).

Definition cluster_lines (words : list Word) : list (list Word) :=
  match words with
  | [] => []
  | w0 :: rest =>
      let st := fold_left cluster_step rest (mkClustering [] [w0] (tolerance_of w0)) in
      lines st ++ [PyList.sort_by by_x0 (current_line st)]
  end.

(** Line 41: the heights of the first words of the lines, where positive. *)
Definition avg_heights (lines : list (list Word)) : list Q :=
  flat_map
    (fun l =>
       match l with
       | w :: _ => if Py.ltb (w_top w) (w_bottom w) then [w_bottom w - w_top w] else []
       | [] => []
       end)
    lines.

Definition average (l : list Q) : Q :=
  fold_left Qplus l 0 / inject_Z (Z.of_nat (List.length l)).

(** Lines 46-58: consecutive lines closer than [max_line_gap] form a band;
    bands of at least 3 lines are kept.  [None] is the ValueError of [max]
    or [min] on a line without words. *)
Definition keep_group (groups : list (list (list Word))) (current_group : list (list Word))
  : list (list (list Word)) :=
  if (3 <=? List.length current_group)%nat then groups ++ [current_group] else groups.

Definition group_step (max_line_gap : Q)
    (st : option (list (list (list Word)) * list (list Word))) (line : list Word)
  : option (list (list (list Word)) * list (list Word)) :=
  match st with
  | None => None
  | Some (groups, current_group) =>
      match Py.max_of (map w_bottom (last current_group [])),
            Py.min_of (map w_top line) with
      | Some prev_line_bottom, Some current_line_top =>
          if Py.ltb (current_line_top - prev_line_bottom) max_line_gap
          then Some (groups, current_group ++ [line])
          else Some (keep_group groups current_group, [line])
      | _, _ => None
      end
  end.

Definition table_line_groups (lines : list (list Word)) : option (list (list (list Word))) :=
  match lines with
  | [] => Some []
  | l0 :: rest =>
      match avg_heights lines with
      | [] => Some []
      | hs =>
          let max_line_gap := average hs * 2 in
          match fold_left (group_step max_line_gap) rest (Some ([], [l0])) with
          | None => None
          | Some (groups, current_group) => Some (keep_group groups current_group)
          end
      end
  end.

(** Lines 61-130: the tables of the bands, in order. *)
Fixpoint collect_tables (groups : list (list (list Word)))
  : option (list BuildStructureMap.TextCandidate) :=
  match groups with
  | [] => Some []
  | g :: r =>
      match process_group g with
      | Raised => None
      | Rejected => collect_tables r
      | Emitted c =>
          match collect_tables r with
          | None => None
          | Some cs => Some (c :: cs)
          end
      end
  end.

(** [find_text_alignment_tables] on the words that [page.extract_words]
    returns. *)
Definition find_text_alignment_tables (words : list Word)
  : option (list BuildStructureMap.TextCandidate) :=
  match table_line_groups (cluster_lines (PyList.sort_by top_x0_le words)) with
  | None => None
  | Some groups => collect_tables groups
  end.

End TextAlignment.

(** ** geometric_table_finder.py *)
Module GeometricTableFinder.

(** A line or rectangle record of the page as the page source hands it
    out; [geom_type] is [None] while the key is absent. *)
Record RawGeom : Type := mkRawGeom {
  x0 : Q; top : Q; x1 : Q; bottom : option Q;
  width : Q; height : Q;
  geom_type : option BuildStructureMap.GeomType
}.

Definition set_geom_type (g : RawGeom) (t : BuildStructureMap.GeomType) : RawGeom :=
  {| x0 := x0 g; top := top g; x1 := x1 g; bottom := bottom g;
     width := width g; height := height g; geom_type := Some t |}.

(** The records behind [page.lines] and [page.rects]; a record is
    identified by its position. *)
Record PageRecords : Type := mkPageRecords {
  lines : list RawGeom;
  rects : list RawGeom
}.

(** Lines 31-46: the assignments to [l['geom_type']]. *)
Definition classify_line (l : RawGeom) : RawGeom :=
  let width_ := x1 l - x0 l in
  let height_ := (match bottom l with Some b => b | None => top l end) - top l in
  match geom_type l with
  | None | Some BuildStructureMap.GLine =>
      if Py.eqb (x0 l) (x1 l) then set_geom_type l BuildStructureMap.LineVertical
      else if Py.eqb (top l) (match bottom l with Some b => b | None => top l end)
           then set_geom_type l BuildStructureMap.LineHorizontal
           else if Py.ltb height_ width_
                then set_geom_type l BuildStructureMap.LineHorizontal
                else set_geom_type l BuildStructureMap.LineVertical
  | Some _ => l
  end.

(** Lines 50-59: the assignments to [r['geom_type']]. *)
Definition classify_rect (r : RawGeom) : RawGeom :=
  if Py.ltb 5 (width r) && Py.leb (height r) 1
  then set_geom_type r BuildStructureMap.LineHorizontal
  else if Py.ltb 5 (height r) && Py.leb (width r) 1
       then set_geom_type r BuildStructureMap.LineVertical
       else set_geom_type r BuildStructureMap.GRect.

(** Lines 30-60 of [find_geometric_tables]: the page's records after the
    two loops, and [all_geoms], whose entries are those same records. *)
Definition collect_geoms (page : PageRecords) : PageRecords * list RawGeom :=
  let lines' := map classify_line (lines page) in
  let rects' := map classify_rect (rects page) in
  ({| lines := lines'; rects := rects' |}, lines' ++ rects').

End GeometricTableFinder.

(** ** build_structure_map.py: the primitives of the page *)
Module Primitives.

(** A line or rectangle as the page source hands it out; every key may be
    missing. *)
Record RawRecord : Type := mkRawRecord {
  r_x0 : option Q; r_top : option Q; r_x1 : option Q; r_bottom : option Q;
  r_width : option Q; r_height : option Q
}.

(** [d.get(key, 0)]. *)
Definition get_or_0 (v : option Q) : Q := match v with Some x => x | None => 0 end.

(** [line.get('bottom', line.get('top', 0))]. *)
Definition bottom_of (r : RawRecord) : Q :=
  match r_bottom r with Some b => b | None => get_or_0 (r_top r) end.

(** The element built for a line or rectangle: its bbox (also stored key
    by key), [width], [height] and [geom_type]. *)
Record GeomElement : Type := mkGeomElement {
  e_bbox : BBox; e_width : Q; e_height : Q; e_geom_type : BuildStructureMap.GeomType
}.

Definition bbox_of (r : RawRecord) : BBox :=
  mkBBox (get_or_0 (r_x0 r)) (get_or_0 (r_top r)) (get_or_0 (r_x1 r)) (bottom_of r).

(** Lines 81-86: [width] from its key, else from [x0] and [x1], else 0. *)
Definition width_of (r : RawRecord) : Q :=
  match r_width r with
  | Some w => w
  | None =>
      match r_x0 r, r_x1 r with
      | Some a, Some b => b - a
      | _, _ => 0
      end
  end.

(** Lines 88-93: [height] from its key, else from [top] and [bottom],
    else 0. *)
Definition height_of (r : RawRecord) : Q :=
  match r_height r with
  | Some h => h
  | None =>
      match r_top r, r_bottom r with
      | Some a, Some b => b - a
      | _, _ => 0
      end
  end.

(** Lines 71-103: [line_element]. *)
Definition line_element (line : RawRecord) : GeomElement :=
  let box := bbox_of line in
  let width := width_of line in
  let height := height_of line in
  {| e_bbox := box; e_width := width; e_height := height;
     e_geom_type :=
       if Py.eqb (bx0 box) (bx1 box) then BuildStructureMap.LineVertical
       else if Py.eqb (btop box) (bbottom box) then BuildStructureMap.LineHorizontal
       else if Py.ltb height width then BuildStructureMap.LineHorizontal
       else BuildStructureMap.LineVertical |}.

(** Lines 122-151: [rect_element]. *)
Definition rect_element (rect : RawRecord) : GeomElement :=
  let width := width_of rect in
  let height := height_of rect in
  {| e_bbox := bbox_of rect; e_width := width; e_height := height;
     e_geom_type :=
       if Py.ltb 5 width && Py.leb height 1 then BuildStructureMap.LineHorizontal
       else if Py.ltb 5 height && Py.leb width 1 then BuildStructureMap.LineVertical
       else BuildStructureMap.GRect |}.

End Primitives.

(** ** build_structure_map.py: words, lines and text blocks *)
Module TextBlocks.

Definition top_x0_le (a b : Word) : bool :=
  Py.ltb (w_top a) (w_top b) || (Py.eqb (w_top a) (w_top b) && Py.leb (w_x0 a) (w_x0 b)).

Definition by_x0 (a b : Word) : bool := Py.leb (w_x0 a) (w_x0 b).

(** [(bottom - top) * 0.7 if bottom > top else 5]. *)
Definition line_height_tolerance (w : Word) : Q :=
  if Py.ltb (w_top w) (w_bottom w) then (w_bottom w - w_top w) * (7 # 10) else 5.

Record Clustering : Type := mkClustering {
  line_clusters : list (list Word);
  current_line : list Word;
  tolerance : Q
}.

(** Lines 57-63: the body of [for next_word in words[1:]]. *)
Definition cluster_step (st : Clustering) (next_word : Word) : Clustering :=
  if Py.ltb (Py.abs (w_top next_word - w_top (last (current_line st) next_word)))
            (tolerance st)
  then mkClustering (line_clusters st) (current_line st ++ [next_word]) (tolerance st)
  else mkClustering (line_clusters st ++ [current_line st]) [next_word]
                    (line_height_tolerance next_word).

(** Lines 52-64: [line_clusters] of the page's words. *)
Definition cluster_words (words : list Word) : list (list Word) :=
  match PyList.sort_by top_x0_le words with
  | [] => []
  | w0 :: rest =>
      let st := fold_left cluster_step rest
                          (mkClustering [] [w0] (line_height_tolerance w0)) in
      line_clusters st ++ [current_line st]
  end.

(** [current_merge] extended by [next_word] (lines 168-170). *)
Definition absorb (current_merge next_word : Word) : Word :=
  {| w_text := (w_text current_merge ++ w_text next_word)%string;
     w_x0 := w_x0 current_merge;
     w_x1 := Py.max2 (w_x1 current_merge) (w_x1 next_word);
     w_top := w_top current_merge;
     w_bottom := Py.max2 (w_bottom current_merge) (w_bottom next_word) |}.

(** Lines 163-167: is [next_word] close enough to be joined? *)
Definition joins (current_merge next_word : Word) : bool :=
  let current_word_width := w_x1 current_merge - w_x0 current_merge in
  let num_chars := PyStr.len (w_text current_merge) in
  let avg_char_width :=
    if (0 <? num_chars)%nat then current_word_width / inject_Z (Z.of_nat num_chars)
    else 5 in
  let gap := w_x0 next_word - w_x1 current_merge in
  Py.ltb gap (avg_char_width * (5 # 10))
  && Py.ltb (Py.abs (w_top next_word - w_top current_merge)) 5.

(** Lines 161-173: the body of the merge loop on
    [(merged_word_objects, current_merge)]. *)
Definition merge_step (st : list Word * Word) (next_word : Word) : list Word * Word :=
  let '(merged_word_objects, current_merge) := st in
  if joins current_merge next_word
  then (merged_word_objects, absorb current_merge next_word)
  else (merged_word_objects ++ [current_merge], next_word).

(** Lines 157-174: [merged_word_objects] of one cluster. *)
Definition merge_words (word_cluster : list Word) : list Word :=
  match PyList.sort_by by_x0 word_cluster with
  | [] => []
  | w0 :: rest =>
      let '(merged_word_objects, current_merge) := fold_left merge_step rest ([], w0) in
      merged_word_objects ++ [current_merge]
  end.

(** Lines 175-184: the text block of one cluster; [None] when the cluster
    is skipped. *)
Definition text_block_of (word_cluster : list Word) : option TextBlock :=
  let merged := merge_words word_cluster in
  match Py.min_of (map w_x0 merged), Py.min_of (map w_top merged),
        Py.max_of (map w_x1 merged), Py.max_of (map w_bottom merged) with
  | Some a, Some b, Some c, Some d =>
      Some {| tb_text := String.concat " " (map w_text merged);
              tb_bbox := mkBBox a b c d;
              tb_words := merged |}
  | _, _, _, _ => None
  end.

(** The text blocks of a page, in the order of its lines. *)
Definition text_blocks (words : list Word) : list TextBlock :=
  flat_map (fun cluster => match text_block_of cluster with
                           | Some tb => [tb]
                           | None => []
                           end)
           (cluster_words words).

End TextBlocks.

(** ** lattice_table.py: words of a table and the column estimate *)
Module ColumnEstimate.

(** [is_word_in_bbox(word, bbox)]. *)
Definition is_word_in_bbox (word : Word) (box : BBox) : bool :=
  Py.leb (bx0 box) (w_x0 word) && Py.leb (w_x1 word) (bx1 box)
  && Py.leb (btop box) (w_top word) && Py.leb (w_bottom word) (bbottom box).

Definition by_x0 (a b : Word) : bool := Py.leb (w_x0 a) (w_x0 b).

(** Lines 418-422: the distances above 5 between neighbours in x order. *)
Definition x_distances (sorted_words : list Word) : list Q :=
  flat_map
    (fun p => let dist := w_x0 (snd p) - w_x1 (fst p) in
              if Py.ltb 5 dist then [dist] else [])
    (combine sorted_words (tl sorted_words)).

(** [estimate_table_columns(table_words)]. *)
Definition estimate_table_columns (table_words : list Word) : nat :=
  if (List.length table_words <? 3)%nat then 3%nat
  else
    let sorted_words := PyList.sort_by by_x0 table_words in
    match PyList.sort_by Py.leb (x_distances sorted_words) with
    | [] => 3%nat
    | distances =>
        let median_dist := nth (List.length distances / 2) distances 0 in
        let significant_gaps :=
          List.length (filter (fun d => Py.ltb (median_dist * (8 # 10)) d) distances) in
        Nat.max 2 (Nat.min 10 (significant_gaps + 1))
    end.

End ColumnEstimate.

(** ** lattice_table_detector.py: adjacency of cells *)
Module CellAdjacency.

(** [are_cells_adjacent(cell1, cell2)]. *)
Definition are_cells_adjacent (cell1 cell2 : LatticeTableDetector.ClosedCell) : bool :=
  let '((x1_1, y1_1), (x2_1, y2_1)) := cell1 in
  let '((x1_2, y1_2), (x2_2, y2_2)) := cell2 in
  if (Py.eqb x2_1 x1_2 || Py.eqb x2_2 x1_1)
     && Py.ltb (Py.max2 y1_1 y1_2) (Py.min2 y2_1 y2_2) then true
  else if (Py.eqb y2_1 y1_2 || Py.eqb y2_2 y1_1)
          && Py.ltb (Py.max2 x1_1 x1_2) (Py.min2 x2_1 x2_2) then true
  else
    let corners1 := [(x1_1, y1_1); (x2_1, y1_1); (x1_1, y2_1); (x2_1, y2_1)] in
    let corners2 := [(x1_2, y1_2); (x2_2, y1_2); (x1_2, y2_2); (x2_2, y2_2)] in
    existsb (fun c1 => existsb (fun c2 => LatticeTableDetector.point_eqb c1 c2) corners2)
            corners1.

End CellAdjacency.

(** ** geometric_table_finder.py: merging the expanded candidates *)
Module CandidateMerge.

Record Candidate : Type := mkCandidate {
  c_bbox : BBox; c_strategy : BuildStructureMap.Strategy
}.

(** Sort key [(t['bbox'][1], t['bbox'][0])]. *)
Definition top_x0_le (a b : Candidate) : bool :=
  Py.ltb (btop (c_bbox a)) (btop (c_bbox b))
  || (Py.eqb (btop (c_bbox a)) (btop (c_bbox b)) && Py.leb (bx0 (c_bbox a)) (bx0 (c_bbox b))).

(** Line 216: the two boxes share an area. *)
Definition overlap (box1 box2 : BBox) : bool :=
  Py.ltb (Py.max2 (bx0 box1) (bx0 box2)) (Py.min2 (bx1 box1) (bx1 box2))
  && Py.ltb (Py.max2 (btop box1) (btop box2)) (Py.min2 (bbottom box1) (bbottom box2)).

Definition union (box1 box2 : BBox) : BBox :=
  mkBBox (Py.min2 (bx0 box1) (bx0 box2)) (Py.min2 (btop box1) (btop box2))
         (Py.max2 (bx1 box1) (bx1 box2)) (Py.max2 (bbottom box1) (bbottom box2)).

(** Lines 213-222 on [(merged_candidates, current_table)]. *)
Definition sweep_step (st : list Candidate * Candidate) (next_table : Candidate)
  : list Candidate * Candidate :=
  let '(merged_candidates, current_table) := st in
  if overlap (c_bbox current_table) (c_bbox next_table)
  then (merged_candidates,
        {| c_bbox := union (c_bbox current_table) (c_bbox next_table);
           c_strategy :=
             match c_strategy next_table with
             | BuildStructureMap.Lattice => BuildStructureMap.Lattice
             | _ => c_strategy current_table
             end |})
  else (merged_candidates ++ [current_table], next_table).

(** Lines 209-223: [merged_candidates]. *)
Definition merge_candidates (expanded_candidates : list Candidate) : list Candidate :=
  match PyList.sort_by top_x0_le expanded_candidates with
  | [] => []
  | c0 :: rest =>
      let '(merged_candidates, current_table) := fold_left sweep_step rest ([], c0) in
      merged_candidates ++ [current_table]
  end.

End CandidateMerge.

(** ** lattice_table_detector.py: the box of a group of cells *)
Module LatticeBounds.
Import LatticeTableDetector.

(** Lines 86-89: the box of the cells of a table; [None] is the ValueError
    of [min] on an empty group. *)
Definition cells_bbox (table_cells : list ClosedCell) : option BBox :=
  match Py.min_of (map (fun cell => fst (fst cell)) table_cells),
        Py.min_of (map (fun cell => snd (fst cell)) table_cells),
        Py.max_of (map (fun cell => fst (snd cell)) table_cells),
        Py.max_of (map (fun cell => snd (snd cell)) table_cells) with
  | Some min_x, Some min_y, Some max_x, Some max_y => Some (mkBBox min_x min_y max_x max_y)
  | _, _, _, _ => None
  end.

(** Lines 115-119: the horizontal rulings that meet the box. *)
Definition h_lines_in_table (h_lines : list Line) (b : BBox) : list Line :=
  filter (fun line => Py.leb (bx0 b) (x1 line) && Py.leb (x0 line) (bx1 b)
                      && Py.leb (btop b) (top line) && Py.leb (top line) (bbottom b))
         h_lines.

(** Lines 122-126: the vertical rulings that meet the box. *)
Definition v_lines_in_table (v_lines : list Line) (b : BBox) : list Line :=
  filter (fun line => Py.leb (btop b) (bottom_or_top line) && Py.leb (top line) (bbottom b)
                      && Py.leb (bx0 b) (x0 line) && Py.leb (x0 line) (bx1 b))
         v_lines.

(** Lines 129-131. *)
Definition expand_h (lines_in_table : list Line) (b : BBox) : BBox :=
  match Py.min_of (map x0 lines_in_table), Py.max_of (map x1 lines_in_table) with
  | Some lo, Some hi =>
      mkBBox (Py.min2 (bx0 b) lo) (btop b) (Py.max2 (bx1 b) hi) (bbottom b)
  | _, _ => b
  end.

(** Lines 133-135. *)
Definition expand_v (lines_in_table : list Line) (b : BBox) : BBox :=
  match Py.min_of (map top lines_in_table),
        Py.max_of (map bottom_or_top lines_in_table) with
  | Some lo, Some hi =>
      mkBBox (bx0 b) (Py.min2 (btop b) lo) (bx1 b) (Py.max2 (bbottom b) hi)
  | _, _ => b
  end.

(** Lines 138-147: one horizontal ruling near the upper or lower border. *)
Definition snap_h (b : BBox) (line : Line) : BBox :=
  let near_top := Py.ltb (Py.abs (top line - btop b)) 5 in
  let near_bottom := Py.ltb (Py.abs (top line - bbottom b)) 5 in
  if (near_top || near_bottom) && Py.leb (x0 line) (bx1 b) && Py.leb (bx0 b) (x1 line)
  then mkBBox (Py.min2 (bx0 b) (x0 line))
              (if near_top then Py.min2 (btop b) (top line) else btop b)
              (Py.max2 (bx1 b) (x1 line))
              (if near_bottom then Py.max2 (bbottom b) (top line) else bbottom b)
  else b.

(** Lines 149-158: one vertical ruling near the left or right border. *)
Definition snap_v (b : BBox) (line : Line) : BBox :=
  let near_left := Py.ltb (Py.abs (x0 line - bx0 b)) 5 in
  let near_right := Py.ltb (Py.abs (x0 line - bx1 b)) 5 in
  if (near_left || near_right) && Py.leb (top line) (bbottom b)
     && Py.leb (btop b) (bottom_or_top line)
  then mkBBox (if near_left then Py.min2 (bx0 b) (x0 line) else bx0 b)
              (Py.min2 (btop b) (top line))
              (if near_right then Py.max2 (bx1 b) (x0 line) else bx1 b)
              (Py.max2 (bbottom b) (bottom_or_top line))
  else b.

(** Lines 86-161: [table_bbox] of one group of cells. *)
Definition table_bbox (h_lines v_lines : list Line) (table_cells : list ClosedCell)
  : option BBox :=
  match cells_bbox table_cells with
  | None => None
  | Some b0 =>
      let b1 := expand_h (h_lines_in_table h_lines b0) b0 in
      let b2 := expand_v (v_lines_in_table v_lines b0) b1 in
      let b3 := fold_left snap_h h_lines b2 in
      Some (fold_left snap_v v_lines b3)
  end.

End LatticeBounds.

(* ================================================================== *)
(** * Part II: the vocabulary of the properties                        *)
(* ================================================================== *)

(** Equality of two results of a partial rational computation. *)
Definition result_eq (r s : option Q) : Prop :=
  match r, s with
  | Some x, Some y => x == y
  | None, None => True
  | _, _ => False
  end.

(** Two boxes share no point. *)
Definition disjoint (a b : BBox) : Prop :=
  bx1 a < bx0 b \/ bx1 b < bx0 a \/ bbottom a < btop b \/ bbottom b < btop a.

(** A horizontal ruling at height [y] that reaches from [xa] to [xb]. *)
Definition covered_h (h_lines : list LatticeTableDetector.Line) (y xa xb : Q) : Prop :=
  exists h, In h h_lines /\ LatticeTableDetector.top h == y
            /\ LatticeTableDetector.x0 h <= xa /\ xb <= LatticeTableDetector.x1 h.

(** A vertical ruling at [x] that reaches from [ya] to [yb]. *)
Definition covered_v (v_lines : list LatticeTableDetector.Line) (x ya yb : Q) : Prop :=
  exists v, In v v_lines /\ LatticeTableDetector.x0 v == x
            /\ LatticeTableDetector.top v <= ya
            /\ yb <= LatticeTableDetector.bottom_or_top v.

(** At least three of four statements hold. *)
Definition at_least_three (a b c d : Prop) : Prop :=
  (a /\ b /\ c) \/ (a /\ b /\ d) \/ (a /\ c /\ d) \/ (b /\ c /\ d).

(** A count that occurs among [counts] and at least as often as any
    other: a modal count. *)
Definition modal (counts : list nat) (k : nat) : Prop :=
  In k counts
  /\ forall k', (count_occ Nat.eq_dec counts k' <= count_occ Nat.eq_dec counts k)%nat.

(** The row has [m] words. *)
Definition has_count (m : nat) (row : list Word) : bool := (List.length row =? m)%nat.

(** The contribution of one row to the values collected at position [j]. *)
Definition at_position (f : Word -> Q) (dw : Word) (j : nat) (row : list Word) : list Q :=
  if (j <? List.length row)%nat then [f (nth j row dw)] else [].

Definition no_word : Word := mkWord EmptyString 0 0 0 0.

(** The boundary of position [i] computed from the rows [rows] alone. *)
Definition boundary_at (rows : list (list Word)) (i : nat) : Q * Q :=
  (match Py.min_of (map (fun row => w_x0 (nth i row no_word)) rows) with
   | Some lo => lo | None => 0 end,
   match Py.max_of (map (fun row => w_x1 (nth i row no_word)) rows) with
   | Some hi => hi | None => 0 end).

(** The cells of [row] whose column is not entirely empty in the grid
    [processed]. *)
Definition drop_empty_columns (processed : list (list Cell)) (row : list Cell)
  : list Cell :=
  map snd
    (filter (fun ic => negb (LatticeTable.is_empty_column processed (fst ic)))
            (combine (seq 0 (List.length row)) row)).

(** The cells [i], [i + 1] and [i + 2] of [row] are an (empty, non-empty,
    empty) run. *)
Definition centered_run (row : list Cell) (i : nat) : Prop :=
  (i + 2 < List.length row)%nat
  /\ LatticeTable.is_empty_cell (nth i row None) = true
  /\ LatticeTable.is_empty_cell (nth (i + 1) row None) = false
  /\ LatticeTable.is_empty_cell (nth (i + 2) row None) = true.


(** Index [j] of the projection has an occupancy above 0. *)
Definition occupied_at (projection : list nat) (j : Z) : Prop :=
  (0 <= j)%Z /\ exists v, nth_error projection (Z.to_nat j) = Some (S v).

(** A gap of a projection: a maximal run of indices with occupancy 0.  The
    run is not empty, every index of it has occupancy 0, it cannot be
    extended to the left or to the right, and its recorded width is its
    length. *)
Definition zero_run (projection : list nat) (g : TextAlignment.Gap) : Prop :=
  (0 <= TextAlignment.gap_start g < TextAlignment.gap_end g)%Z
  /\ (TextAlignment.gap_end g <= Z.of_nat (List.length projection))%Z
  /\ TextAlignment.gap_width g = (TextAlignment.gap_end g - TextAlignment.gap_start g)%Z
  /\ (forall j, (TextAlignment.gap_start g <= j < TextAlignment.gap_end g)%Z ->
                nth_error projection (Z.to_nat j) = Some O)
  /\ (TextAlignment.gap_start g = 0%Z
      \/ occupied_at projection (TextAlignment.gap_start g - 1))
  /\ (TextAlignment.gap_end g = Z.of_nat (List.length projection)
      \/ occupied_at projection (TextAlignment.gap_end g)).

(** The state of the gap scan before index [i]: the gaps recorded are the
    maximal zero runs that end before [i], each once; inside a gap,
    [start] is where the zero run up to [i] begins; outside, the index
    before [i] is occupied. *)
Definition scan_inv (projection : list nat) (i : Z) (in_gap : bool) (start : Z)
    (gaps : list TextAlignment.Gap) : Prop :=
  (forall g, In g gaps -> zero_run projection g /\ (TextAlignment.gap_end g < i)%Z)
  /\ (forall g, zero_run projection g -> (TextAlignment.gap_end g < i)%Z -> In g gaps)
  /\ NoDup gaps
  /\ (in_gap = true ->
      (0 <= start < i)%Z
      /\ (forall j, (start <= j < i)%Z -> nth_error projection (Z.to_nat j) = Some O)
      /\ (start = 0%Z \/ occupied_at projection (start - 1)))
  /\ (in_gap = false -> i = 0%Z \/ occupied_at projection (i - 1)).





(** [group] is one of the bands that the detector forms from [words]. *)
Definition is_band (words : list Word) (group : list (list Word)) : Prop :=
  exists groups,
    TextAlignment.table_line_groups
      (TextAlignment.cluster_lines (PyList.sort_by TextAlignment.top_x0_le words))
    = Some groups
    /\ In group groups.

(** The table is on page [p]. *)
Definition on_page (p : Z) (t : LatticeTable.TableInfo) : bool :=
  (LatticeTable.page_num t =? p)%Z.

Definition some_if_any {A : Type} (l : list A) : option (list A) :=
  match l with [] => None | _ => Some l end.

(** The loop that fills [tables_by_page], from a dictionary [d] on. *)
Definition group_by_page (tabs : list LatticeTable.TableInfo)
    (d : PyList.dict (list LatticeTable.TableInfo))
  : PyList.dict (list LatticeTable.TableInfo) :=
  fold_left (fun d t => PyList.append_at d (LatticeTable.page_num t) t) tabs d.










(** The box has positive width and height. *)
Definition positive_area (b : BBox) : Prop := bx0 b < bx1 b /\ btop b < bbottom b.

(** The key by which the page's elements are ordered. *)
Definition element_top (e : BuildStructureMap.Element) : Q :=
  btop (BuildStructureMap.element_bbox e).

(** The characters of a list of words, in order. *)
Definition chars (ws : list Word) : string :=
  fold_right String.append EmptyString (map w_text ws).

(** [m] spans the horizontal extent of [w] and reaches its bottom. *)
Definition spans (m w : Word) : Prop :=
  w_x0 m <= w_x0 w /\ w_x1 w <= w_x1 m /\ w_bottom w <= w_bottom m.

(** Box [a] lies within box [b]. *)
Definition inside (a b : BBox) : Prop :=
  bx0 b <= bx0 a /\ btop b <= btop a /\ bx1 a <= bx1 b /\ bbottom a <= bbottom b.

(** Candidate [m] stands for candidate [c] after the merge: it covers its
    box, and it is a lattice candidate if [c] is one. *)
Definition absorbed_by (c m : CandidateMerge.Candidate) : Prop :=
  inside (CandidateMerge.c_bbox c) (CandidateMerge.c_bbox m)
  /\ (CandidateMerge.c_strategy c = BuildStructureMap.Lattice ->
      CandidateMerge.c_strategy m = BuildStructureMap.Lattice).

(** The horizontal ruling [h] and the vertical ruling [v] meet. *)
Definition crosses (h v : LatticeTableDetector.Line) : Prop :=
  LatticeTableDetector.x0 h <= LatticeTableDetector.x0 v
  /\ LatticeTableDetector.x0 v <= LatticeTableDetector.x1 h
  /\ LatticeTableDetector.top v <= LatticeTableDetector.top h
  /\ LatticeTableDetector.top h <= LatticeTableDetector.bottom_or_top v.

(** The two points have equal coordinates. *)
Definition same_point (p q : LatticeTableDetector.Point) : Prop :=
  fst p == fst q /\ snd p == snd q.

(** The box between the two corners of a cell. *)
Definition cell_box (c : LatticeTableDetector.ClosedCell) : BBox :=
  mkBBox (fst (fst c)) (snd (fst c)) (fst (snd c)) (snd (snd c)).

(** The interiors of the two boxes share no point. *)
Definition apart (a b : BBox) : Prop :=
  bx1 a <= bx0 b \/ bx1 b <= bx0 a \/ bbottom a <= btop b \/ bbottom b <= btop a.

(** The rows of a list of tables, table after table. *)
Definition rows_of (ts : list LatticeTable.TableInfo) : list (list Cell) :=
  flat_map LatticeTable.data ts.

(** The bookkeeping of the stitcher: the processed ids are the ids of
    tables [ts] of the input, none twice, and the rows written so far are
    the rows of [ts]. *)
Definition accounted (tabs : list LatticeTable.TableInfo) (st : LatticeTable.LoopState)
  : Prop :=
  exists ts,
    (forall t, In t ts -> In t tabs)
    /\ map LatticeTable.table_id ts = LatticeTable.processed_table_ids st
    /\ rows_of (LatticeTable.merged_tables st) = rows_of ts
    /\ NoDup (LatticeTable.processed_table_ids st).

(** The cells of a row that hold text, in order. *)
Definition contents (row : list Cell) : list Cell :=
  filter (fun cell => negb (LatticeTable.is_empty_cell cell)) row.

(** A row of text blocks as the banding leaves it: not empty and ordered
    by [x0]. *)
Definition ordered_row (row : list TextBlock) : Prop :=
  row <> []
  /\ StronglySorted (fun a b => bx0 (tb_bbox a) <= bx0 (tb_bbox b)) row.

(** A band as the detector forms it: at least three lines, none empty. *)
Definition proper_band (group : list (list Word)) : Prop :=
  (3 <= List.length group)%nat /\ Forall (fun line => line <> []) group.

(** The word lies within the box. *)
Definition word_inside (box : BBox) (w : Word) : Prop :=
  bx0 box <= w_x0 w /\ btop box <= w_top w /\ w_x1 w <= bx1 box /\ w_bottom w <= bbottom box.

(** The width that the word shares with a column: [max(0, overlap_end -
    overlap_start)]. *)
Definition column_overlap (word : Word) (b : Q * Q) : Q :=
  Py.max2 0 (Py.min2 (w_x1 word) (snd b) - Py.max2 (w_x0 word) (fst b)).


(* ================================================================== *)
(** * Part III: properties                                             *)
(* ================================================================== *)

(** ** Comparison lemmas *)

Lemma ltb_lt (a b : Q) : Py.ltb a b = true <-> a < b.
Proof.
  unfold Py.ltb. rewrite negb_true_iff.
  split; intro H.
  - apply Qnot_le_lt. intro Hle. apply Qle_bool_iff in Hle. congruence.
  - destruct (Qle_bool b a) eqn:E; [|reflexivity].
    apply Qle_bool_iff in E. exfalso; lra.
Qed.

Lemma ltb_ge (a b : Q) : Py.ltb a b = false <-> b <= a.
Proof.
  unfold Py.ltb. rewrite negb_false_iff. apply Qle_bool_iff.
Qed.

Lemma leb_le (a b : Q) : Py.leb a b = true <-> a <= b.
Proof. apply Qle_bool_iff. Qed.

Lemma leb_gt (a b : Q) : Py.leb a b = false <-> b < a.
Proof.
  unfold Py.leb. split; intro H.
  - apply Qnot_le_lt. intro Hle. apply Qle_bool_iff in Hle. congruence.
  - destruct (Qle_bool a b) eqn:E; [|reflexivity].
    apply Qle_bool_iff in E. exfalso; lra.
Qed.

Lemma eqb_eq (a b : Q) : Py.eqb a b = true <-> a == b.
Proof. apply Qeq_bool_iff. Qed.

Lemma eqb_neq (a b : Q) : Py.eqb a b = false <-> ~ a == b.
Proof.
  unfold Py.eqb. split; intro H.
  - intro E. apply Qeq_bool_iff in E. congruence.
  - destruct (Qeq_bool a b) eqn:E; [|reflexivity].
    apply Qeq_bool_iff in E. contradiction.
Qed.

Ltac qcases :=
  repeat match goal with
  | H : Py.ltb _ _ = true |- _ => apply ltb_lt in H
  | H : Py.ltb _ _ = false |- _ => apply ltb_ge in H
  | H : Py.leb _ _ = true |- _ => apply leb_le in H
  | H : Py.leb _ _ = false |- _ => apply leb_gt in H
  | H : Py.eqb _ _ = true |- _ => apply eqb_eq in H
  | H : Py.eqb _ _ = false |- _ => apply eqb_neq in H
  end.

Lemma max2_spec (a b : Q) :
  (a < b /\ Py.max2 a b = b) \/ (b <= a /\ Py.max2 a b = a).
Proof.
  unfold Py.max2. destruct (Py.ltb a b) eqn:E; qcases; auto.
Qed.

Lemma min2_spec (a b : Q) :
  (b < a /\ Py.min2 a b = b) \/ (a <= b /\ Py.min2 a b = a).
Proof.
  unfold Py.min2. destruct (Py.ltb b a) eqn:E; qcases; auto.
Qed.

Lemma max2_comm (a b : Q) : Py.max2 a b == Py.max2 b a.
Proof.
  destruct (max2_spec a b) as [[H ->]|[H ->]];
    destruct (max2_spec b a) as [[H' ->]|[H' ->]]; lra.
Qed.

Lemma min2_comm (a b : Q) : Py.min2 a b == Py.min2 b a.
Proof.
  destruct (min2_spec a b) as [[H ->]|[H ->]];
    destruct (min2_spec b a) as [[H' ->]|[H' ->]]; lra.
Qed.

Lemma max2_ub_l (a b : Q) : a <= Py.max2 a b.
Proof. destruct (max2_spec a b) as [[H ->]|[H ->]]; lra. Qed.

Lemma max2_ub_r (a b : Q) : b <= Py.max2 a b.
Proof. destruct (max2_spec a b) as [[H ->]|[H ->]]; lra. Qed.

Lemma min2_lb_l (a b : Q) : Py.min2 a b <= a.
Proof. destruct (min2_spec a b) as [[H ->]|[H ->]]; lra. Qed.

Lemma min2_lb_r (a b : Q) : Py.min2 a b <= b.
Proof. destruct (min2_spec a b) as [[H ->]|[H ->]]; lra. Qed.

(** ** IoU *)

Lemma calculate_iou_sym (a b : BBox) :
  result_eq (BuildStructureMap.calculate_iou a b)
            (BuildStructureMap.calculate_iou b a).
Proof.
  unfold BuildStructureMap.calculate_iou.
  pose proof (max2_comm (bx0 a) (bx0 b)) as Hxl.
  pose proof (max2_comm (btop a) (btop b)) as Hyt.
  pose proof (min2_comm (bx1 a) (bx1 b)) as Hxr.
  pose proof (min2_comm (bbottom a) (bbottom b)) as Hyb.
  set (xl := Py.max2 (bx0 a) (bx0 b)) in *.
  set (xl' := Py.max2 (bx0 b) (bx0 a)) in *.
  set (yt := Py.max2 (btop a) (btop b)) in *.
  set (yt' := Py.max2 (btop b) (btop a)) in *.
  set (xr := Py.min2 (bx1 a) (bx1 b)) in *.
  set (xr' := Py.min2 (bx1 b) (bx1 a)) in *.
  set (yb := Py.min2 (bbottom a) (bbottom b)) in *.
  set (yb' := Py.min2 (bbottom b) (bbottom a)) in *.
  set (A := (bx1 a - bx0 a) * (bbottom a - btop a)).
  set (B := (bx1 b - bx0 b) * (bbottom b - btop b)).
  assert (Hi : (xr - xl) * (yb - yt) == (xr' - xl') * (yb' - yt'))
    by (rewrite Hxl, Hyt, Hxr, Hyb; reflexivity).
  assert (Hd : A + B - (xr - xl) * (yb - yt) == B + A - (xr' - xl') * (yb' - yt'))
    by (rewrite Hi; ring).
  destruct (Py.ltb xr xl) eqn:E1; destruct (Py.ltb xr' xl') eqn:E1';
    destruct (Py.ltb yb yt) eqn:E2; destruct (Py.ltb yb' yt') eqn:E2';
    qcases; simpl; try reflexivity; try lra.
  destruct (Py.eqb (A + B - (xr - xl) * (yb - yt)) 0) eqn:E3;
    destruct (Py.eqb (B + A - (xr' - xl') * (yb' - yt')) 0) eqn:E3';
    qcases; simpl; auto.
  - apply E3'. rewrite <- Hd. exact E3.
  - apply E3. rewrite Hd. exact E3'.
  - apply Qdiv_comp; assumption.
Qed.

Lemma calculate_iou_disjoint (a b : BBox) :
  disjoint a b -> BuildStructureMap.calculate_iou a b = Some 0.
Proof.
  intros D. unfold BuildStructureMap.calculate_iou.
  pose proof (max2_ub_l (bx0 a) (bx0 b)). pose proof (max2_ub_r (bx0 a) (bx0 b)).
  pose proof (max2_ub_l (btop a) (btop b)). pose proof (max2_ub_r (btop a) (btop b)).
  pose proof (min2_lb_l (bx1 a) (bx1 b)). pose proof (min2_lb_r (bx1 a) (bx1 b)).
  pose proof (min2_lb_l (bbottom a) (bbottom b)).
  pose proof (min2_lb_r (bbottom a) (bbottom b)).
  destruct (Py.ltb (Py.min2 (bx1 a) (bx1 b)) (Py.max2 (bx0 a) (bx0 b))) eqn:E1;
    [reflexivity|].
  destruct (Py.ltb (Py.min2 (bbottom a) (bbottom b)) (Py.max2 (btop a) (btop b))) eqn:E2;
    [reflexivity|].
  qcases. exfalso. destruct D as [D|[D|[D|D]]]; lra.
Qed.

Lemma max2_same (a : Q) : Py.max2 a a = a.
Proof. unfold Py.max2. destruct (Py.ltb a a); reflexivity. Qed.

Lemma min2_same (a : Q) : Py.min2 a a = a.
Proof. unfold Py.min2. destruct (Py.ltb a a); reflexivity. Qed.

Lemma calculate_iou_same (a : BBox) :
  bx0 a < bx1 a -> btop a < bbottom a ->
  exists v, BuildStructureMap.calculate_iou a a = Some v /\ v == 1.
Proof.
  intros Hx Hy. unfold BuildStructureMap.calculate_iou.
  rewrite !max2_same, !min2_same.
  destruct (Py.ltb (bx1 a) (bx0 a)) eqn:E1; qcases; [lra|].
  destruct (Py.ltb (bbottom a) (btop a)) eqn:E2; qcases; [lra|]. simpl.
  set (A := (bx1 a - bx0 a) * (bbottom a - btop a)).
  assert (HA : 0 < A) by (unfold A; apply Qmult_lt_0_compat; lra).
  destruct (Py.eqb (A + A - A) 0) eqn:E3; qcases; [lra|].
  eexists. split; [reflexivity|]. field. lra.
Qed.


(** C5, as the code has it: the IoU of two boxes is symmetric (a raised
    division by zero included), it is 0 for boxes that share no point, and
    it is 1 for a box of positive width and height against itself. *)
Theorem calculate_iou_laws (a b : BBox) :
  result_eq (BuildStructureMap.calculate_iou a b) (BuildStructureMap.calculate_iou b a)
  /\ (disjoint a b -> BuildStructureMap.calculate_iou a b = Some 0)
  /\ (bx0 a < bx1 a -> btop a < bbottom a ->
      exists v, BuildStructureMap.calculate_iou a a = Some v /\ v == 1).
Proof.
  split; [apply calculate_iou_sym|].
  split; [apply calculate_iou_disjoint|apply calculate_iou_same].
Qed.

Lemma calculate_iou_laws_witness :
  let a := mkBBox 0 0 2 2 in
  let b := mkBBox 5 5 6 6 in
  BuildStructureMap.calculate_iou a b = Some 0
  /\ exists v, BuildStructureMap.calculate_iou a a = Some v /\ v == 1.
Proof.
  intros a b.
  destruct (calculate_iou_laws a b) as [_ [Hd Hs]].
  split.
  - apply Hd. left. reflexivity.
  - apply Hs; reflexivity.
Defined.

(** A box without area against itself: the division raises, no 1 comes back. *)
Lemma calculate_iou_point_box :
  BuildStructureMap.calculate_iou (mkBBox 3 4 3 4) (mkBBox 3 4 3 4) = None
  /\ ~ (exists v, BuildStructureMap.calculate_iou (mkBBox 3 4 3 4) (mkBBox 3 4 3 4) = Some v
                  /\ v == 1).
Proof.
  split; [reflexivity|].
  intros [v [H _]]. discriminate H.
Qed.

(** ** Page orientation in the two programs *)

Lemma orientation_agree_off_square (w h : Q) :
  ~ w == h ->
  BuildStructureMap.page_orientation w h
  = LatticeTable.page_orientation (BuildStructureMap.recorded_dimensions w h).
Proof.
  intros Hne. unfold BuildStructureMap.page_orientation, LatticeTable.page_orientation.
  simpl.
  destruct (Py.leb w h) eqn:E1; destruct (Py.ltb w h) eqn:E2; qcases;
    try reflexivity; exfalso; lra.
Qed.

(** C10: on a square page the two programs disagree: the structure-map
    builder records portrait, the lattice extractor derives landscape from
    the recorded dimensions. *)
Theorem orientation_square_page (s : Q) :
  BuildStructureMap.page_orientation s s = Portrait
  /\ LatticeTable.page_orientation (BuildStructureMap.recorded_dimensions s s) = Landscape.
Proof.
  unfold BuildStructureMap.page_orientation, LatticeTable.page_orientation. simpl.
  destruct (Py.leb s s) eqn:E1; destruct (Py.ltb s s) eqn:E2; qcases;
    try (split; reflexivity); exfalso; lra.
Qed.

(** ** In-place reclassification in the geometric finder *)

Lemma classify_line_writes (l : GeometricTableFinder.RawGeom) :
  GeometricTableFinder.geom_type l = None ->
  GeometricTableFinder.classify_line l <> l.
Proof.
  intros Hn Heq.
  assert (H : GeometricTableFinder.geom_type (GeometricTableFinder.classify_line l) <> None).
  { unfold GeometricTableFinder.classify_line. rewrite Hn.
    repeat match goal with |- context [if ?c then _ else _] => destruct c end;
      simpl; discriminate. }
  rewrite Heq in H. contradiction.
Qed.

Lemma classify_rect_tags (r : GeometricTableFinder.RawGeom) :
  GeometricTableFinder.geom_type (GeometricTableFinder.classify_rect r) <> None.
Proof.
  unfold GeometricTableFinder.classify_rect.
  repeat match goal with |- context [if ?c then _ else _] => destruct c end;
    simpl; discriminate.
Qed.

Lemma map_fixed {A : Type} (f : A -> A) (l : list A) (x : A) :
  map f l = l -> In x l -> f x = x.
Proof.
  induction l as [|y l IH]; simpl; intros H Hin; [contradiction|].
  injection H as Hy Hl. destruct Hin as [<-|Hin]; [exact Hy|exact (IH Hl Hin)].
Qed.

(** Whenever some line of the page has no tag yet, the page's records are
    not the same after the call. *)
Lemma collect_geoms_writes_lines (page : GeometricTableFinder.PageRecords)
    (l : GeometricTableFinder.RawGeom) :
  In l (GeometricTableFinder.lines page) -> GeometricTableFinder.geom_type l = None ->
  fst (GeometricTableFinder.collect_geoms page) <> page.
Proof.
  intros Hin Hn Heq. apply (f_equal GeometricTableFinder.lines) in Heq. simpl in Heq.
  exact (classify_line_writes l Hn (map_fixed _ _ l Heq Hin)).
Qed.

(** The same for a rectangle without a tag: every rectangle is tagged. *)
Lemma collect_geoms_writes_rects (page : GeometricTableFinder.PageRecords)
    (r : GeometricTableFinder.RawGeom) :
  In r (GeometricTableFinder.rects page) -> GeometricTableFinder.geom_type r = None ->
  fst (GeometricTableFinder.collect_geoms page) <> page.
Proof.
  intros Hin Hn Heq. apply (f_equal GeometricTableFinder.rects) in Heq. simpl in Heq.
  pose proof (map_fixed _ _ r Heq Hin) as Hr.
  apply (classify_rect_tags r). rewrite Hr. exact Hn.
Qed.

(** C9: a page whose only ruling carries no tag yet: after the geometric
    finder has run, the page's own record carries the tag
    [line_horizontal]; the record handed in was changed, no copy was made. *)
Theorem collect_geoms_changes_page_record :
  let l := GeometricTableFinder.mkRawGeom 0 5 10 (Some 5) 10 0 None in
  let page := GeometricTableFinder.mkPageRecords [l] [] in
  GeometricTableFinder.lines (fst (GeometricTableFinder.collect_geoms page))
  = [GeometricTableFinder.set_geom_type l BuildStructureMap.LineHorizontal]
  /\ fst (GeometricTableFinder.collect_geoms page) <> page
  /\ snd (GeometricTableFinder.collect_geoms page)
     = GeometricTableFinder.lines (fst (GeometricTableFinder.collect_geoms page)).
Proof.
  intros l page. split; [reflexivity|]. split; [|reflexivity].
  intro H. apply (f_equal GeometricTableFinder.lines) in H.
  discriminate H.
Qed.

(** ** Words that fit no column *)

(** The stream placer: a word either lands in a column or leaves a warning
    that names it; the row goes on with the next word either way. *)
Lemma stream_place_word_surfaces (standard : bool) (bs : list (Q * Q)) (row_idx : nat)
    (processed_row : list string) (diags : list Diagnostic) (word : Word) :
  (exists col,
      StreamTable.place_word standard bs row_idx (processed_row, diags) word
      = (Rows.put processed_row col (w_text word), diags))
  \/ (exists d,
      StreamTable.place_word standard bs row_idx (processed_row, diags) word
      = (processed_row, diags ++ [d])
      /\ (d = UnableToAssign (w_text word) (S row_idx)
          \/ d = NoOverlap (w_text word) (S row_idx))).
Proof.
  unfold StreamTable.place_word. destruct standard.
  - destruct (StreamTable.first_containing _ _ _ _) as [col|].
    + left. exists col. reflexivity.
    + right. eexists. split; [reflexivity|]. left. reflexivity.
  - destruct (snd (StreamTable.best_overlap _ _ _ _ _)) as [col|].
    + left. exists col. reflexivity.
    + right. eexists. split; [reflexivity|]. right. reflexivity.
Qed.

(** The text-only placer never adds a warning for a word ... *)
Lemma text_only_place_word_silent (seps : list Q) (st : list string * list Diagnostic)
    (word : Word) :
  snd (TextOnly.place_word seps st word) = snd st.
Proof.
  unfold TextOnly.place_word. destruct st as [row diags].
  destruct (_ <? _)%nat; reflexivity.
Qed.

(** ... and leaves out a word whose center is at or beyond the last
    separator. *)
Lemma text_only_place_word_drops (seps : list Q) (st : list string * list Diagnostic)
    (word : Word) :
  (List.length (fst st) <= TextOnly.column_of seps word)%nat ->
  TextOnly.place_word seps st word = st.
Proof.
  intros H. unfold TextOnly.place_word. destruct st as [row diags]. simpl in H.
  destruct (_ <? _)%nat eqn:E; [|reflexivity].
  apply Nat.ltb_lt in E. lia.
Qed.

Lemma text_only_place_row_silent (seps : list Q) (row : list TextBlock) :
  snd (TextOnly.place_row seps row) = [].
Proof.
  unfold TextOnly.place_row.
  generalize (repeat EmptyString (List.length seps - 1)). intros cells.
  assert (H : forall words st, snd st = [] ->
                snd (fold_left (TextOnly.place_word seps) words st) = []).
  { induction words as [|w words IH]; intros st Hst; simpl; [exact Hst|].
    apply IH. rewrite text_only_place_word_silent. exact Hst. }
  apply H. reflexivity.
Qed.

(** C8: a text-only table with bbox (10, 0, 50, 20) and one virtual line at
    x = 30 has the separators 10, 30, 50.  The word "Z" at x 50..54 lies in
    a text block of the table (5 units of slack) and its center 52 is right
    of the last separator: the grid has no "Z" and no warning is issued. *)
Theorem text_only_drops_word_silently :
  let vline := BuildStructureMap.mkGeometry 30 0 30 20 BuildStructureMap.VirtualLine in
  let table := BuildStructureMap.mkTableElement (mkBBox 10 0 50 20)
                 BuildStructureMap.TextOnly "Found by text alignment" [vline] in
  let block_a := mkTextBlock "A" (mkBBox 12 0 20 10) [mkWord "A" 12 20 0 10] in
  let block_z := mkTextBlock "Z" (mkBBox 50 0 54 10) [mkWord "Z" 50 54 0 10] in
  TextOnly.column_separators (BuildStructureMap.tbbox table)
                             (BuildStructureMap.geometries table)
  = ([10; 30; 50], [])
  /\ TextOnly.extract_table table [block_a; block_z]
     = (Some [["A"%string; ""%string]], []).
Proof.
  split; reflexivity.
Qed.

(** ** Centered-text repair *)

Lemma is_nil_false {A : Type} (l : list A) : l <> [] -> LatticeTable.is_nil l = false.
Proof. destruct l; [contradiction|reflexivity]. Qed.

Lemma set_nth_length {A : Type} (i : nat) (v : A) (l : list A) :
  List.length (PyList.set_nth i v l) = List.length l.
Proof.
  revert i. induction l as [|x l IH]; intros [|i]; simpl; auto.
Qed.

Lemma set_nth_app_r {A : Type} (pre suf : list A) (j : nat) (v : A) :
  PyList.set_nth (List.length pre + j) v (pre ++ suf) = pre ++ PyList.set_nth j v suf.
Proof.
  induction pre as [|x pre IH]; simpl; [reflexivity|].
  rewrite IH. reflexivity.
Qed.

Lemma nth_app_r {A : Type} (pre suf : list A) (j : nat) (d : A) :
  nth (List.length pre + j) (pre ++ suf) d = nth j suf d.
Proof.
  induction pre as [|x pre IH]; simpl; auto.
Qed.

(** The loop only looks at and writes cells from [col_idx] on. *)
Lemma scan_row_shift (fuel : nat) (pre suf : list Cell) (j : nat) :
  LatticeTable.scan_row fuel (pre ++ suf) (List.length pre + j)
  = pre ++ LatticeTable.scan_row fuel suf j.
Proof.
  revert suf j. induction fuel as [|fuel IH]; intros suf j; simpl; [reflexivity|].
  rewrite length_app.
  replace (List.length pre + j + 2 <? List.length pre + List.length suf)%nat
    with (j + 2 <? List.length suf)%nat
    by (destruct (j + 2 <? List.length suf)%nat eqn:E;
        [apply Nat.ltb_lt in E; symmetry; apply Nat.ltb_lt; lia
        |apply Nat.ltb_ge in E; symmetry; apply Nat.ltb_ge; lia]).
  replace (List.length pre + j + 1)%nat with (List.length pre + (j + 1))%nat by lia.
  replace (List.length pre + j + 2)%nat with (List.length pre + (j + 2))%nat by lia.
  rewrite !nth_app_r.
  destruct (j + 2 <? List.length suf)%nat; [|reflexivity].
  destruct (_ && _ && _).
  - rewrite set_nth_app_r, set_nth_app_r.
    replace (List.length pre + j + 3)%nat with (List.length pre + (j + 3))%nat by lia.
    apply IH.
  - replace (List.length pre + j + 1)%nat with (List.length pre + (j + 1))%nat by lia.
    apply IH.
Qed.

(** Fuel beyond the number of cells left does not change the result: the
    loop has ended by its own condition. *)
Lemma scan_row_fuel (f1 f2 : nat) (row : list Cell) (i : nat) :
  (List.length row <= f1 + i)%nat -> (List.length row <= f2 + i)%nat ->
  LatticeTable.scan_row f1 row i = LatticeTable.scan_row f2 row i.
Proof.
  revert f2 row i. induction f1 as [|f1 IH]; intros f2 row i H1 H2.
  - destruct f2 as [|f2]; simpl; [reflexivity|].
    destruct (i + 2 <? List.length row)%nat eqn:E; [|reflexivity].
    apply Nat.ltb_lt in E. lia.
  - destruct f2 as [|f2]; simpl.
    + destruct (i + 2 <? List.length row)%nat eqn:E; [|reflexivity].
      apply Nat.ltb_lt in E. lia.
    + destruct (i + 2 <? List.length row)%nat eqn:E; [|reflexivity].
      destruct (_ && _ && _).
      * apply IH; rewrite !set_nth_length; lia.
      * apply IH; lia.
Qed.

Lemma scan_row_S (fuel : nat) (row : list Cell) (col_idx : nat) :
  LatticeTable.scan_row (S fuel) row col_idx
  = if (col_idx + 2 <? List.length row)%nat then
      if LatticeTable.is_empty_cell (nth col_idx row None)
         && negb (LatticeTable.is_empty_cell (nth (col_idx + 1) row None))
         && ((col_idx + 2 <? List.length row)%nat
             && LatticeTable.is_empty_cell (nth (col_idx + 2) row None))
      then
        LatticeTable.scan_row fuel
          (PyList.set_nth (col_idx + 1) None
             (PyList.set_nth col_idx (nth (col_idx + 1) row None) row))
          (col_idx + 3)
      else LatticeTable.scan_row fuel row (col_idx + 1)
    else row.
Proof. reflexivity. Qed.

Lemma fix_row_centered (e c e' : Cell) (rest : list Cell) :
  LatticeTable.is_empty_cell e = true ->
  LatticeTable.is_empty_cell c = false ->
  LatticeTable.is_empty_cell e' = true ->
  LatticeTable.fix_row (e :: c :: e' :: rest)
  = c :: None :: e' :: LatticeTable.fix_row rest.
Proof.
  intros He Hc He'. unfold LatticeTable.fix_row.
  change (List.length (e :: c :: e' :: rest)) with (S (S (S (List.length rest)))).
  rewrite scan_row_S.
  remember LatticeTable.scan_row as scan eqn:Hscan.
  simpl. rewrite He, Hc, He'. simpl. subst scan.
  change (c :: None :: e' :: rest) with ([c; None; e'] ++ rest).
  change 3%nat with (List.length [c; None; e'] + 0)%nat.
  rewrite scan_row_shift. cbn [app]. do 3 f_equal.
  apply scan_row_fuel; lia.
Qed.

Lemma fix_centered_text_issues_close (table_data : list (list Cell)) (estimated_cols : Z) :
  (Z.abs (Z.of_nat (LatticeTable.current_cols table_data) - estimated_cols) <= 1)%Z ->
  LatticeTable.fix_centered_text_issues table_data estimated_cols = table_data.
Proof.
  intros H. unfold LatticeTable.fix_centered_text_issues.
  destruct (LatticeTable.is_nil table_data); [reflexivity|].
  destruct (Z.leb_spec (Z.abs (Z.of_nat (LatticeTable.current_cols table_data)
                                - estimated_cols)) 1); [reflexivity|lia].
Qed.

Lemma scan_row_length (fuel : nat) (row : list Cell) (i : nat) :
  List.length (LatticeTable.scan_row fuel row i) = List.length row.
Proof.
  revert row i. induction fuel as [|fuel IH]; intros row i; simpl; [reflexivity|].
  destruct (i + 2 <? List.length row)%nat; [|reflexivity].
  destruct (_ && _ && _); rewrite IH; [|reflexivity].
  rewrite !set_nth_length. reflexivity.
Qed.

Lemma current_cols_ge (table_data : list (list Cell)) (row : list Cell) :
  In row table_data -> (List.length row <= LatticeTable.current_cols table_data)%nat.
Proof.
  unfold LatticeTable.current_cols.
  induction table_data as [|r t IH]; simpl; [contradiction|].
  intros [->|Hin]; [lia|]. specialize (IH Hin). lia.
Qed.

Lemma current_cols_fix_row (table_data : list (list Cell)) :
  LatticeTable.current_cols (map LatticeTable.fix_row table_data)
  = LatticeTable.current_cols table_data.
Proof.
  unfold LatticeTable.current_cols.
  induction table_data as [|r t IH]; simpl; [reflexivity|].
  rewrite IH. unfold LatticeTable.fix_row at 1. rewrite scan_row_length. reflexivity.
Qed.

Lemma existsb_nat_eqb (i : nat) (l : list nat) : existsb (Nat.eqb i) l = true <-> In i l.
Proof.
  rewrite existsb_exists. split.
  - intros [x [Hx He]]. apply Nat.eqb_eq in He. subst. exact Hx.
  - intros H. exists i. split; [exact H|apply Nat.eqb_refl].
Qed.

(** Dropping the listed columns is dropping the empty columns, when the
    list holds exactly the empty columns below the grid's width. *)
Lemma remove_listed_columns (processed : list (list Cell)) (width : nat)
    (row : list Cell) :
  (List.length row <= width)%nat ->
  map snd
    (filter
       (fun ic => negb (existsb (Nat.eqb (fst ic))
                          (filter (LatticeTable.is_empty_column processed) (seq 0 width))))
       (combine (seq 0 (List.length row)) row))
  = drop_empty_columns processed row.
Proof.
  intros Hlen. unfold drop_empty_columns. f_equal. apply filter_ext_in.
  intros [i c] Hin. simpl. f_equal.
  apply in_combine_l in Hin. apply in_seq in Hin.
  destruct (LatticeTable.is_empty_column processed i) eqn:E.
  - apply existsb_nat_eqb. apply filter_In. split; [apply in_seq; lia|exact E].
  - destruct (existsb _ _) eqn:E'; [|reflexivity].
    apply existsb_nat_eqb in E'. apply filter_In in E'. destruct E' as [_ E'].
    congruence.
Qed.

Lemma combine_seq_snd {A : Type} (k : nat) (l : list A) :
  map snd (combine (seq k (List.length l)) l) = l.
Proof.
  revert k. induction l as [|x l IH]; intros k; simpl; [reflexivity|].
  rewrite IH. reflexivity.
Qed.

Lemma filter_all {A : Type} (f : A -> bool) (l : list A) :
  (forall x, In x l -> f x = true) -> filter f l = l.
Proof.
  intros H. induction l as [|x l IH]; simpl; [reflexivity|].
  rewrite (H x (or_introl eq_refl)), IH; [reflexivity|].
  intros y Hy. apply H. right. exact Hy.
Qed.

(** Without an empty column below the width nothing is dropped. *)
Lemma drop_nothing (processed : list (list Cell)) (width : nat) (row : list Cell) :
  (List.length row <= width)%nat ->
  filter (LatticeTable.is_empty_column processed) (seq 0 width) = [] ->
  drop_empty_columns processed row = row.
Proof.
  intros Hlen Hnone. unfold drop_empty_columns.
  rewrite filter_all; [apply combine_seq_snd|].
  intros [i c] Hin. simpl. apply in_combine_l in Hin. apply in_seq in Hin.
  destruct (LatticeTable.is_empty_column processed i) eqn:E; [|reflexivity].
  assert (Hi : In i (filter (LatticeTable.is_empty_column processed) (seq 0 width)))
    by (apply filter_In; split; [apply in_seq; lia|exact E]).
  rewrite Hnone in Hi. contradiction.
Qed.

(** When the repair runs, every row is scanned and the columns that are
    entirely empty afterwards are dropped; the others stay, in order. *)
Lemma fix_centered_text_issues_runs (table_data : list (list Cell)) (estimated_cols : Z) :
  table_data <> [] ->
  (1 < Z.abs (Z.of_nat (LatticeTable.current_cols table_data) - estimated_cols))%Z ->
  LatticeTable.fix_centered_text_issues table_data estimated_cols
  = map (drop_empty_columns (map LatticeTable.fix_row table_data))
        (map LatticeTable.fix_row table_data).
Proof.
  intros Hne Hdev. unfold LatticeTable.fix_centered_text_issues.
  rewrite (is_nil_false _ Hne).
  destruct (Z.leb_spec (Z.abs (Z.of_nat (LatticeTable.current_cols table_data)
                                - estimated_cols)) 1); [lia|].
  set (processed := map LatticeTable.fix_row table_data).
  set (width := LatticeTable.current_cols table_data).
  assert (Hrows : forall row, In row processed -> (List.length row <= width)%nat).
  { intros row Hin. unfold width. rewrite <- current_cols_fix_row.
    apply current_cols_ge. exact Hin. }
  unfold LatticeTable.remove_empty_columns.
  destruct (filter (LatticeTable.is_empty_column processed) (seq 0 width)) eqn:E;
    cbn [LatticeTable.is_nil].
  - symmetry. rewrite <- (map_id processed) at 3. apply map_ext_in.
    intros row Hin. apply (drop_nothing processed width); [apply Hrows; exact Hin|exact E].
  - apply map_ext_in. intros row Hin. rewrite <- E.
    apply remove_listed_columns. apply Hrows. exact Hin.
Qed.

(** A row without a run is left as it is, and a cell with no run at its
    place is passed over. *)
Lemma centered_run_tail (x : Cell) (row : list Cell) (i : nat) :
  centered_run (x :: row) (S i) <-> centered_run row i.
Proof.
  unfold centered_run. cbn [List.length Nat.add nth]. rewrite <- Nat.succ_lt_mono.
  reflexivity.
Qed.

Lemma fix_row_short (row : list Cell) :
  (List.length row < 3)%nat -> LatticeTable.fix_row row = row.
Proof.
  intros H. unfold LatticeTable.fix_row.
  destruct (List.length row) as [|n] eqn:E; [reflexivity|].
  rewrite scan_row_S, E.
  destruct (Nat.ltb_spec (0 + 2) (S n)); [lia|reflexivity].
Qed.

Lemma fix_row_pass (x : Cell) (row : list Cell) :
  ~ centered_run (x :: row) 0 ->
  LatticeTable.fix_row (x :: row) = x :: LatticeTable.fix_row row.
Proof.
  intros Hno.
  destruct (Nat.ltb_spec 2 (List.length (x :: row))) as [Hlong|Hshort].
  - unfold LatticeTable.fix_row at 1.
    change (List.length (x :: row)) with (S (List.length row)).
    rewrite scan_row_S.
    change (List.length (x :: row)) with (S (List.length row)).
    destruct (Nat.ltb_spec (0 + 2) (S (List.length row))) as [_|Hc];
      [|cbn [List.length] in Hlong; lia].
    destruct (LatticeTable.is_empty_cell (nth 0 (x :: row) None)
              && negb (LatticeTable.is_empty_cell (nth (0 + 1) (x :: row) None))
              && (true && LatticeTable.is_empty_cell (nth (0 + 2) (x :: row) None)))
      eqn:E.
    + exfalso. apply Hno.
      apply andb_true_iff in E. destruct E as [E E3].
      apply andb_true_iff in E. destruct E as [E1 E2].
      apply negb_true_iff in E2. rewrite andb_true_l in E3.
      unfold centered_run. auto.
    + change (x :: row) with ([x] ++ row).
      change (0 + 1)%nat with (List.length [x] + 0)%nat.
      rewrite scan_row_shift. reflexivity.
  - rewrite fix_row_short by lia.
    rewrite fix_row_short by (cbn [List.length] in Hshort; lia). reflexivity.
Qed.

Lemma fix_row_no_run (row : list Cell) :
  (forall i, ~ centered_run row i) -> LatticeTable.fix_row row = row.
Proof.
  induction row as [|x row IH]; intros Hno; [reflexivity|].
  rewrite fix_row_pass by apply Hno. f_equal. apply IH.
  intros i Hi. apply (Hno (S i)). apply centered_run_tail. exact Hi.
Qed.

(** The leftmost run of a row is repaired, and the scan goes on with the
    cells behind its three cells. *)
Lemma fix_row_leftmost (row : list Cell) (i : nat) :
  centered_run row i -> (forall j, (j < i)%nat -> ~ centered_run row j) ->
  LatticeTable.fix_row row
  = firstn i row
    ++ nth (i + 1) row None :: None :: nth (i + 2) row None
       :: LatticeTable.fix_row (skipn (i + 3) row).
Proof.
  revert row. induction i as [|i IH]; intros row Hrun Hno.
  - destruct Hrun as (Hlen & He & Hc & He').
    destruct row as [|e [|c [|e' rest]]]; cbn [List.length] in Hlen; try lia.
    cbn [Nat.add nth] in *. cbn [firstn skipn app].
    apply fix_row_centered; assumption.
  - destruct row as [|x row]; [destruct Hrun as [Hlen _]; simpl in Hlen; lia|].
    rewrite fix_row_pass by (apply Hno; lia).
    cbn [firstn Nat.add nth skipn app]. f_equal.
    apply IH.
    + apply centered_run_tail in Hrun. exact Hrun.
    + intros j Hj Hr. apply (Hno (S j)); [lia|]. apply centered_run_tail. exact Hr.
Qed.

(** C6: the repair leaves the grid alone when the extracted and the
    estimated column count differ by at most 1; the grid [["", "X", "", "Y"]]
    with 2 estimated columns becomes [["X", "Y"]].  A row is scanned from
    the left: a row with no (empty, non-empty, empty) run is unchanged; the
    content of the leftmost run is moved into the left cell and the middle
    is blanked, and the scan goes on in the same way with the cells behind
    the three cells of the run, so that a run whose left cell is the right
    cell of a repaired run stays as it is.  When the repair runs, the
    columns that are entirely empty after the scan are removed and the
    others stay. *)
Theorem fix_centered_text_issues_spec :
  (forall table_data estimated_cols,
      (Z.abs (Z.of_nat (LatticeTable.current_cols table_data) - estimated_cols) <= 1)%Z ->
      LatticeTable.fix_centered_text_issues table_data estimated_cols = table_data)
  /\ LatticeTable.fix_centered_text_issues
       [[Some ""; Some "X"; Some ""; Some "Y"]]%string 2
     = [[Some "X"; Some "Y"]]%string
  /\ LatticeTable.fix_row [Some ""; Some "X"; Some ""; Some "Y"]%string
     = [Some "X"; None; Some ""; Some "Y"]%string
  /\ (forall e c e' rest,
         LatticeTable.is_empty_cell e = true ->
         LatticeTable.is_empty_cell c = false ->
         LatticeTable.is_empty_cell e' = true ->
         LatticeTable.fix_row (e :: c :: e' :: rest)
         = c :: None :: e' :: LatticeTable.fix_row rest)
  /\ (forall row, (forall i, ~ centered_run row i) -> LatticeTable.fix_row row = row)
  /\ (forall row i,
         centered_run row i -> (forall j, (j < i)%nat -> ~ centered_run row j) ->
         LatticeTable.fix_row row
         = firstn i row
           ++ nth (i + 1) row None :: None :: nth (i + 2) row None
              :: LatticeTable.fix_row (skipn (i + 3) row))
  /\ (forall table_data estimated_cols,
         table_data <> [] ->
         (1 < Z.abs (Z.of_nat (LatticeTable.current_cols table_data) - estimated_cols))%Z ->
         LatticeTable.fix_centered_text_issues table_data estimated_cols
         = map (drop_empty_columns (map LatticeTable.fix_row table_data))
               (map LatticeTable.fix_row table_data)).
Proof.
  split; [exact fix_centered_text_issues_close|].
  split; [reflexivity|].
  split; [reflexivity|].
  split; [exact fix_row_centered|].
  split; [exact fix_row_no_run|].
  split; [exact fix_row_leftmost|exact fix_centered_text_issues_runs].
Qed.

Lemma fix_centered_text_issues_spec_witness :
  LatticeTable.fix_centered_text_issues [[Some "a"; None; Some "b"]]%string 2
  = [[Some "a"; None; Some "b"]]%string
  /\ LatticeTable.fix_row [None; Some "X"; None; Some "Y"; None]%string
     = Some "X"%string :: None :: None :: LatticeTable.fix_row [Some "Y"; None]%string
  /\ LatticeTable.fix_row [Some "a"; Some "b"; None; Some "c"]%string
     = [Some "a"; Some "b"; None; Some "c"]%string
  /\ LatticeTable.fix_row [Some "a"; None; Some "X"; None; Some "b"]%string
     = [Some "a"; Some "X"; None; None; Some "b"]%string
  /\ LatticeTable.fix_centered_text_issues
       [[None; Some "X"; None; Some "Y"; None]; [Some "a"; None; None; None; Some "e"]]%string 2
     = map (drop_empty_columns
              (map LatticeTable.fix_row
                 [[None; Some "X"; None; Some "Y"; None];
                  [Some "a"; None; None; None; Some "e"]]%string))
           (map LatticeTable.fix_row
              [[None; Some "X"; None; Some "Y"; None];
               [Some "a"; None; None; None; Some "e"]]%string).
Proof.
  destruct fix_centered_text_issues_spec
    as [Hclose [_ [_ [Hrun [Hnone [Hleft Hdrop]]]]]].
  split; [|split; [|split; [|split]]].
  - apply Hclose. vm_compute. discriminate.
  - apply Hrun; reflexivity.
  - apply Hnone. intros i (Hlen & He & Hc & He').
    cbn [List.length] in Hlen.
    destruct i as [|[|i]]; [discriminate He|discriminate He|lia].
  - apply (Hleft [Some "a"; None; Some "X"; None; Some "b"]%string 1%nat).
    + unfold centered_run. repeat split; [simpl; lia].
    + intros j Hj (_ & He & _). assert (j = 0%nat) by lia. subst j. discriminate He.
  - apply Hdrop; [discriminate|vm_compute; reflexivity].
Defined.

(** C6, the run that is not repaired: in [[None, "X", None, "Y", None]] the
    cells of columns 2 to 4 are an (empty, non-empty, empty) run, its
    content "Y" is not moved into column 2 and column 3 is not blanked,
    because the scan resumes at column 3 after the repair of columns 0 to
    2; the repaired grid still holds the run. *)
Lemma centered_run_left_unrepaired :
  let row := [None; Some "X"; None; Some "Y"; None]%string in
  let full := [Some "a"; Some "b"; Some "c"; Some "d"; Some "e"]%string in
  centered_run row 2
  /\ LatticeTable.fix_row row = [Some "X"; None; None; Some "Y"; None]%string
  /\ nth 2 (LatticeTable.fix_row row) None <> nth 3 row None
  /\ nth 3 (LatticeTable.fix_row row) None <> None
  /\ LatticeTable.fix_centered_text_issues [row; full] 2
     = [[Some "X"; None; None; Some "Y"; None]%string; full]
  /\ ~ (forall row i, centered_run row i ->
          nth i (LatticeTable.fix_row row) None = nth (i + 1) row None
          /\ nth (i + 1) (LatticeTable.fix_row row) None = None).
Proof.
  intros row full.
  assert (Hrun : centered_run row 2) by (unfold centered_run; repeat split; simpl; lia).
  split; [exact Hrun|].
  split; [reflexivity|].
  split; [discriminate|].
  split; [discriminate|].
  split; [reflexivity|].
  intros H. destruct (H row 2%nat Hrun) as [H1 _]. discriminate H1.
Qed.

(** ** Sorting keeps the elements *)

Lemma insert_by_perm {A : Type} (le : A -> A -> bool) (x : A) (l : list A) :
  Permutation (x :: l) (PyList.insert_by le x l).
Proof.
  induction l as [|y l IH]; simpl; [reflexivity|].
  destruct (le x y); [reflexivity|].
  rewrite perm_swap. apply perm_skip. exact IH.
Qed.

Lemma sort_by_perm {A : Type} (le : A -> A -> bool) (l : list A) :
  Permutation l (PyList.sort_by le l).
Proof.
  induction l as [|x l IH]; simpl; [reflexivity|].
  rewrite <- insert_by_perm. apply perm_skip. exact IH.
Qed.

Lemma sort_by_In {A : Type} (le : A -> A -> bool) (l : list A) (x : A) :
  In x (PyList.sort_by le l) <-> In x l.
Proof.
  split; apply Permutation_in; [symmetry|]; apply sort_by_perm.
Qed.

Lemma sort_by_length {A : Type} (le : A -> A -> bool) (l : list A) :
  List.length (PyList.sort_by le l) = List.length l.
Proof. symmetry. apply Permutation_length, sort_by_perm. Qed.

(** ** Sorting sorts *)

Lemma insert_by_ordered {A : Type} (le : A -> A -> bool) (x : A) (l : list A) :
  (forall a b, le a b = false -> le b a = true) ->
  (forall a b c, le a b = true -> le b c = true -> le a c = true) ->
  StronglySorted (fun a b => le a b = true) l ->
  StronglySorted (fun a b => le a b = true) (PyList.insert_by le x l).
Proof.
  intros Htot Htrans. induction l as [|y l IH]; intros Hs; simpl.
  - constructor; [constructor|constructor].
  - inversion Hs as [|? ? Hl Hy]; subst. destruct (le x y) eqn:E.
    + constructor; [exact Hs|]. constructor; [exact E|].
      rewrite Forall_forall in *. intros z Hz. exact (Htrans _ _ _ E (Hy z Hz)).
    + constructor; [apply IH; exact Hl|].
      rewrite Forall_forall in *. intros z Hz.
      apply (Permutation_in _ (Permutation_sym (insert_by_perm le x l))) in Hz.
      destruct Hz as [<-|Hz]; [apply Htot; exact E|apply Hy; exact Hz].
Qed.

Lemma sort_by_ordered {A : Type} (le : A -> A -> bool) (l : list A) :
  (forall a b, le a b = false -> le b a = true) ->
  (forall a b c, le a b = true -> le b c = true -> le a c = true) ->
  StronglySorted (fun a b => le a b = true) (PyList.sort_by le l).
Proof.
  intros Htot Htrans. induction l as [|x l IH]; simpl; [constructor|].
  apply insert_by_ordered; assumption.
Qed.

Lemma StronglySorted_impl {A : Type} (R S : A -> A -> Prop) (l : list A) :
  (forall a b, R a b -> S a b) -> StronglySorted R l -> StronglySorted S l.
Proof.
  intros H Hs. induction Hs as [|x l Hl IH Hx]; constructor; [exact IH|].
  rewrite Forall_forall in *. intros y Hy. apply H, Hx, Hy.
Qed.

(** Sorting by a rational key. *)
Lemma sort_by_key_ordered {A : Type} (key : A -> Q) (l : list A) :
  StronglySorted (fun a b => key a <= key b)
                 (PyList.sort_by (fun a b => Py.leb (key a) (key b)) l).
Proof.
  apply (StronglySorted_impl (fun a b => Py.leb (key a) (key b) = true)).
  - intros a b H. apply leb_le. exact H.
  - apply sort_by_ordered.
    + intros a b H. apply leb_gt in H. apply leb_le. lra.
    + intros a b c H1 H2. apply leb_le in H1. apply leb_le in H2. apply leb_le. lra.
Qed.

(** ** Closed cells *)

Section ClosedCells.
Import LatticeTableDetector.

Lemma top_edge_covered h_lines xa y xb :
  top_edge h_lines xa y xb = true -> covered_h h_lines y xa xb.
Proof.
  unfold top_edge. intros H. apply existsb_exists in H.
  destruct H as [h [Hin Hc]].
  apply andb_true_iff in Hc. destruct Hc as [Hc H3].
  apply andb_true_iff in Hc. destruct Hc as [H1 H2]. qcases.
  exists h. auto.
Qed.

Lemma left_edge_covered v_lines x ya yb :
  left_edge v_lines x ya yb = true -> covered_v v_lines x ya yb.
Proof.
  unfold left_edge. intros H. apply existsb_exists in H.
  destruct H as [v [Hin Hc]].
  apply andb_true_iff in Hc. destruct Hc as [Hc H3].
  apply andb_true_iff in Hc. destruct Hc as [H1 H2]. qcases.
  exists v. auto.
Qed.

Lemma edges_count_three h_lines v_lines xa ya xb yb :
  (3 <= edges_count h_lines v_lines ((xa, ya), (xb, yb)))%nat ->
  at_least_three (covered_h h_lines ya xa xb) (covered_h h_lines yb xa xb)
                 (covered_v v_lines xa ya yb) (covered_v v_lines xb ya yb).
Proof.
  unfold edges_count, at_least_three.
  pose proof (top_edge_covered h_lines xa ya xb) as Ht.
  pose proof (top_edge_covered h_lines xa yb xb) as Hb.
  pose proof (left_edge_covered v_lines xa ya yb) as Hl.
  pose proof (left_edge_covered v_lines xb ya yb) as Hr.
  change (top_edge h_lines xa yb xb) with (bottom_edge h_lines xa yb xb) in Hb.
  change (left_edge v_lines xb ya yb) with (right_edge v_lines xb ya yb) in Hr.
  destruct (top_edge h_lines xa ya xb); destruct (bottom_edge h_lines xa yb xb);
    destruct (left_edge v_lines xa ya yb); destruct (right_edge v_lines xb ya yb);
    simpl; intros H; try lia;
    repeat match goal with
    | H' : true = true -> _ |- _ => specialize (H' eq_refl)
    end; tauto.
Qed.

Lemma find_closed_cells_sound h_lines v_lines intersections xa ya xb yb :
  In ((xa, ya), (xb, yb)) (find_closed_cells h_lines v_lines intersections) ->
  1 <= xb - xa /\ 1 <= yb - ya
  /\ at_least_three (covered_h h_lines ya xa xb) (covered_h h_lines yb xa xb)
                    (covered_v v_lines xa ya yb) (covered_v v_lines xb ya yb).
Proof.
  unfold find_closed_cells. intros H.
  apply in_flat_map in H. destruct H as [[x1_ x2_] [_ H]].
  apply in_flat_map in H. destruct H as [[y1_ y2_] [_ H]].
  destruct (Py.ltb (x2_ - x1_) 1) eqn:Ew; [simpl in H; contradiction|].
  destruct (Py.ltb (y2_ - y1_) 1) eqn:Eh; [simpl in H; contradiction|].
  cbn [orb] in H.
  destruct (3 <=? edges_count h_lines v_lines (x1_, y1_, (x2_, y2_)))%nat eqn:Ec;
    [|simpl in H; contradiction].
  destruct H as [H|[]]. inversion H; subst. qcases.
  apply Nat.leb_le in Ec.
  split; [assumption|]. split; [assumption|].
  apply edges_count_three. exact Ec.
Qed.

End ClosedCells.

(** C3: every cell of [find_closed_cells] is at least 1 unit wide and
    1 unit high, and at least three of its four edges (top, bottom, left,
    right) are covered from corner to corner by one ruling whose position
    equals the edge's coordinate exactly. *)
Theorem closed_cells_three_edges_min_size
    (h_lines v_lines : list LatticeTableDetector.Line)
    (intersections : list LatticeTableDetector.Point) (xa ya xb yb : Q) :
  In ((xa, ya), (xb, yb))
     (LatticeTableDetector.find_closed_cells h_lines v_lines intersections) ->
  1 <= xb - xa /\ 1 <= yb - ya
  /\ at_least_three (covered_h h_lines ya xa xb) (covered_h h_lines yb xa xb)
                    (covered_v v_lines xa ya yb) (covered_v v_lines xb ya yb).
Proof. apply find_closed_cells_sound. Qed.

Lemma closed_cells_three_edges_min_size_witness :
  let h := fun y => LatticeTableDetector.mkLine 0 y 20 (Some y) in
  let v := fun x => LatticeTableDetector.mkLine x 0 x (Some 10) in
  let h_lines := [h 0; h 10] in
  let v_lines := [v 0; v 20] in
  1 <= 20 - 0 /\ 1 <= 10 - 0
  /\ at_least_three (covered_h h_lines 0 0 20) (covered_h h_lines 10 0 20)
                    (covered_v v_lines 0 0 10) (covered_v v_lines 20 0 10).
Proof.
  intros h v h_lines v_lines.
  apply (closed_cells_three_edges_min_size h_lines v_lines
           (LatticeTableDetector.find_line_intersections h_lines v_lines)).
  vm_compute. left. reflexivity.
Defined.

(** ** Deduplication of text-alignment candidates *)

Section Dedup.
Import BuildStructureMap.

Lemma any_iou_above_hit (threshold : Q) (box : BBox) (boxes : list BBox) (b : BBox) (v : Q) :
  In b boxes -> calculate_iou box b = Some v -> threshold < v ->
  any_iou_above threshold box boxes <> Some false.
Proof.
  intros Hin Hv Hlt. induction boxes as [|b0 boxes IH]; simpl; [contradiction|].
  destruct (calculate_iou box b0) as [v0|] eqn:E0; [|discriminate].
  destruct (Py.ltb threshold v0) eqn:El; [discriminate|].
  destruct Hin as [->|Hin]; [|exact (IH Hin)].
  rewrite Hv in E0. inversion E0; subst v0. qcases. exfalso; lra.
Qed.

Lemma add_text_tables_origin (geo : list BBox) (text : list TextCandidate)
    (acc final : list TableElement) :
  add_text_tables geo text acc = Some final ->
  forall t, In t final ->
    In t acc
    \/ exists c, In c text /\ t = text_only_table c
                 /\ any_iou_above (1 # 10) (cand_bbox c) geo = Some false.
Proof.
  revert acc. induction text as [|c text IH]; intros acc H t Ht; simpl in H.
  - inversion H; subst. left. exact Ht.
  - destruct (any_iou_above (1 # 10) (cand_bbox c) geo) as [[|]|] eqn:E;
      [| |discriminate].
    + destruct (IH _ H t Ht) as [Hacc|[c' [Hc' Hr]]]; [left; exact Hacc|].
      right. exists c'. split; [right; exact Hc'|exact Hr].
    + destruct (IH _ H t Ht) as [Hacc|[c' [Hc' Hr]]].
      * apply in_app_or in Hacc. destruct Hacc as [Hacc|[<-|[]]]; [left; exact Hacc|].
        right. exists c. split; [left; reflexivity|]. split; [reflexivity|exact E].
      * right. exists c'. split; [right; exact Hc'|exact Hr].
Qed.

(** The geometric tables stay, in front and in order. *)
Lemma add_text_tables_prefix (geo : list BBox) (text : list TextCandidate)
    (acc final : list TableElement) :
  add_text_tables geo text acc = Some final -> exists rest, final = acc ++ rest.
Proof.
  revert acc. induction text as [|c text IH]; intros acc H; simpl in H.
  - inversion H; subst. exists []. symmetry. apply app_nil_r.
  - destruct (any_iou_above (1 # 10) (cand_bbox c) geo) as [[|]|]; [| |discriminate].
    + apply IH. exact H.
    + destruct (IH _ H) as [rest ->]. exists (text_only_table c :: rest).
      rewrite <- app_assoc. reflexivity.
Qed.

Lemma final_elements_tables (page_elements : list Primitive)
    (geo : list TableElement) (text : list TextCandidate) (els : list Element) :
  final_elements page_elements geo text = Some els ->
  exists final_tables,
    dedup_tables geo text = Some final_tables
    /\ forall t, In (Table t) els <-> In t final_tables.
Proof.
  unfold final_elements. intros H.
  destruct (dedup_tables geo text) as [final_tables|]; [|discriminate].
  destruct (keep_elements _ _) as [kept|]; [|discriminate].
  inversion H; subst els. exists final_tables. split; [reflexivity|].
  intros t. rewrite sort_by_In, in_app_iff, !in_map_iff. split.
  - intros [[p [Hp _]]|[t' [Ht' Hin]]]; [discriminate|].
    inversion Ht'; subst. exact Hin.
  - intros Hin. right. exists t. auto.
Qed.

End Dedup.

(** C4: when step 4 of [analyze_page_layout] returns the page's elements,
    a text-alignment candidate whose IoU with some geometric (lattice or
    stream) table is above 0.10 has no table element among them: neither
    the element that would be built from it nor any other text-only table
    with its bbox. *)
Theorem overlapping_text_candidate_discarded
    (page_elements : list BuildStructureMap.Primitive)
    (geometric_tables : list BuildStructureMap.TableElement)
    (text_table_bboxes : list BuildStructureMap.TextCandidate)
    (c : BuildStructureMap.TextCandidate) (g : BuildStructureMap.TableElement)
    (v : Q) (els : list BuildStructureMap.Element) :
  Forall (fun t => BuildStructureMap.parsing_strategy t <> BuildStructureMap.TextOnly)
         geometric_tables ->
  In c text_table_bboxes -> In g geometric_tables ->
  BuildStructureMap.calculate_iou (BuildStructureMap.cand_bbox c)
                                  (BuildStructureMap.tbbox g) = Some v ->
  1 # 10 < v ->
  BuildStructureMap.final_elements page_elements geometric_tables text_table_bboxes
  = Some els ->
  ~ In (BuildStructureMap.Table (BuildStructureMap.text_only_table c)) els
  /\ forall t, In (BuildStructureMap.Table t) els ->
               BuildStructureMap.parsing_strategy t = BuildStructureMap.TextOnly ->
               BuildStructureMap.tbbox t <> BuildStructureMap.cand_bbox c.
Proof.
  intros Hgeo Hc Hg Hv Hlt Hels.
  assert (Hall : forall t, In (BuildStructureMap.Table t) els ->
                 BuildStructureMap.parsing_strategy t = BuildStructureMap.TextOnly ->
                 BuildStructureMap.tbbox t <> BuildStructureMap.cand_bbox c).
  { intros t Ht Hs Hb.
    destruct (final_elements_tables _ _ _ _ Hels) as [final_tables [Hd Hiff]].
    apply Hiff in Ht. unfold BuildStructureMap.dedup_tables in Hd.
    destruct (add_text_tables_origin _ _ _ _ Hd t Ht) as [Hin|[c' [_ [-> Hno]]]].
    - rewrite Forall_forall in Hgeo. exact (Hgeo t Hin Hs).
    - simpl in Hb. rewrite Hb in Hno.
      apply (any_iou_above_hit (1 # 10) (BuildStructureMap.cand_bbox c)
               (map BuildStructureMap.tbbox geometric_tables)
               (BuildStructureMap.tbbox g) v); auto.
      apply in_map. exact Hg. }
  split; [|exact Hall].
  intros Hin. exact (Hall _ Hin eq_refl eq_refl).
Qed.

Lemma overlapping_text_candidate_discarded_witness :
  let lattice := BuildStructureMap.mkTableElement (mkBBox 0 0 100 100)
                   BuildStructureMap.Lattice "Found by lattice analysis (4 cells)" [] in
  let inside := BuildStructureMap.mkTextCandidate (mkBBox 0 0 100 50) [] in
  let apart := BuildStructureMap.mkTextCandidate (mkBBox 0 200 100 250) [] in
  let block := BuildStructureMap.mkPrimitive BuildStructureMap.PTextBlock
                 (mkBBox 0 300 50 310) in
  let els := [BuildStructureMap.Table lattice;
              BuildStructureMap.Table (BuildStructureMap.text_only_table apart);
              BuildStructureMap.Prim block] in
  BuildStructureMap.final_elements [block] [lattice] [inside; apart] = Some els
  /\ ~ In (BuildStructureMap.Table (BuildStructureMap.text_only_table inside)) els.
Proof.
  intros lattice inside apart block els.
  assert (H : BuildStructureMap.final_elements [block] [lattice] [inside; apart] = Some els)
    by reflexivity.
  split; [exact H|].
  eapply proj1.
  eapply (overlapping_text_candidate_discarded [block] [lattice] [inside; apart]
            inside lattice).
  - constructor; [discriminate|constructor].
  - left. reflexivity.
  - left. reflexivity.
  - vm_compute. reflexivity.
  - reflexivity.
  - exact H.
Defined.

(** ** [min] and [max] of a list *)

Lemma fold_min2_spec (l : list Q) (x : Q) :
  (fold_left Py.min2 l x = x \/ In (fold_left Py.min2 l x) l)
  /\ fold_left Py.min2 l x <= x
  /\ forall y, In y l -> fold_left Py.min2 l x <= y.
Proof.
  revert x. induction l as [|y l IH]; intros x; simpl.
  - split; [left; reflexivity|]. split; [lra|]. intros y [].
  - destruct (IH (Py.min2 x y)) as [Hmem [Hle Hall]].
    pose proof (min2_lb_l x y). pose proof (min2_lb_r x y).
    split; [|split].
    + destruct Hmem as [Hmem|Hmem]; [|right; right; exact Hmem].
      rewrite Hmem. destruct (min2_spec x y) as [[_ ->]|[_ ->]]; auto.
    + lra.
    + intros z [<-|Hz]; [lra|]. apply Hall. exact Hz.
Qed.

Lemma fold_max2_spec (l : list Q) (x : Q) :
  (fold_left Py.max2 l x = x \/ In (fold_left Py.max2 l x) l)
  /\ x <= fold_left Py.max2 l x
  /\ forall y, In y l -> y <= fold_left Py.max2 l x.
Proof.
  revert x. induction l as [|y l IH]; intros x; simpl.
  - split; [left; reflexivity|]. split; [lra|]. intros y [].
  - destruct (IH (Py.max2 x y)) as [Hmem [Hle Hall]].
    pose proof (max2_ub_l x y). pose proof (max2_ub_r x y).
    split; [|split].
    + destruct Hmem as [Hmem|Hmem]; [|right; right; exact Hmem].
      rewrite Hmem. destruct (max2_spec x y) as [[_ ->]|[_ ->]]; auto.
    + lra.
    + intros z [<-|Hz]; [lra|]. apply Hall. exact Hz.
Qed.

Lemma min_of_spec (l : list Q) (m : Q) :
  Py.min_of l = Some m -> In m l /\ forall y, In y l -> m <= y.
Proof.
  destruct l as [|x l]; simpl; [discriminate|].
  intros H. inversion H; subst m. clear H.
  destruct (fold_min2_spec l x) as [Hmem [Hle Hall]].
  split; [destruct Hmem as [->|Hm]; auto|].
  intros y [<-|Hy]; auto.
Qed.

Lemma max_of_spec (l : list Q) (m : Q) :
  Py.max_of l = Some m -> In m l /\ forall y, In y l -> y <= m.
Proof.
  destruct l as [|x l]; simpl; [discriminate|].
  intros H. inversion H; subst m. clear H.
  destruct (fold_max2_spec l x) as [Hmem [Hle Hall]].
  split; [destruct Hmem as [->|Hm]; auto|].
  intros y [<-|Hy]; auto.
Qed.

Lemma min_of_some (l : list Q) : l <> [] -> exists m, Py.min_of l = Some m.
Proof. destruct l; [contradiction|]. intros _. eexists. reflexivity. Qed.

Lemma max_of_some (l : list Q) : l <> [] -> exists m, Py.max_of l = Some m.
Proof. destruct l; [contradiction|]. intros _. eexists. reflexivity. Qed.

(** ** Standard rows of a stream table *)

Section StreamRows.
Import StreamTable.

Lemma filter_none_longer (m n : nat) (pre : list (list Word)) :
  (forall r, In r pre -> List.length r <= m)%nat -> (m < n)%nat ->
  filter (has_count n) pre = [].
Proof.
  intros Hall Hlt. induction pre as [|r pre IH]; simpl; [reflexivity|].
  unfold has_count at 1.
  destruct (Nat.eqb_spec (List.length r) n) as [E|E].
  - specialize (Hall r (or_introl eq_refl)). lia.
  - apply IH. intros r' Hr'. apply Hall. right. exact Hr'.
Qed.

(** The loop invariant of lines 110-119: after the rows [pre], the pair
    holds the greatest count and the rows of [pre] that have it. *)
Lemma max_words_fold (rows pre : list (list Word)) (m : nat) (acc : list (list Word)) :
  (forall r, In r pre -> List.length r <= m)%nat ->
  acc = filter (has_count m) pre ->
  let res := fold_left count_step rows (m, acc) in
  (forall r, In r (pre ++ rows) -> List.length r <= fst res)%nat
  /\ snd res = filter (has_count (fst res)) (pre ++ rows)
  /\ (fst res = m \/ exists r, In r rows /\ List.length r = fst res).
Proof.
  revert pre m acc. induction rows as [|r0 rows IH]; intros pre m acc Hall Hacc; simpl.
  - rewrite app_nil_r. auto.
  - unfold count_step at 2.
    destruct (Nat.ltb_spec m (List.length r0)) as [Hlt|Hge].
    + destruct (IH (pre ++ [r0]) (List.length r0) [r0]) as [H1 [H2 H3]].
      * intros r Hr. apply in_app_or in Hr. destruct Hr as [Hr|[<-|[]]]; [|lia].
        specialize (Hall r Hr). lia.
      * rewrite filter_app, (filter_none_longer m) by assumption. simpl.
        unfold has_count. rewrite Nat.eqb_refl. reflexivity.
      * rewrite <- app_assoc in H1, H2. simpl in H1, H2.
        split; [exact H1|]. split; [exact H2|].
        right. destruct H3 as [H3|[r [Hr Hl]]].
        -- exists r0. split; [left; reflexivity|]. symmetry. exact H3.
        -- exists r. split; [right; exact Hr|exact Hl].
    + destruct (Nat.eqb_spec (List.length r0) m) as [Heq|Hne].
      * destruct (IH (pre ++ [r0]) m (acc ++ [r0])) as [H1 [H2 H3]].
        -- intros r Hr. apply in_app_or in Hr. destruct Hr as [Hr|[<-|[]]]; [|lia].
           apply Hall. exact Hr.
        -- rewrite filter_app, Hacc. simpl. unfold has_count at 3.
           rewrite Heq, Nat.eqb_refl. reflexivity.
        -- rewrite <- app_assoc in H1, H2. simpl in H1, H2.
           split; [exact H1|]. split; [exact H2|].
           destruct H3 as [H3|[r [Hr Hl]]]; [left; exact H3|].
           right. exists r. split; [right; exact Hr|exact Hl].
      * destruct (IH (pre ++ [r0]) m acc) as [H1 [H2 H3]].
        -- intros r Hr. apply in_app_or in Hr. destruct Hr as [Hr|[<-|[]]]; [|lia].
           apply Hall. exact Hr.
        -- rewrite filter_app, Hacc. simpl. unfold has_count at 3.
           destruct (Nat.eqb_spec (List.length r0) m); [contradiction|].
           rewrite app_nil_r. reflexivity.
        -- rewrite <- app_assoc in H1, H2. simpl in H1, H2.
           split; [exact H1|]. split; [exact H2|].
           destruct H3 as [H3|[r [Hr Hl]]]; [left; exact H3|].
           right. exists r. split; [right; exact Hr|exact Hl].
Qed.

Lemma max_words_count_is_max (word_rows : list (list Word)) :
  (forall row, In row word_rows -> List.length row <= max_words_count word_rows)%nat
  /\ (word_rows <> [] ->
      exists row, In row word_rows /\ List.length row = max_words_count word_rows).
Proof.
  destruct (max_words_fold word_rows [] O []) as [H1 [_ H3]];
    [intros r []|reflexivity|].
  simpl in H1. fold (max_words word_rows) in H1, H3.
  fold (max_words_count word_rows) in H1, H3.
  split; [exact H1|]. intros Hne.
  destruct H3 as [H3|H3]; [|exact H3].
  destruct word_rows as [|r rows]; [contradiction|].
  exists r. split; [left; reflexivity|].
  specialize (H1 r (or_introl eq_refl)). lia.
Qed.

Lemma max_words_rows_standard (word_rows : list (list Word)) :
  max_words_rows word_rows = filter (is_standard_row word_rows) word_rows.
Proof.
  destruct (max_words_fold word_rows [] O []) as [_ [H2 _]];
    [intros r []|reflexivity|].
  exact H2.
Qed.

End StreamRows.

Section StreamBoundaries.
Import StreamTable.

Variable f : Word -> Q.
Variable dw : Word.

Lemma append_col_length (cols : list (list Q)) (i : nat) (v : Q) :
  List.length (append_col cols i v) = List.length cols.
Proof.
  revert i. induction cols as [|c cols IH]; intros [|i]; simpl; auto.
Qed.

Lemma append_col_nth (cols : list (list Q)) (i j : nat) (v : Q) :
  (i < List.length cols)%nat ->
  nth j (append_col cols i v) [] = if (i =? j)%nat then nth j cols [] ++ [v] else nth j cols [].
Proof.
  revert i j. induction cols as [|c cols IH]; intros i j Hi; simpl in Hi; [lia|].
  destruct i as [|i]; destruct j as [|j]; simpl; auto.
  apply IH. lia.
Qed.

Lemma collect_row_nth (count : nat) (row : list Word) (k : nat) (cols : list (list Q))
    (j : nat) :
  List.length cols = count -> (j < count)%nat ->
  let cols' :=
    fold_left
      (fun cols' iw =>
         if (fst iw <? count)%nat then append_col cols' (fst iw) (f (snd iw)) else cols')
      (combine (seq k (List.length row)) row) cols in
  List.length cols' = count
  /\ nth j cols' []
     = nth j cols [] ++ (if (k <=? j)%nat then at_position f dw (j - k) row else []).
Proof.
  revert k cols. induction row as [|w row IH]; intros k cols Hlen Hj; simpl.
  - split; [exact Hlen|]. unfold at_position. simpl.
    destruct (k <=? j)%nat; rewrite app_nil_r; reflexivity.
  - set (cols1 := if (k <? count)%nat then append_col cols k (f w) else cols).
    assert (Hlen1 : List.length cols1 = count).
    { unfold cols1. destruct (k <? count)%nat; [rewrite append_col_length|]; exact Hlen. }
    destruct (IH (S k) cols1 Hlen1 Hj) as [HL HN].
    split; [exact HL|]. rewrite HN. unfold at_position. simpl List.length.
    assert (Hc1 : nth j cols1 [] = if (k =? j)%nat then nth j cols [] ++ [f w]
                                   else nth j cols []).
    { unfold cols1. destruct (Nat.ltb_spec k count) as [Hk|Hk].
      - apply append_col_nth. lia.
      - destruct (Nat.eqb_spec k j); [lia|reflexivity]. }
    rewrite Hc1.
    destruct (Nat.eqb_spec k j) as [->|Hne].
    + destruct (Nat.leb_spec (S j) j); [lia|].
      rewrite Nat.leb_refl, Nat.sub_diag. simpl. rewrite app_nil_r. reflexivity.
    + destruct (Nat.leb_spec (S k) j) as [H1|H1];
        destruct (Nat.leb_spec k j) as [H2|H2]; try lia; [|reflexivity].
      replace (j - k)%nat with (S (j - S k)) by lia. simpl.
      destruct (Nat.ltb_spec (j - S k) (List.length row)) as [H3|H3];
        destruct (Nat.ltb_spec (S (j - S k)) (S (List.length row))) as [H4|H4];
        try lia; reflexivity.
Qed.

Lemma collect_fold_nth (count : nat) (rows : list (list Word)) (cols : list (list Q))
    (j : nat) :
  List.length cols = count -> (j < count)%nat ->
  nth j
    (fold_left
       (fun cols row =>
          fold_left
            (fun cols' iw =>
               if (fst iw <? count)%nat then append_col cols' (fst iw) (f (snd iw))
               else cols')
            (combine (seq 0 (List.length row)) row) cols)
       rows cols) []
  = nth j cols [] ++ flat_map (at_position f dw j) rows.
Proof.
  revert cols. induction rows as [|row rows IH]; intros cols Hlen Hj; simpl.
  - rewrite app_nil_r. reflexivity.
  - destruct (collect_row_nth count row 0 cols j Hlen Hj) as [HL HN].
    rewrite IH by assumption. rewrite HN. simpl. rewrite Nat.sub_0_r.
    rewrite <- app_assoc. reflexivity.
Qed.

(** At each position below [count], [collect] holds the values of the
    words at that position, row after row. *)
Lemma collect_nth (count : nat) (rows : list (list Word)) (j : nat) :
  (j < count)%nat ->
  nth j (collect f count rows) [] = flat_map (at_position f dw j) rows.
Proof.
  intros Hj. unfold collect.
  rewrite (collect_fold_nth count rows (repeat [] count) j (repeat_length _ _) Hj).
  rewrite nth_repeat. reflexivity.
Qed.

Lemma at_position_full (m : nat) (rows : list (list Word)) (j : nat) :
  (j < m)%nat -> (forall row, In row rows -> List.length row = m) ->
  flat_map (at_position f dw j) rows = map (fun row => f (nth j row dw)) rows.
Proof.
  intros Hj Hall. induction rows as [|row rows IH]; simpl; [reflexivity|].
  rewrite IH by (intros r Hr; apply Hall; right; exact Hr).
  unfold at_position.
  destruct (Nat.ltb_spec j (List.length row)) as [H|H]; [reflexivity|].
  specialize (Hall row (or_introl eq_refl)). lia.
Qed.

End StreamBoundaries.

Lemma flat_map_single {A B : Type} (f : A -> list B) (g : A -> B) (l : list A) :
  (forall a, In a l -> f a = [g a]) -> flat_map f l = map g l.
Proof.
  intros H. induction l as [|a l IH]; simpl; [reflexivity|].
  rewrite (H a (or_introl eq_refl)), IH; [reflexivity|].
  intros b Hb. apply H. right. exact Hb.
Qed.

Section StandardBoundaries.
Import StreamTable.

Lemma boundaries_from_full (m : nat) (rows : list (list Word)) :
  rows <> [] -> (forall row, In row rows -> List.length row = m) ->
  boundaries_from m rows = map (boundary_at rows) (seq 0 m).
Proof.
  intros Hne Hall. unfold boundaries_from. apply flat_map_single.
  intros i Hi. apply in_seq in Hi. assert (Hlt : (i < m)%nat) by lia.
  rewrite !(collect_nth _ no_word) by exact Hlt.
  rewrite !(at_position_full _ no_word m) by assumption.
  unfold boundary_at.
  destruct (min_of_some (map (fun row => w_x0 (nth i row no_word)) rows)) as [lo ->];
    [destruct rows; [contradiction|discriminate]|].
  destruct (max_of_some (map (fun row => w_x1 (nth i row no_word)) rows)) as [hi ->];
    [destruct rows; [contradiction|discriminate]|].
  reflexivity.
Qed.

Lemma standard_rows_length (word_rows : list (list Word)) (row : list Word) :
  In row (filter (is_standard_row word_rows) word_rows) ->
  List.length row = max_words_count word_rows.
Proof.
  intros H. apply filter_In in H. destruct H as [_ H].
  apply Nat.eqb_eq in H. exact H.
Qed.

Lemma standard_rows_nonempty (word_rows : list (list Word)) :
  (0 < max_words_count word_rows)%nat ->
  filter (is_standard_row word_rows) word_rows <> [].
Proof.
  intros Hm.
  destruct (max_words_count_is_max word_rows) as [_ Hex].
  destruct Hex as [row [Hin Hlen]].
  - intros ->. cbv in Hm. lia.
  - intros Hnil.
    assert (Hf : In row (filter (is_standard_row word_rows) word_rows)).
    { apply filter_In. split; [exact Hin|]. apply Nat.eqb_eq. exact Hlen. }
    rewrite Hnil in Hf. exact Hf.
Qed.

Lemma column_boundary_at (word_rows : list (list Word)) (i : nat) :
  let m := max_words_count word_rows in
  let standard := filter (is_standard_row word_rows) word_rows in
  (i < m)%nat ->
  exists lo hi,
    nth_error (column_boundaries word_rows) i = Some (lo, hi)
    /\ (forall row, In row standard ->
          exists w, nth_error row i = Some w /\ lo <= w_x0 w /\ w_x1 w <= hi)
    /\ (exists row w, In row standard /\ nth_error row i = Some w /\ w_x0 w = lo)
    /\ (exists row w, In row standard /\ nth_error row i = Some w /\ w_x1 w = hi).
Proof.
  intros m standard Hi.
  assert (Hne : standard <> []) by (apply standard_rows_nonempty; unfold m in Hi; lia).
  assert (Hall : forall row, In row standard -> List.length row = m)
    by (apply standard_rows_length).
  unfold column_boundaries. rewrite max_words_rows_standard.
  fold m standard. rewrite (boundaries_from_full m standard Hne Hall).
  rewrite nth_error_map, (nth_error_nth' _ O) by (rewrite length_seq; exact Hi).
  rewrite seq_nth by exact Hi. simpl. unfold boundary_at.
  destruct (min_of_some (map (fun row => w_x0 (nth i row no_word)) standard)) as [lo Hlo];
    [destruct standard; [contradiction|discriminate]|].
  destruct (max_of_some (map (fun row => w_x1 (nth i row no_word)) standard)) as [hi Hhi];
    [destruct standard; [contradiction|discriminate]|].
  rewrite Hlo, Hhi. exists lo, hi. split; [reflexivity|].
  apply min_of_spec in Hlo. destruct Hlo as [Hlo_in Hlo_le].
  apply max_of_spec in Hhi. destruct Hhi as [Hhi_in Hhi_le].
  assert (Hnth : forall row, In row standard ->
                 nth_error row i = Some (nth i row no_word)).
  { intros row Hr. apply nth_error_nth'. rewrite (Hall row Hr). exact Hi. }
  split; [|split].
  - intros row Hr. exists (nth i row no_word). split; [apply Hnth; exact Hr|].
    split.
    + apply Hlo_le. apply (in_map (fun row => w_x0 (nth i row no_word))). exact Hr.
    + apply Hhi_le. apply (in_map (fun row => w_x1 (nth i row no_word))). exact Hr.
  - apply in_map_iff in Hlo_in. destruct Hlo_in as [row [Heq Hr]].
    exists row, (nth i row no_word). auto.
  - apply in_map_iff in Hhi_in. destruct Hhi_in as [row [Heq Hr]].
    exists row, (nth i row no_word). auto.
Qed.

Lemma column_boundaries_length (word_rows : list (list Word)) :
  (0 < max_words_count word_rows)%nat ->
  List.length (column_boundaries word_rows) = max_words_count word_rows.
Proof.
  intros Hm. unfold column_boundaries. rewrite max_words_rows_standard.
  rewrite (boundaries_from_full _ _ (standard_rows_nonempty _ Hm)
                                (standard_rows_length word_rows)).
  rewrite length_map, length_seq. reflexivity.
Qed.

End StandardBoundaries.

(** C1, as the code has it: a row is standard exactly when its word count
    equals the greatest per-row word count of the table; the column
    boundaries are computed from the standard rows alone, and the boundary
    of each ordinal position is the least [x0] and the greatest [x1] of
    the words at that position in the standard rows. *)
Theorem stream_standard_rows_spec (word_rows : list (list Word)) :
  let m := StreamTable.max_words_count word_rows in
  let standard := filter (StreamTable.is_standard_row word_rows) word_rows in
  (forall row, In row word_rows -> (List.length row <= m)%nat)
  /\ (word_rows <> [] -> exists row, In row word_rows /\ List.length row = m)
  /\ (forall row, StreamTable.is_standard_row word_rows row = true <-> List.length row = m)
  /\ StreamTable.column_boundaries word_rows = StreamTable.boundaries_from m standard
  /\ ((0 < m)%nat -> List.length (StreamTable.column_boundaries word_rows) = m)
  /\ (forall i, (i < m)%nat ->
        exists lo hi,
          nth_error (StreamTable.column_boundaries word_rows) i = Some (lo, hi)
          /\ (forall row, In row standard ->
                exists w, nth_error row i = Some w /\ lo <= w_x0 w /\ w_x1 w <= hi)
          /\ (exists row w, In row standard /\ nth_error row i = Some w /\ w_x0 w = lo)
          /\ (exists row w, In row standard /\ nth_error row i = Some w /\ w_x1 w = hi)).
Proof.
  intros m standard.
  destruct (max_words_count_is_max word_rows) as [Hmax Hex].
  split; [exact Hmax|]. split; [exact Hex|].
  split; [intros row; apply Nat.eqb_eq|].
  split.
  { unfold StreamTable.column_boundaries. rewrite max_words_rows_standard. reflexivity. }
  split; [apply column_boundaries_length|].
  intros i Hi. apply column_boundary_at. exact Hi.
Qed.

Lemma stream_standard_rows_spec_witness :
  let w := fun t a b => mkWord t a b 0 10 in
  let rows := [[w "a" 0 10]; [w "b" 2 12]; [w "c" 0 9; w "d" 20 30];
               [w "e" 1 11; w "f" 19 28]]%string in
  List.length (StreamTable.column_boundaries rows) = 2%nat
  /\ exists lo hi,
       nth_error (StreamTable.column_boundaries rows) 1 = Some (lo, hi)
       /\ (exists row w', In row (filter (StreamTable.is_standard_row rows) rows)
                          /\ nth_error row 1 = Some w' /\ w_x0 w' = lo).
Proof.
  intros w rows.
  destruct (stream_standard_rows_spec rows) as [_ [_ [_ [_ [Hlen Hat]]]]].
  split.
  - apply Hlen. vm_compute. lia.
  - destruct (Hat 1%nat) as [lo [hi [Hn [_ [Hlo _]]]]].
    + vm_compute. lia.
    + exists lo, hi. split; [exact Hn|exact Hlo].
Defined.

(** Three rows with 1, 1 and 2 words: the modal count is 1, yet the rows
    with one word are not standard and the row with two words is. *)
Lemma stream_standard_is_not_modal :
  let w := fun t a b => mkWord t a b 0 10 in
  let rows := [[w "a" 0 10]; [w "b" 0 10]; [w "c" 0 10; w "d" 20 30]]%string in
  ~ (forall row, In row rows ->
       (StreamTable.is_standard_row rows row = true
        <-> modal (map (@List.length Word) rows) (List.length row))).
Proof.
  intros w rows H.
  specialize (H [w "a"%string 0 10] (or_introl eq_refl)).
  assert (Hm : modal (map (@List.length Word) rows) 1).
  { split; [left; reflexivity|].
    intros [|[|[|k]]]; simpl; lia. }
  apply H in Hm. discriminate Hm.
Qed.

(** ** Gaps of the occupancy projection *)

Section Gaps.
Import TextAlignment.

Lemma nth_error_middle (pre rest : list nat) (v : nat) :
  nth_error (pre ++ v :: rest) (Z.to_nat (Z.of_nat (List.length pre))) = Some v.
Proof.
  rewrite Nat2Z.id, nth_error_app2 by lia. rewrite Nat.sub_diag. reflexivity.
Qed.

Lemma zero_not_occupied (projection : list nat) (j : Z) :
  nth_error projection (Z.to_nat j) = Some O -> ~ occupied_at projection j.
Proof. intros H [_ [v Hv]]. rewrite H in Hv. discriminate. Qed.

(** A zero run that reaches up to [i] and cannot be extended to the left
    begins at one place only. *)
Lemma run_start_unique (projection : list nat) (i s s' : Z) :
  (0 <= s < i)%Z -> (0 <= s' < i)%Z ->
  (forall j, (s <= j < i)%Z -> nth_error projection (Z.to_nat j) = Some O) ->
  (forall j, (s' <= j < i)%Z -> nth_error projection (Z.to_nat j) = Some O) ->
  (s = 0%Z \/ occupied_at projection (s - 1)) ->
  (s' = 0%Z \/ occupied_at projection (s' - 1)) ->
  s = s'.
Proof.
  intros Hs Hs' Hz Hz' Hm Hm'.
  destruct (Z.lt_trichotomy s s') as [Hlt|[Heq|Hgt]]; [|exact Heq|].
  - exfalso. destruct Hm' as [->|Ho]; [lia|].
    apply (zero_not_occupied projection (s' - 1)); [apply Hz; lia|exact Ho].
  - exfalso. destruct Hm as [->|Ho]; [lia|].
    apply (zero_not_occupied projection (s - 1)); [apply Hz'; lia|exact Ho].
Qed.

Lemma gap_eq (g : Gap) (s e w : Z) :
  gap_start g = s -> gap_end g = e -> gap_width g = w -> g = (s, e, w).
Proof.
  destruct g as [[a b] c]. unfold gap_start, gap_end, gap_width. simpl.
  intros -> -> ->. reflexivity.
Qed.

(** No maximal zero run ends at an index with occupancy 0. *)
Lemma no_run_ends_at_zero (projection : list nat) (g : Gap) (i : Z) :
  (i < Z.of_nat (List.length projection))%Z ->
  nth_error projection (Z.to_nat i) = Some O ->
  zero_run projection g -> gap_end g <> i.
Proof.
  intros Hlen Hv (_ & _ & _ & _ & _ & Hmax) He. rewrite He in Hmax.
  destruct Hmax as [Hmax|Hmax]; [lia|]. exact (zero_not_occupied _ _ Hv Hmax).
Qed.

(** No maximal zero run ends right after an occupied index. *)
Lemma no_run_ends_after_occupied (projection : list nat) (g : Gap) (i : Z) :
  (i = 0%Z \/ occupied_at projection (i - 1)) ->
  zero_run projection g -> gap_end g <> i.
Proof.
  intros Hprev (Hb & _ & _ & Hz & _) He. rewrite He in *.
  destruct Hprev as [->|Ho]; [lia|].
  apply (zero_not_occupied projection (i - 1)); [apply Hz; lia|exact Ho].
Qed.

(** One iteration of the scan, at index [i] with occupancy [v]. *)
Lemma scan_step (projection : list nat) (i : Z) (v : nat) (in_gap : bool) (start : Z)
    (gaps : list Gap) :
  (0 <= i < Z.of_nat (List.length projection))%Z ->
  nth_error projection (Z.to_nat i) = Some v ->
  scan_inv projection i in_gap start gaps ->
  scan_inv projection (i + 1)
    (if (v =? 0)%nat && negb in_gap then true
     else if negb (v =? 0)%nat && in_gap then false else in_gap)
    (if (v =? 0)%nat && negb in_gap then i else start)
    (if (v =? 0)%nat && negb in_gap then gaps
     else if negb (v =? 0)%nat && in_gap then gaps ++ [(start, i, (i - start)%Z)]
          else gaps).
Proof.
  intros Hi Hv (Hg & Hc & Hnd & Hin & Hout).
  assert (Hold : forall g, In g gaps -> zero_run projection g /\ (gap_end g < i + 1)%Z)
    by (intros g Hgin; destruct (Hg g Hgin); split; [assumption|lia]).
  destruct (Nat.eqb_spec v 0) as [Hz|Hnz]; destruct in_gap; cbn [andb negb].
  - (* inside a gap, still zero *)
    subst v. destruct (Hin eq_refl) as (Hs & Hzero & Hmax).
    split; [exact Hold|]. split; [|split; [exact Hnd|split; [|discriminate]]].
    + intros g Hrun He. apply Hc; [exact Hrun|].
      pose proof (no_run_ends_at_zero projection g i ltac:(lia) Hv Hrun). lia.
    + intros _. split; [lia|]. split; [|exact Hmax].
      intros j Hj. destruct (Z.eq_dec j i) as [->|Hne]; [exact Hv|apply Hzero; lia].
  - (* a gap opens at [i] *)
    subst v.
    split; [exact Hold|]. split; [|split; [exact Hnd|split; [|discriminate]]].
    + intros g Hrun He. apply Hc; [exact Hrun|].
      pose proof (no_run_ends_at_zero projection g i ltac:(lia) Hv Hrun). lia.
    + intros _. split; [lia|]. split; [|exact (Hout eq_refl)].
      intros j Hj. assert (j = i) as -> by lia. exact Hv.
  - (* the gap closes before [i] *)
    destruct (Hin eq_refl) as (Hs & Hzero & Hmax).
    assert (Hocc : occupied_at projection i).
    { split; [lia|]. destruct v as [|v']; [contradiction|]. exists v'. exact Hv. }
    assert (Hnew : zero_run projection (start, i, (i - start)%Z)).
    { unfold zero_run, gap_start, gap_end, gap_width. cbn [fst snd].
      split; [lia|]. split; [lia|]. split; [reflexivity|]. split; [exact Hzero|].
      split; [exact Hmax|right; exact Hocc]. }
    split; [|split; [|split; [|split; [discriminate|]]]].
    + intros g Hgin. apply in_app_or in Hgin. destruct Hgin as [Hgin|[<-|[]]];
        [apply Hold; exact Hgin|].
      split; [exact Hnew|unfold gap_end; cbn [fst snd]; lia].
    + intros g Hrun He. apply in_or_app.
      destruct (Z.eq_dec (gap_end g) i) as [Hend|Hend];
        [|left; apply Hc; [exact Hrun|lia]].
      right. left. symmetry.
      destruct Hrun as (Hb & _ & Hw & Hgz & Hgm & _). rewrite Hend in *.
      assert (Hst : gap_start g = start)
        by (apply (run_start_unique projection i); try assumption; lia).
      apply gap_eq; [exact Hst|exact Hend|rewrite Hw, Hst; reflexivity].
    + apply NoDup_app; [exact Hnd|constructor; [intros []|constructor]|].
      intros g Hgin [<-|[]]. destruct (Hg _ Hgin) as [_ Hlt].
      unfold gap_end in Hlt. cbn [fst snd] in Hlt. lia.
    + intros _. right. replace (i + 1 - 1)%Z with i by lia. exact Hocc.
  - (* outside a gap, still occupied *)
    assert (Hocc : occupied_at projection i).
    { split; [lia|]. destruct v as [|v']; [contradiction|]. exists v'. exact Hv. }
    split; [exact Hold|]. split; [|split; [exact Hnd|split; [discriminate|]]].
    + intros g Hrun He. apply Hc; [exact Hrun|].
      pose proof (no_run_ends_after_occupied projection g i (Hout eq_refl) Hrun). lia.
    + intros _. right. replace (i + 1 - 1)%Z with i by lia. exact Hocc.
Qed.

Lemma scan_gaps_inv (rest pre : list nat) (in_gap : bool) (start : Z) (gaps : list Gap) :
  let projection := pre ++ rest in
  scan_inv projection (Z.of_nat (List.length pre)) in_gap start gaps ->
  let '(in_gap', start', gaps') :=
    scan_gaps rest (Z.of_nat (List.length pre)) in_gap start gaps in
  scan_inv projection (Z.of_nat (List.length projection)) in_gap' start' gaps'.
Proof.
  revert pre in_gap start gaps.
  induction rest as [|v rest IH]; intros pre in_gap start gaps projection Hinv.
  - simpl. unfold projection in *. rewrite app_nil_r in *. exact Hinv.
  - cbn [scan_gaps]. cbv zeta.
    assert (Hproj : projection = (pre ++ [v]) ++ rest)
      by (unfold projection; rewrite <- app_assoc; reflexivity).
    assert (Hi : (Z.of_nat (List.length pre) + 1)%Z = Z.of_nat (List.length (pre ++ [v])))
      by (rewrite length_app; simpl; lia).
    assert (Hv : nth_error projection (Z.to_nat (Z.of_nat (List.length pre))) = Some v)
      by apply nth_error_middle.
    assert (Hlen : (0 <= Z.of_nat (List.length pre) < Z.of_nat (List.length projection))%Z)
      by (unfold projection; rewrite length_app; simpl; lia).
    pose proof (scan_step projection _ v in_gap start gaps Hlen Hv Hinv) as Hstep.
    rewrite Hi in Hstep |- *.
    destruct ((v =? 0)%nat && negb in_gap).
    + specialize (IH (pre ++ [v]) true (Z.of_nat (List.length pre)) gaps).
      rewrite <- Hproj in IH. apply IH. exact Hstep.
    + destruct (negb (v =? 0)%nat && in_gap).
      * specialize (IH (pre ++ [v]) false start
                       (gaps ++ [(start, Z.of_nat (List.length pre),
                                  (Z.of_nat (List.length pre) - start)%Z)])).
        rewrite <- Hproj in IH. apply IH. exact Hstep.
      * specialize (IH (pre ++ [v]) in_gap start gaps).
        rewrite <- Hproj in IH. apply IH. exact Hstep.
Qed.

(** The gaps found are the maximal runs of zero occupancy, each once. *)
Lemma find_gaps_zero_runs (projection : list nat) (gaps : list Gap) :
  find_gaps projection (Z.of_nat (List.length projection)) = Some gaps ->
  NoDup gaps /\ forall g, In g gaps <-> zero_run projection g.
Proof.
  remember (Z.of_nat (List.length projection)) as n eqn:Hn.
  unfold find_gaps. destruct projection as [|p0 r]; [discriminate|].
  pose proof (scan_gaps_inv r [p0] (p0 =? 0)%nat
                (if (p0 =? 0)%nat then 0%Z else (-1)%Z) []) as Hscan.
  cbv zeta in Hscan.
  change (Z.of_nat (List.length [p0])) with 1%Z in Hscan.
  change ([p0] ++ r) with (p0 :: r) in Hscan.
  rewrite <- Hn in Hscan.
  destruct (scan_gaps r 1 (p0 =? 0)%nat (if (p0 =? 0)%nat then 0%Z else (-1)%Z) [])
    as [[in_gap' start'] gaps'].
  intros H. injection H as <-.
  destruct Hscan as (Hg & Hc & Hnd & Hin & Hout).
  { split; [intros g []|]. split; [|split; [constructor|split]].
    - intros g (Hb & _) He. lia.
    - intros Hz. destruct (Nat.eqb_spec p0 0) as [->|]; [|discriminate].
      split; [lia|]. split; [|left; reflexivity].
      intros j Hj. assert (j = 0%Z) as -> by lia. reflexivity.
    - intros Hz. right. destruct (Nat.eqb_spec p0 0) as [|Hnz]; [discriminate|].
      split; [lia|]. destruct p0 as [|p0']; [contradiction|]. exists p0'. reflexivity. }
  assert (Hpos : (0 < n)%Z) by (rewrite Hn; simpl; lia).
  destruct in_gap'.
  - destruct (Hin eq_refl) as (Hs & Hzero & Hmax).
    assert (Hlast : zero_run (p0 :: r) (start', n, (n - start')%Z)).
    { unfold zero_run, gap_start, gap_end, gap_width. cbn [fst snd]. rewrite <- Hn.
      split; [lia|]. split; [lia|]. split; [reflexivity|]. split; [exact Hzero|].
      split; [exact Hmax|left; reflexivity]. }
    split.
    + apply NoDup_app; [exact Hnd|constructor; [intros []|constructor]|].
      intros g Hgin [<-|[]]. destruct (Hg _ Hgin) as [_ Hlt].
      unfold gap_end in Hlt. cbn [fst snd] in Hlt. lia.
    + intros g. split.
      * intros Hgin. apply in_app_or in Hgin. destruct Hgin as [Hgin|[<-|[]]];
          [apply Hg; exact Hgin|exact Hlast].
      * intros Hrun. apply in_or_app.
        assert (He : (gap_end g <= n)%Z) by (destruct Hrun as (_ & He & _); lia).
        destruct (Z.eq_dec (gap_end g) n) as [Hend|Hend];
          [|left; apply Hc; [exact Hrun|lia]].
        right. left. symmetry.
        destruct Hrun as (Hb & _ & Hw & Hgz & Hgm & _). rewrite Hend in *.
        assert (Hst : gap_start g = start')
          by (apply (run_start_unique (p0 :: r) n); try assumption; lia).
        apply gap_eq; [exact Hst|exact Hend|rewrite Hw, Hst; reflexivity].
  - split; [exact Hnd|]. intros g. split; [intros Hgin; apply Hg; exact Hgin|].
    intros Hrun. apply Hc; [exact Hrun|].
    assert (He : (gap_end g <= n)%Z) by (destruct Hrun as (_ & He & _); lia).
    pose proof (no_run_ends_after_occupied (p0 :: r) g n (Hout eq_refl) Hrun). lia.
Qed.


Lemma find_gaps_some (projection : list nat) (table_width : Z) :
  projection <> [] -> exists gaps, find_gaps projection table_width = Some gaps.
Proof.
  intros Hne. unfold find_gaps. destruct projection as [|p0 r]; [contradiction|].
  cbv zeta. destruct (scan_gaps _ _ _ _ _) as [[in_gap' start'] gaps].
  eexists. reflexivity.
Qed.

End Gaps.

Lemma firstn_In {A : Type} (n : nat) (l : list A) (x : A) :
  In x (firstn n l) -> In x l.
Proof.
  intros H. rewrite <- (firstn_skipn n l). apply in_or_app. left. exact H.
Qed.

Lemma firstn_NoDup {A : Type} (n : nat) (l : list A) : NoDup l -> NoDup (firstn n l).
Proof.
  intros H. rewrite <- (firstn_skipn n l) in H.
  exact (NoDup_app_remove_r _ _ H).
Qed.

Section Separators.
Import TextAlignment.

Lemma incr_range_length (lo hi i : Z) (projection : list nat) :
  List.length (incr_range lo hi i projection) = List.length projection.
Proof.
  revert i. induction projection as [|v r IH]; intros i; simpl; [reflexivity|].
  rewrite IH. reflexivity.
Qed.

Lemma projection_of_length (box : BBox) (table_width : Z) (words : list Word) :
  List.length (projection_of box table_width words) = Z.to_nat table_width.
Proof.
  unfold projection_of.
  assert (H : forall p, List.length
                (fold_left
                   (fun projection word =>
                      incr_range (Z.max 0 (py_int (w_x0 word - bx0 box)))
                                 (Z.min table_width (py_int (w_x1 word - bx0 box)))
                                 0 projection) words p) = List.length p).
  { induction words as [|w words IH]; intros p; simpl; [reflexivity|].
    rewrite IH. apply incr_range_length. }
  rewrite H. apply repeat_length.
Qed.

(** The widest-first list holds the gaps wider than 3 units, each once. *)
Lemma wide_gaps_spec (gaps : list Gap) :
  NoDup gaps ->
  NoDup (wide_gaps gaps)
  /\ List.length (wide_gaps gaps)
     = List.length (filter (fun g => (min_gap_width <? gap_width g)%Z) gaps)
  /\ forall g, In g (wide_gaps gaps) <-> In g gaps /\ (3 < gap_width g)%Z.
Proof.
  intros Hnd. unfold wide_gaps. split; [|split].
  - eapply Permutation_NoDup; [apply sort_by_perm|]. apply NoDup_filter. exact Hnd.
  - apply sort_by_length.
  - intros g. rewrite sort_by_In, filter_In. unfold min_gap_width.
    rewrite Z.ltb_lt. reflexivity.
Qed.


Lemma process_group_emitted (group : list (list Word))
    (c : BuildStructureMap.TextCandidate) :
  process_group group = Emitted c ->
  exists box m tops,
    group_bbox group = Some box /\ modal_count group = Some m /\ (2 <= m)%nat
    /\ BuildStructureMap.cand_bbox c = box
    /\ BuildStructureMap.cand_geometries c = map (virtual_line box) tops
    /\ List.length tops = (m - 1)%nat
    /\ NoDup tops
    /\ forall g, In g tops ->
         zero_run (band_projection group box m) g /\ (3 < gap_width g)%Z.
Proof.
  unfold process_group. intros H.
  destruct (group_bbox group) as [box|]; [|discriminate].
  destruct (modal_count group) as [m|]; [|discriminate].
  destruct (Nat.ltb_spec m 2) as [|Hm]; [discriminate|].
  destruct (LatticeTable.is_nil (template_words group m)); [discriminate|].
  destruct (Z.leb_spec (py_int (bx1 box - bx0 box)) 0) as [|Hw]; [discriminate|].
  destruct (find_gaps _ _) as [gaps|] eqn:Hgaps; [|discriminate].
  destruct (Nat.ltb_spec (List.length (firstn (m - 1) (wide_gaps gaps))) (m - 1))
    as [|Hlen]; [discriminate|].
  injection H as <-.
  exists box, m, (firstn (m - 1) (wide_gaps gaps)).
  assert (Hwidth : py_int (bx1 box - bx0 box)
                   = Z.of_nat (List.length (band_projection group box m))).
  { unfold band_projection. rewrite projection_of_length. lia. }
  rewrite Hwidth in Hgaps. apply find_gaps_zero_runs in Hgaps.
  destruct Hgaps as [Hnd Hruns].
  destruct (wide_gaps_spec gaps Hnd) as [Hwnd [_ Hwin]].
  do 5 (split; [first [reflexivity|assumption]|]).
  split; [pose proof (firstn_le_length (m - 1) (wide_gaps gaps)); lia|].
  split; [apply firstn_NoDup; exact Hwnd|].
  intros g Hg. apply firstn_In in Hg. apply Hwin in Hg. destruct Hg as [Hg Hwide].
  split; [apply Hruns; exact Hg|exact Hwide].
Qed.

Lemma process_group_too_few_gaps (group : list (list Word)) (box : BBox) (m : nat)
    (gaps : list Gap) :
  group_bbox group = Some box -> modal_count group = Some m ->
  find_gaps (band_projection group box m) (py_int (bx1 box - bx0 box)) = Some gaps ->
  (List.length (filter (fun g => (3 <? gap_width g)%Z) gaps) < m - 1)%nat ->
  forall c, process_group group <> Emitted c.
Proof.
  intros Hbox Hm Hgaps Hfew c. unfold process_group. rewrite Hbox, Hm.
  destruct (m <? 2)%nat; [discriminate|].
  destruct (LatticeTable.is_nil _); [discriminate|].
  destruct (_ <=? 0)%Z; [discriminate|].
  rewrite Hgaps.
  destruct (Nat.ltb_spec (List.length (firstn (m - 1) (wide_gaps gaps))) (m - 1))
    as [|Hlen]; [discriminate|].
  exfalso. rewrite length_firstn in Hlen.
  unfold wide_gaps in Hlen. rewrite sort_by_length in Hlen.
  unfold min_gap_width in Hlen. lia.
Qed.



End Separators.

(** ** The modal word count of a band *)

Section ModalCount.
Import TextAlignment.










End ModalCount.

(** ** The projection of a band and its column gaps *)

Section Occupancy.
Import TextAlignment.











End Occupancy.



(** ** The page dictionaries of the stitcher *)

Section PageDictionaries.
Import LatticeTable.

Lemma get_append_at {A : Type} (d : PyList.dict (list A)) (k : Z) (v : A) (p : Z) :
  PyList.get (PyList.append_at d k v) p
  = if (p =? k)%Z
    then Some (match PyList.get d k with Some l => l ++ [v] | None => [v] end)
    else PyList.get d p.
Proof.
  induction d as [|[k' vs] r IH]; simpl.
  - reflexivity.
  - destruct (Z.eqb_spec k k') as [->|Hk]; simpl.
    + destruct (Z.eqb_spec p k'); reflexivity.
    + rewrite IH. destruct (Z.eqb_spec k k'); [contradiction|].
      destruct (Z.eqb_spec p k') as [->|Hp]; [|reflexivity].
      destruct (Z.eqb_spec k' k); [congruence|reflexivity].
Qed.

Lemma append_at_nonempty {A : Type} (d : PyList.dict (list A)) (k : Z) (v : A) :
  Forall (fun e => snd e <> []) d ->
  Forall (fun e => snd e <> []) (PyList.append_at d k v).
Proof.
  induction d as [|[k' vs] r IH]; intros H; simpl.
  - constructor; [discriminate|constructor].
  - inversion H; subst. destruct (k =? k')%Z.
    + constructor; [|assumption]. simpl. destruct vs; discriminate.
    + constructor; [assumption|apply IH; assumption].
Qed.

Lemma group_by_page_get (tabs pre : list TableInfo) (d : PyList.dict (list TableInfo)) :
  (forall p, PyList.get d p = some_if_any (filter (on_page p) pre)) ->
  forall p, PyList.get (group_by_page tabs d) p
            = some_if_any (filter (on_page p) (pre ++ tabs)).
Proof.
  revert pre d. induction tabs as [|t tabs IH]; intros pre d Hd p; simpl.
  - rewrite app_nil_r. apply Hd.
  - replace (pre ++ t :: tabs) with ((pre ++ [t]) ++ tabs)
      by (rewrite <- app_assoc; reflexivity).
    apply IH. clear p. intros p. rewrite get_append_at, filter_app. simpl.
    unfold on_page at 2. rewrite (Z.eqb_sym (page_num t) p).
    destruct (Z.eqb_spec p (page_num t)) as [->|Hp].
    + rewrite Hd. destruct (filter (on_page (page_num t)) pre); reflexivity.
    + rewrite app_nil_r. apply Hd.
Qed.

Lemma group_by_page_nonempty (tabs : list TableInfo) (d : PyList.dict (list TableInfo)) :
  Forall (fun e => snd e <> []) d ->
  Forall (fun e => snd e <> []) (group_by_page tabs d).
Proof.
  revert d. induction tabs as [|t tabs IH]; intros d H; simpl; [exact H|].
  apply IH, append_at_nonempty, H.
Qed.

(** The tables of a page, as the dictionary holds them. *)
Lemma tables_of_page (tabs : list TableInfo) (p : Z) :
  tables_of (make_context tabs) p = filter (on_page p) tabs.
Proof.
  unfold tables_of, make_context. simpl.
  fold (group_by_page tabs []).
  rewrite (group_by_page_get tabs [] []) by reflexivity. simpl.
  destruct (filter (on_page p) tabs); reflexivity.
Qed.

Lemma pick_by_page_get (pick : list TableInfo -> option TableInfo)
    (d : PyList.dict (list TableInfo)) (p : Z) :
  (forall l, l <> [] -> pick l <> None) ->
  Forall (fun e => snd e <> []) d ->
  PyList.get (pick_by_page pick d) p
  = match PyList.get d p with Some l => pick l | None => None end.
Proof.
  intros Hpick H. induction d as [|[k l] r IH]; simpl; [reflexivity|].
  inversion H; subst. simpl in *.
  destruct (pick l) as [t|] eqn:E; [|exfalso; exact (Hpick l H2 E)].
  simpl. destruct (p =? k)%Z; [symmetry; exact E|apply IH; assumption].
Qed.

Lemma max_by_fold_spec {A : Type} (key : A -> Q) (l : list A) (x : A) :
  let r := fold_left (fun m y => if Py.ltb (key m) (key y) then y else m) l x in
  (r = x \/ In r l) /\ key x <= key r /\ forall y, In y l -> key y <= key r.
Proof.
  revert x. induction l as [|y l IH]; intros x; simpl.
  - split; [left; reflexivity|]. split; [lra|]. intros y [].
  - destruct (IH (if Py.ltb (key x) (key y) then y else x)) as [Hmem [Hle Hall]].
    destruct (Py.ltb (key x) (key y)) eqn:E; qcases.
    + split; [destruct Hmem as [->|Hm]; auto|]. split; [lra|].
      intros z [<-|Hz]; [exact Hle|apply Hall; exact Hz].
    + split; [destruct Hmem as [->|Hm]; auto|]. split; [exact Hle|].
      intros z [<-|Hz]; [lra|apply Hall; exact Hz].
Qed.

Lemma max_by_spec {A : Type} (key : A -> Q) (l : list A) (t : A) :
  PyList.max_by key l = Some t -> In t l /\ forall y, In y l -> key y <= key t.
Proof.
  destruct l as [|x l]; simpl; [discriminate|].
  intros H. injection H as <-.
  destruct (max_by_fold_spec key l x) as [Hmem [Hle Hall]].
  split; [destruct Hmem as [->|Hm]; auto|].
  intros y [<-|Hy]; auto.
Qed.

Lemma min_by_fold_spec {A : Type} (key : A -> Q) (l : list A) (x : A) :
  let r := fold_left (fun m y => if Py.ltb (key y) (key m) then y else m) l x in
  (r = x \/ In r l) /\ key r <= key x /\ forall y, In y l -> key r <= key y.
Proof.
  revert x. induction l as [|y l IH]; intros x; simpl.
  - split; [left; reflexivity|]. split; [lra|]. intros y [].
  - destruct (IH (if Py.ltb (key y) (key x) then y else x)) as [Hmem [Hle Hall]].
    destruct (Py.ltb (key y) (key x)) eqn:E; qcases.
    + split; [destruct Hmem as [->|Hm]; auto|]. split; [lra|].
      intros z [<-|Hz]; [exact Hle|apply Hall; exact Hz].
    + split; [destruct Hmem as [->|Hm]; auto|]. split; [exact Hle|].
      intros z [<-|Hz]; [lra|apply Hall; exact Hz].
Qed.

Lemma min_by_spec {A : Type} (key : A -> Q) (l : list A) (t : A) :
  PyList.min_by key l = Some t -> In t l /\ forall y, In y l -> key t <= key y.
Proof.
  destruct l as [|x l]; simpl; [discriminate|].
  intros H. injection H as <-.
  destruct (min_by_fold_spec key l x) as [Hmem [Hle Hall]].
  split; [destruct Hmem as [->|Hm]; auto|].
  intros y [<-|Hy]; auto.
Qed.

Lemma picked_table (pick : list TableInfo -> option TableInfo) (tabs : list TableInfo)
    (p : Z) (t : TableInfo) :
  (forall l, l <> [] -> pick l <> None) ->
  PyList.get (pick_by_page pick (tables_by_page (make_context tabs))) p = Some t ->
  pick (filter (on_page p) tabs) = Some t /\ tables_of (make_context tabs) p <> [].
Proof.
  intros Hpick H. rewrite tables_of_page.
  unfold make_context in H. simpl in H. fold (group_by_page tabs []) in H.
  rewrite pick_by_page_get in H;
    [|exact Hpick|apply group_by_page_nonempty; constructor].
  rewrite (group_by_page_get tabs [] []) in H by reflexivity. simpl in H.
  destruct (filter (on_page p) tabs) as [|x l]; [discriminate|].
  split; [exact H|discriminate].
Qed.

(** The entry of [bottom_tables_by_page] for a page is a table of that
    page whose bottom is the greatest on the page. *)
Lemma bottom_table_spec (tabs : list TableInfo) (p : Z) (cb : TableInfo) :
  PyList.get (bottom_tables_by_page (make_context tabs)) p = Some cb ->
  In cb tabs /\ page_num cb = p /\ tables_of (make_context tabs) p <> []
  /\ forall t, In t tabs -> page_num t = p -> bbottom (bbox t) <= bbottom (bbox cb).
Proof.
  intros H. apply picked_table in H.
  - destruct H as [H Hne]. apply max_by_spec in H. destruct H as [Hin Hall].
    apply filter_In in Hin. destruct Hin as [Hin Hp]. apply Z.eqb_eq in Hp.
    repeat split; try assumption.
    intros t Ht Htp. apply (Hall t). apply filter_In. split; [exact Ht|].
    apply Z.eqb_eq. exact Htp.
  - intros [|x l] Hl; [contradiction|discriminate].
Qed.

(** The entry of [top_tables_by_page] for a page is a table of that page
    whose top is the least on the page. *)
Lemma top_table_spec (tabs : list TableInfo) (p : Z) (nt : TableInfo) :
  PyList.get (top_tables_by_page (make_context tabs)) p = Some nt ->
  In nt tabs /\ page_num nt = p /\ tables_of (make_context tabs) p <> []
  /\ forall t, In t tabs -> page_num t = p -> btop (bbox nt) <= btop (bbox t).
Proof.
  intros H. apply picked_table in H.
  - destruct H as [H Hne]. apply min_by_spec in H. destruct H as [Hin Hall].
    apply filter_In in Hin. destruct Hin as [Hin Hp]. apply Z.eqb_eq in Hp.
    repeat split; try assumption.
    intros t Ht Htp. apply (Hall t). apply filter_In. split; [exact Ht|].
    apply Z.eqb_eq. exact Htp.
  - intros [|x l] Hl; [contradiction|discriminate].
Qed.

End PageDictionaries.

(** ** One step of the stitcher *)

Section MergeStep.
Import LatticeTable.

Lemma id_eqb_eq (a b : TableId) : id_eqb a b = true <-> a = b.
Proof.
  unfold id_eqb. destruct a as [a1 a2], b as [b1 b2]. simpl.
  rewrite andb_true_iff, !Z.eqb_eq. split; [intros [-> ->]; reflexivity|].
  intros H. injection H as -> ->. auto.
Qed.

Lemma id_in_In (i : TableId) (s : list TableId) : id_in i s = true <-> In i s.
Proof.
  unfold id_in. rewrite existsb_exists. split.
  - intros [x [Hx He]]. apply id_eqb_eq in He. subst. exact Hx.
  - intros H. exists i. split; [exact H|]. apply id_eqb_eq. reflexivity.
Qed.

Lemma id_in_not_In (i : TableId) (s : list TableId) : id_in i s = false <-> ~ In i s.
Proof.
  rewrite <- id_in_In. destruct (id_in i s); split; intros H; try reflexivity;
    try discriminate; try (intro; discriminate). exfalso. apply H. reflexivity.
Qed.







End MergeStep.

(** ** The whole run of the stitcher *)

Section MergeRun.
Import LatticeTable.







End MergeRun.

(** ** The order of the stitcher's steps *)

Section MergeOrder.
Import LatticeTable.
































End MergeOrder.




(* ================================================================== *)
(** * Part IV: further properties of the sources                       *)
(* ================================================================== *)

(** ** The IoU lies between 0 and 1 *)

Lemma Qmult_le_both (a b c d : Q) : 0 <= a -> a <= b -> 0 <= c -> c <= d -> a * c <= b * d.
Proof.
  intros Ha Hab Hc Hcd.
  apply Qle_trans with (b * c).
  - apply Qmult_le_compat_r; assumption.
  - rewrite (Qmult_comm b c), (Qmult_comm b d). apply Qmult_le_compat_r; [assumption|lra].
Qed.

(** For two boxes with [x0 <= x1] and [top <= bottom], a returned IoU is a
    ratio between 0 and 1. *)
Theorem calculate_iou_range (a b : BBox) (v : Q) :
  bx0 a <= bx1 a -> btop a <= bbottom a -> bx0 b <= bx1 b -> btop b <= bbottom b ->
  BuildStructureMap.calculate_iou a b = Some v ->
  0 <= v /\ v <= 1.
Proof.
  intros Hax Hay Hbx Hby. unfold BuildStructureMap.calculate_iou.
  pose proof (max2_ub_l (bx0 a) (bx0 b)). pose proof (max2_ub_r (bx0 a) (bx0 b)).
  pose proof (max2_ub_l (btop a) (btop b)). pose proof (max2_ub_r (btop a) (btop b)).
  pose proof (min2_lb_l (bx1 a) (bx1 b)). pose proof (min2_lb_r (bx1 a) (bx1 b)).
  pose proof (min2_lb_l (bbottom a) (bbottom b)).
  pose proof (min2_lb_r (bbottom a) (bbottom b)).
  set (xl := Py.max2 (bx0 a) (bx0 b)) in *. set (yt := Py.max2 (btop a) (btop b)) in *.
  set (xr := Py.min2 (bx1 a) (bx1 b)) in *. set (yb := Py.min2 (bbottom a) (bbottom b)) in *.
  destruct (Py.ltb xr xl) eqn:E1; [intros Hv; injection Hv as <-; lra|].
  destruct (Py.ltb yb yt) eqn:E2; [intros Hv; injection Hv as <-; lra|].
  qcases. cbn [orb].
  set (I := (xr - xl) * (yb - yt)).
  set (A := (bx1 a - bx0 a) * (bbottom a - btop a)).
  set (B := (bx1 b - bx0 b) * (bbottom b - btop b)).
  assert (HI : 0 <= I) by (apply Qmult_le_0_compat; lra).
  assert (HA : I <= A) by (apply Qmult_le_both; lra).
  assert (HB : I <= B) by (apply Qmult_le_both; lra).
  destruct (Py.eqb (A + B - I) 0) eqn:E3; [discriminate|]. qcases.
  intros Hv. injection Hv as <-.
  assert (HD : 0 < A + B - I) by lra.
  split.
  - apply Qle_shift_div_l; [exact HD|lra].
  - apply Qle_shift_div_r; [exact HD|lra].
Qed.

Lemma calculate_iou_range_witness :
  exists v, BuildStructureMap.calculate_iou (mkBBox 0 0 100 50) (mkBBox 0 0 100 100) = Some v
            /\ 0 <= v /\ v <= 1.
Proof.
  eexists. split; [vm_compute; reflexivity|].
  apply (calculate_iou_range (mkBBox 0 0 100 50) (mkBBox 0 0 100 100));
    try (vm_compute; discriminate).
  vm_compute. reflexivity.
Defined.

(** ** Step 4 of the page analysis *)

Section PageElements.
Import BuildStructureMap.

(** With one box of positive area the division is defined. *)
Lemma calculate_iou_defined (a b : BBox) :
  positive_area b -> calculate_iou a b <> None.
Proof.
  intros [Hbx Hby]. unfold calculate_iou.
  pose proof (max2_ub_l (bx0 a) (bx0 b)). pose proof (max2_ub_r (bx0 a) (bx0 b)).
  pose proof (max2_ub_l (btop a) (btop b)). pose proof (max2_ub_r (btop a) (btop b)).
  pose proof (min2_lb_l (bx1 a) (bx1 b)). pose proof (min2_lb_r (bx1 a) (bx1 b)).
  pose proof (min2_lb_l (bbottom a) (bbottom b)).
  pose proof (min2_lb_r (bbottom a) (bbottom b)).
  set (xl := Py.max2 (bx0 a) (bx0 b)) in *. set (yt := Py.max2 (btop a) (btop b)) in *.
  set (xr := Py.min2 (bx1 a) (bx1 b)) in *. set (yb := Py.min2 (bbottom a) (bbottom b)) in *.
  destruct (Py.ltb xr xl) eqn:E1; [discriminate|].
  destruct (Py.ltb yb yt) eqn:E2; [discriminate|].
  qcases. cbn [orb].
  set (I := (xr - xl) * (yb - yt)).
  set (A := (bx1 a - bx0 a) * (bbottom a - btop a)).
  set (B := (bx1 b - bx0 b) * (bbottom b - btop b)).
  assert (HA : I <= A) by (apply Qmult_le_both; lra).
  assert (HB : 0 < B) by (apply Qmult_lt_0_compat; lra).
  destruct (Py.eqb (A + B - I) 0) eqn:E3; [|discriminate]. qcases. lra.
Qed.

Lemma any_iou_above_false (threshold : Q) (box : BBox) (boxes : list BBox) :
  any_iou_above threshold box boxes = Some false <->
  forall b, In b boxes -> exists v, calculate_iou box b = Some v /\ v <= threshold.
Proof.
  induction boxes as [|b0 boxes IH]; simpl.
  - split; [intros _ b []|reflexivity].
  - destruct (calculate_iou box b0) as [v0|] eqn:E0.
    + destruct (Py.ltb threshold v0) eqn:El; qcases.
      * split; [discriminate|]. intros H.
        destruct (H b0 (or_introl eq_refl)) as [v [Hv Hle]].
        rewrite E0 in Hv. injection Hv as <-. lra.
      * rewrite IH. split.
        -- intros H b [<-|Hb]; [exists v0; auto|apply H; exact Hb].
        -- intros H b Hb. apply H. right. exact Hb.
    + split; [discriminate|]. intros H.
      destruct (H b0 (or_introl eq_refl)) as [v [Hv _]]. congruence.
Qed.

Lemma any_iou_above_defined (threshold : Q) (box : BBox) (boxes : list BBox) :
  (forall b, In b boxes -> positive_area b) ->
  any_iou_above threshold box boxes <> None.
Proof.
  induction boxes as [|b0 boxes IH]; intros Hpos; simpl; [discriminate|].
  destruct (calculate_iou box b0) as [v0|] eqn:E0.
  - destruct (Py.ltb threshold v0); [discriminate|].
    apply IH. intros b Hb. apply Hpos. right. exact Hb.
  - exfalso. exact (calculate_iou_defined box b0 (Hpos b0 (or_introl eq_refl)) E0).
Qed.

Lemma keep_elements_spec (bbs : list BBox) (prims kept : list Primitive) :
  keep_elements bbs prims = Some kept ->
  forall p, In p kept <->
            In p prims
            /\ (p_type p = PTextBlock -> any_iou_above (8 # 10) (p_bbox p) bbs = Some false).
Proof.
  revert kept. induction prims as [|el prims IH]; intros kept H p; simpl in H.
  - injection H as <-. simpl. tauto.
  - destruct (match p_type el with
              | PTextBlock => any_iou_above (8 # 10) (p_bbox el) bbs
              | _ => Some false
              end) as [[|]|] eqn:Ei; [| |discriminate];
      (destruct (keep_elements bbs prims) as [k|]; [|discriminate]);
      injection H as <-; specialize (IH k eq_refl p).
    + destruct (p_type el) eqn:Et; try discriminate. split.
      * intros Hk. apply IH in Hk. destruct Hk as [H1 H2].
        split; [right; exact H1|exact H2].
      * intros [[<-|H1] H2]; [specialize (H2 Et); congruence|].
        apply IH. split; assumption.
    + split.
      * intros [<-|Hk].
        -- split; [left; reflexivity|]. intros Hty. rewrite Hty in Ei. exact Ei.
        -- apply IH in Hk. destruct Hk as [H1 H2]. split; [right; exact H1|exact H2].
      * intros [[<-|H1] H2]; [left; reflexivity|].
        right. apply IH. split; assumption.
Qed.

Lemma keep_elements_defined (bbs : list BBox) (prims : list Primitive) :
  (forall b, In b bbs -> positive_area b) -> keep_elements bbs prims <> None.
Proof.
  intros Hpos. induction prims as [|el prims IH]; simpl; [discriminate|].
  destruct (keep_elements bbs prims) as [k|]; [|contradiction].
  destruct (p_type el); try discriminate.
  destruct (any_iou_above (8 # 10) (p_bbox el) bbs) as [i|] eqn:E; [discriminate|].
  exfalso. exact (any_iou_above_defined _ _ _ Hpos E).
Qed.

Lemma add_text_tables_kept (geo : list BBox) (text : list TextCandidate)
    (acc final : list TableElement) (c : TextCandidate) :
  add_text_tables geo text acc = Some final -> In c text ->
  any_iou_above (1 # 10) (cand_bbox c) geo = Some false ->
  In (text_only_table c) final.
Proof.
  revert acc. induction text as [|c0 text IH]; intros acc H Hin Hno; simpl in H;
    [contradiction|].
  destruct (any_iou_above (1 # 10) (cand_bbox c0) geo) as [[|]|] eqn:E; [| |discriminate].
  - destruct Hin as [->|Hin]; [congruence|]. exact (IH _ H Hin Hno).
  - destruct Hin as [->|Hin]; [|exact (IH _ H Hin Hno)].
    destruct (add_text_tables_prefix _ _ _ _ H) as [rest ->].
    apply in_or_app. left. apply in_or_app. right. left. reflexivity.
Qed.

Lemma add_text_tables_defined (geo : list BBox) (text : list TextCandidate)
    (acc : list TableElement) :
  (forall b, In b geo -> positive_area b) -> add_text_tables geo text acc <> None.
Proof.
  intros Hpos. revert acc. induction text as [|c text IH]; intros acc; simpl;
    [discriminate|].
  destruct (any_iou_above (1 # 10) (cand_bbox c) geo) as [[|]|] eqn:E;
    [apply IH|apply IH|].
  exfalso. exact (any_iou_above_defined _ _ _ Hpos E).
Qed.

Lemma final_elements_parts (page_elements : list Primitive)
    (geo : list TableElement) (text : list TextCandidate) (els : list Element) :
  final_elements page_elements geo text = Some els ->
  exists final_tables kept,
    dedup_tables geo text = Some final_tables
    /\ keep_elements (map tbbox final_tables) page_elements = Some kept
    /\ els = PyList.sort_by top_le (map Prim kept ++ map Table final_tables).
Proof.
  unfold final_elements. intros H.
  destruct (dedup_tables geo text) as [final_tables|]; [|discriminate].
  destruct (keep_elements _ _) as [kept|] eqn:E; [|discriminate].
  injection H as <-. exists final_tables, kept. auto.
Qed.

Lemma final_elements_prims (page_elements : list Primitive)
    (geo : list TableElement) (text : list TextCandidate) (els : list Element) :
  final_elements page_elements geo text = Some els ->
  exists final_tables kept,
    dedup_tables geo text = Some final_tables
    /\ keep_elements (map tbbox final_tables) page_elements = Some kept
    /\ (forall p, In (Prim p) els <-> In p kept)
    /\ (forall t, In (Table t) els <-> In t final_tables).
Proof.
  intros H. destruct (final_elements_parts _ _ _ _ H) as (ft & kept & Hd & Hk & ->).
  exists ft, kept. repeat split; try assumption.
  - rewrite sort_by_In, in_app_iff, !in_map_iff.
    intros [[p' [Hp' Hin]]|[t [Ht _]]]; [|discriminate]. injection Hp' as <-. exact Hin.
  - intros Hin. rewrite sort_by_In. apply in_or_app. left. apply in_map. exact Hin.
  - rewrite sort_by_In, in_app_iff, !in_map_iff.
    intros [[p' [Hp' _]]|[t' [Ht' Hin]]]; [discriminate|]. injection Ht' as <-. exact Hin.
  - intros Hin. rewrite sort_by_In. apply in_or_app. right. apply in_map. exact Hin.
Qed.

End PageElements.

(** After step 4 no text block of the page overlaps a table of the page
    with an IoU above 0.8. *)
Theorem layout_text_blocks_outside_tables
    (page_elements : list BuildStructureMap.Primitive)
    (geometric_tables : list BuildStructureMap.TableElement)
    (text_table_bboxes : list BuildStructureMap.TextCandidate)
    (els : list BuildStructureMap.Element) :
  BuildStructureMap.final_elements page_elements geometric_tables text_table_bboxes
  = Some els ->
  forall p t,
    In (BuildStructureMap.Prim p) els ->
    BuildStructureMap.p_type p = BuildStructureMap.PTextBlock ->
    In (BuildStructureMap.Table t) els ->
    exists v, BuildStructureMap.calculate_iou (BuildStructureMap.p_bbox p)
                                              (BuildStructureMap.tbbox t) = Some v
              /\ v <= 8 # 10.
Proof.
  intros H p t Hp Hty Ht.
  destruct (final_elements_prims _ _ _ _ H) as (ft & kept & _ & Hk & Hprim & Htab).
  apply Hprim in Hp. apply Htab in Ht.
  apply (keep_elements_spec _ _ _ Hk) in Hp. destruct Hp as [_ Hno].
  specialize (Hno Hty). rewrite any_iou_above_false in Hno.
  apply Hno. apply in_map. exact Ht.
Qed.

Lemma layout_text_blocks_outside_tables_witness :
  let lattice := BuildStructureMap.mkTableElement (mkBBox 0 0 100 100)
                   BuildStructureMap.Lattice "Found by lattice analysis (4 cells)" [] in
  let apart := BuildStructureMap.mkTextCandidate (mkBBox 0 200 100 250) [] in
  let block := BuildStructureMap.mkPrimitive BuildStructureMap.PTextBlock
                 (mkBBox 0 300 50 310) in
  let rule := BuildStructureMap.mkPrimitive BuildStructureMap.PLine
                (mkBBox 0 150 100 150) in
  exists v, BuildStructureMap.calculate_iou (BuildStructureMap.p_bbox block)
                                            (BuildStructureMap.tbbox lattice) = Some v
            /\ v <= 8 # 10.
Proof.
  intros lattice apart block rule.
  refine (layout_text_blocks_outside_tables [block; rule] [lattice] [apart] _ _
            block lattice _ eq_refl _).
  - vm_compute. reflexivity.
  - vm_compute. auto 10.
  - vm_compute. auto 10.
Defined.

(** The elements of the page come out ordered by their top coordinate. *)
Theorem layout_elements_ordered_by_top
    (page_elements : list BuildStructureMap.Primitive)
    (geometric_tables : list BuildStructureMap.TableElement)
    (text_table_bboxes : list BuildStructureMap.TextCandidate)
    (els : list BuildStructureMap.Element) :
  BuildStructureMap.final_elements page_elements geometric_tables text_table_bboxes
  = Some els ->
  StronglySorted (fun a b => element_top a <= element_top b) els.
Proof.
  intros H. destruct (final_elements_parts _ _ _ _ H) as (ft & kept & _ & _ & ->).
  apply (sort_by_key_ordered element_top).
Qed.

Lemma layout_elements_ordered_by_top_witness :
  let lattice := BuildStructureMap.mkTableElement (mkBBox 0 0 100 100)
                   BuildStructureMap.Lattice "Found by lattice analysis (4 cells)" [] in
  let apart := BuildStructureMap.mkTextCandidate (mkBBox 0 200 100 250) [] in
  let block := BuildStructureMap.mkPrimitive BuildStructureMap.PTextBlock
                 (mkBBox 0 300 50 310) in
  let rule := BuildStructureMap.mkPrimitive BuildStructureMap.PLine
                (mkBBox 0 150 100 150) in
  exists els,
    BuildStructureMap.final_elements [block; rule] [lattice] [apart] = Some els
    /\ StronglySorted (fun a b => element_top a <= element_top b) els.
Proof.
  intros lattice apart block rule. eexists. split; [vm_compute; reflexivity|].
  apply (layout_elements_ordered_by_top [block; rule] [lattice] [apart]).
  vm_compute. reflexivity.
Defined.

(** Step 4 keeps every geometric table and every line, rectangle and image
    of the page, and it puts nothing into the result but page primitives,
    geometric tables and the tables of text-alignment candidates. *)
Theorem layout_keeps_geometry
    (page_elements : list BuildStructureMap.Primitive)
    (geometric_tables : list BuildStructureMap.TableElement)
    (text_table_bboxes : list BuildStructureMap.TextCandidate)
    (els : list BuildStructureMap.Element) :
  BuildStructureMap.final_elements page_elements geometric_tables text_table_bboxes
  = Some els ->
  (forall g, In g geometric_tables -> In (BuildStructureMap.Table g) els)
  /\ (forall p, In p page_elements ->
                BuildStructureMap.p_type p <> BuildStructureMap.PTextBlock ->
                In (BuildStructureMap.Prim p) els)
  /\ (forall p, In (BuildStructureMap.Prim p) els -> In p page_elements)
  /\ (forall t, In (BuildStructureMap.Table t) els ->
                In t geometric_tables
                \/ exists c, In c text_table_bboxes
                             /\ t = BuildStructureMap.text_only_table c).
Proof.
  intros H.
  destruct (final_elements_prims _ _ _ _ H) as (ft & kept & Hd & Hk & Hprim & Htab).
  unfold BuildStructureMap.dedup_tables in Hd.
  pose proof (keep_elements_spec _ _ _ Hk) as Hkeep.
  split; [|split; [|split]].
  - intros g Hg. apply Htab. destruct (add_text_tables_prefix _ _ _ _ Hd) as [rest ->].
    apply in_or_app. left. exact Hg.
  - intros p Hp Hty. apply Hprim. apply Hkeep. split; [exact Hp|]. intros E. contradiction.
  - intros p Hp. apply Hprim in Hp. apply Hkeep in Hp. tauto.
  - intros t Ht. apply Htab in Ht.
    destruct (add_text_tables_origin _ _ _ _ Hd t Ht) as [Hin|[c [Hc [-> _]]]];
      [left; exact Hin|right; exists c; auto].
Qed.

Lemma layout_keeps_geometry_witness :
  let lattice := BuildStructureMap.mkTableElement (mkBBox 0 0 100 100)
                   BuildStructureMap.Lattice "Found by lattice analysis (4 cells)" [] in
  let apart := BuildStructureMap.mkTextCandidate (mkBBox 0 200 100 250) [] in
  let block := BuildStructureMap.mkPrimitive BuildStructureMap.PTextBlock
                 (mkBBox 0 300 50 310) in
  let rule := BuildStructureMap.mkPrimitive BuildStructureMap.PLine
                (mkBBox 0 150 100 150) in
  exists els,
    BuildStructureMap.final_elements [block; rule] [lattice] [apart] = Some els
    /\ In (BuildStructureMap.Table lattice) els
    /\ In (BuildStructureMap.Prim rule) els.
Proof.
  intros lattice apart block rule. eexists. split; [vm_compute; reflexivity|].
  destruct (layout_keeps_geometry [block; rule] [lattice] [apart] _ eq_refl)
    as (Hgeo & Hprim & _).
  split.
  - apply Hgeo. left. reflexivity.
  - apply Hprim; [right; left; reflexivity|discriminate].
Defined.

(** A text-alignment candidate whose IoU with every geometric table is at
    most 0.10 becomes a text-only table of the page. *)
Theorem layout_keeps_clear_text_candidate
    (page_elements : list BuildStructureMap.Primitive)
    (geometric_tables : list BuildStructureMap.TableElement)
    (text_table_bboxes : list BuildStructureMap.TextCandidate)
    (els : list BuildStructureMap.Element) (c : BuildStructureMap.TextCandidate) :
  BuildStructureMap.final_elements page_elements geometric_tables text_table_bboxes
  = Some els ->
  In c text_table_bboxes ->
  (forall g, In g geometric_tables ->
     exists v, BuildStructureMap.calculate_iou (BuildStructureMap.cand_bbox c)
                                               (BuildStructureMap.tbbox g) = Some v
               /\ v <= 1 # 10) ->
  In (BuildStructureMap.Table (BuildStructureMap.text_only_table c)) els.
Proof.
  intros H Hc Hclear.
  destruct (final_elements_prims _ _ _ _ H) as (ft & kept & Hd & _ & _ & Htab).
  apply Htab. unfold BuildStructureMap.dedup_tables in Hd.
  apply (add_text_tables_kept _ _ _ _ c Hd Hc).
  apply any_iou_above_false. intros b Hb. apply in_map_iff in Hb.
  destruct Hb as [g [<- Hg]]. apply Hclear. exact Hg.
Qed.

Lemma layout_keeps_clear_text_candidate_witness :
  let lattice := BuildStructureMap.mkTableElement (mkBBox 0 0 100 100)
                   BuildStructureMap.Lattice "Found by lattice analysis (4 cells)" [] in
  let apart := BuildStructureMap.mkTextCandidate (mkBBox 0 200 100 250) [] in
  let block := BuildStructureMap.mkPrimitive BuildStructureMap.PTextBlock
                 (mkBBox 0 300 50 310) in
  let rule := BuildStructureMap.mkPrimitive BuildStructureMap.PLine
                (mkBBox 0 150 100 150) in
  exists els,
    BuildStructureMap.final_elements [block; rule] [lattice] [apart] = Some els
    /\ In (BuildStructureMap.Table (BuildStructureMap.text_only_table apart)) els.
Proof.
  intros lattice apart block rule. eexists. split; [vm_compute; reflexivity|].
  apply (layout_keeps_clear_text_candidate [block; rule] [lattice] [apart] _ apart).
  - vm_compute. reflexivity.
  - left. reflexivity.
  - intros g [<-|[]]. eexists. split; [vm_compute; reflexivity|]. vm_compute. discriminate.
Defined.

(** Step 4 returns whenever every geometric table and every text-alignment
    candidate has positive width and height: no division by zero occurs. *)
Theorem layout_step4_returns
    (page_elements : list BuildStructureMap.Primitive)
    (geometric_tables : list BuildStructureMap.TableElement)
    (text_table_bboxes : list BuildStructureMap.TextCandidate) :
  (forall g, In g geometric_tables -> positive_area (BuildStructureMap.tbbox g)) ->
  (forall c, In c text_table_bboxes -> positive_area (BuildStructureMap.cand_bbox c)) ->
  exists els,
    BuildStructureMap.final_elements page_elements geometric_tables text_table_bboxes
    = Some els.
Proof.
  intros Hgeo Htext. unfold BuildStructureMap.final_elements.
  assert (Hg : forall b, In b (map BuildStructureMap.tbbox geometric_tables) ->
                         positive_area b).
  { intros b Hb. apply in_map_iff in Hb. destruct Hb as [g [<- Hg]]. apply Hgeo, Hg. }
  destruct (BuildStructureMap.dedup_tables geometric_tables text_table_bboxes)
    as [ft|] eqn:Hd.
  2:{ exfalso. exact (add_text_tables_defined _ _ _ Hg Hd). }
  destruct (BuildStructureMap.keep_elements (map BuildStructureMap.tbbox ft) page_elements)
    as [kept|] eqn:Hk; [eexists; reflexivity|].
  exfalso. refine (keep_elements_defined _ _ _ Hk). intros b Hb.
  apply in_map_iff in Hb. destruct Hb as [t [<- Ht]].
  unfold BuildStructureMap.dedup_tables in Hd.
  destruct (add_text_tables_origin _ _ _ _ Hd t Ht) as [Hin|[c [Hc [-> _]]]].
  - apply Hgeo, Hin.
  - apply Htext, Hc.
Qed.

Lemma layout_step4_returns_witness :
  let lattice := BuildStructureMap.mkTableElement (mkBBox 0 0 100 100)
                   BuildStructureMap.Lattice "Found by lattice analysis (4 cells)" [] in
  let apart := BuildStructureMap.mkTextCandidate (mkBBox 0 200 100 250) [] in
  let block := BuildStructureMap.mkPrimitive BuildStructureMap.PTextBlock
                 (mkBBox 0 300 50 310) in
  let rule := BuildStructureMap.mkPrimitive BuildStructureMap.PLine
                (mkBBox 0 150 100 150) in
  exists els,
    BuildStructureMap.final_elements [block; rule] [lattice] [apart] = Some els.
Proof.
  intros lattice apart block rule.
  apply (layout_step4_returns [block; rule] [lattice] [apart]).
  - intros g [<-|[]]. split; vm_compute; reflexivity.
  - intros c [<-|[]]. split; vm_compute; reflexivity.
Defined.

(** ** Step 1 of the page analysis: lines of words and text blocks *)

Section TextBlockProperties.
Import TextBlocks.

Lemma cluster_fold (rest : list Word) (st : Clustering) :
  let st' := fold_left cluster_step rest st in
  List.concat (line_clusters st') ++ current_line st'
  = List.concat (line_clusters st) ++ current_line st ++ rest
  /\ (current_line st <> [] -> current_line st' <> [])
  /\ (Forall (fun c => c <> []) (line_clusters st) -> current_line st <> [] ->
      Forall (fun c => c <> []) (line_clusters st')).
Proof.
  revert st. induction rest as [|w rest IH]; intros st; cbn [fold_left].
  - rewrite app_nil_r. auto.
  - destruct (IH (cluster_step st w)) as (Hc & Hne & Hall). cbv zeta.
    unfold cluster_step in *.
    destruct (Py.ltb _ (tolerance st)); cbn [line_clusters current_line] in *.
    + split; [rewrite Hc, <- !app_assoc; reflexivity|]. split.
      * intros _. apply Hne. intros E. apply app_eq_nil in E. destruct E; discriminate.
      * intros Hf _. apply Hall; [exact Hf|].
        intros E. apply app_eq_nil in E. destruct E; discriminate.
    + split; [|split].
      * rewrite Hc, concat_app. cbn [List.concat]. rewrite app_nil_r, <- !app_assoc.
        reflexivity.
      * intros _. apply Hne. discriminate.
      * intros Hf Hcur. apply Hall; [|discriminate].
        apply Forall_app. split; [exact Hf|]. constructor; [exact Hcur|constructor].
Qed.

Lemma cluster_words_lines (words : list Word) :
  List.concat (cluster_words words) = PyList.sort_by top_x0_le words
  /\ Forall (fun c => c <> []) (cluster_words words).
Proof.
  unfold cluster_words. destruct (PyList.sort_by top_x0_le words) as [|w0 rest].
  - split; [reflexivity|constructor].
  - destruct (cluster_fold rest (mkClustering [] [w0] (line_height_tolerance w0)))
      as (Hc & Hne & Hall).
    cbv zeta in *. cbn [line_clusters current_line List.concat app] in *.
    split.
    + rewrite concat_app. cbn [List.concat]. rewrite app_nil_r. exact Hc.
    + apply Forall_app. split; [apply Hall; [constructor|discriminate]|].
      constructor; [apply Hne; discriminate|constructor].
Qed.

(** Clustering loses no word and makes no empty line: the lines, one after
    the other, are the page's words in [(top, x0)] order. *)
Theorem cluster_words_lossless (words : list Word) :
  List.concat (cluster_words words) = PyList.sort_by top_x0_le words
  /\ Forall (fun c => c <> []) (cluster_words words)
  /\ Permutation words (List.concat (cluster_words words)).
Proof.
  destruct (cluster_words_lines words) as [H1 H2].
  split; [exact H1|]. split; [exact H2|].
  rewrite H1. apply sort_by_perm.
Qed.

Lemma append_assoc (a b c : string) : ((a ++ b) ++ c = a ++ (b ++ c))%string.
Proof. induction a as [|ch a IH]; simpl; [reflexivity|]. rewrite IH. reflexivity. Qed.

Lemma append_empty_r (a : string) : (a ++ "" = a)%string.
Proof. induction a as [|ch a IH]; simpl; [reflexivity|]. rewrite IH. reflexivity. Qed.

Lemma chars_app (a b : list Word) : chars (a ++ b) = (chars a ++ chars b)%string.
Proof.
  unfold chars. induction a as [|w a IH]; simpl; [reflexivity|].
  rewrite IH, append_assoc. reflexivity.
Qed.

Lemma merge_fold_chars (rest : list Word) (mw : list Word) (cm : Word) :
  let '(mw', cm') := fold_left merge_step rest (mw, cm) in
  chars (mw' ++ [cm']) = (chars (mw ++ [cm]) ++ chars rest)%string.
Proof.
  revert mw cm. induction rest as [|w rest IH]; intros mw cm; cbn [fold_left].
  - unfold chars at 3. simpl. rewrite append_empty_r. reflexivity.
  - unfold merge_step at 2. destruct (joins cm w).
    + specialize (IH mw (absorb cm w)).
      destruct (fold_left merge_step rest (mw, absorb cm w)) as [mw' cm'].
      rewrite IH, !chars_app. change (w :: rest) with ([w] ++ rest).
      rewrite chars_app, <- !append_assoc. f_equal.
      unfold chars, absorb. simpl. rewrite !append_empty_r, append_assoc. reflexivity.
    + specialize (IH (mw ++ [cm]) w).
      destruct (fold_left merge_step rest (mw ++ [cm], w)) as [mw' cm'].
      rewrite IH. change (w :: rest) with ([w] ++ rest).
      rewrite !chars_app, !append_assoc. reflexivity.
Qed.

(** Merging the words of a line joins neighbours without losing or adding a
    character: the merged texts, one after the other, are the texts of the
    line's words in [x0] order. *)
Theorem merge_words_keeps_characters (word_cluster : list Word) :
  chars (merge_words word_cluster) = chars (PyList.sort_by by_x0 word_cluster).
Proof.
  unfold merge_words. destruct (PyList.sort_by by_x0 word_cluster) as [|w0 rest];
    [reflexivity|].
  pose proof (merge_fold_chars rest [] w0) as H.
  destruct (fold_left merge_step rest ([], w0)) as [mw' cm'].
  cbn [app] in H. rewrite H. symmetry. exact (chars_app [w0] rest).
Qed.

Lemma spans_refl (w : Word) : spans w w.
Proof. unfold spans. repeat split; lra. Qed.

Lemma spans_trans (a b c : Word) : spans a b -> spans b c -> spans a c.
Proof. unfold spans. intros (?&?&?) (?&?&?). repeat split; lra. Qed.

Lemma absorb_spans (cm w : Word) :
  w_x0 cm <= w_x0 w -> spans (absorb cm w) cm /\ spans (absorb cm w) w.
Proof.
  intros H. unfold spans, absorb. simpl.
  pose proof (max2_ub_l (w_x1 cm) (w_x1 w)). pose proof (max2_ub_r (w_x1 cm) (w_x1 w)).
  pose proof (max2_ub_l (w_bottom cm) (w_bottom w)).
  pose proof (max2_ub_r (w_bottom cm) (w_bottom w)).
  repeat split; lra.
Qed.

Lemma merge_fold_spans (rest : list Word) (mw : list Word) (cm : Word) :
  StronglySorted (fun a b => w_x0 a <= w_x0 b) rest ->
  (forall w, In w rest -> w_x0 cm <= w_x0 w) ->
  let '(mw', cm') := fold_left merge_step rest (mw, cm) in
  (forall m, In m (mw ++ [cm]) -> exists m', In m' (mw' ++ [cm']) /\ spans m' m)
  /\ (forall w, In w rest -> exists m', In m' (mw' ++ [cm']) /\ spans m' w)
  /\ (List.length (mw' ++ [cm']) <= List.length (mw ++ [cm]) + List.length rest)%nat.
Proof.
  revert mw cm. induction rest as [|w rest IH]; intros mw cm Hs Hle; cbn [fold_left].
  - split; [|split].
    + intros m Hm. exists m. split; [exact Hm|apply spans_refl].
    + intros w [].
    + simpl. lia.
  - inversion Hs as [|? ? Hs' Hw]; subst. rewrite Forall_forall in Hw.
    unfold merge_step at 2. destruct (joins cm w).
    + assert (Hle' : forall w', In w' rest -> w_x0 (absorb cm w) <= w_x0 w')
        by (intros w' Hin; simpl; apply Hle; right; exact Hin).
      specialize (IH mw (absorb cm w) Hs' Hle').
      destruct (fold_left merge_step rest (mw, absorb cm w)) as [mw' cm'].
      destruct IH as (Hm & Hr & Hlen).
      destruct (absorb_spans cm w (Hle w (or_introl eq_refl))) as [Hc1 Hc2].
      assert (Habs : exists m', In m' (mw' ++ [cm']) /\ spans m' (absorb cm w))
        by (apply Hm; apply in_or_app; right; left; reflexivity).
      destruct Habs as (m' & Hin' & Hsp').
      split; [|split].
      * intros m Hin. apply in_app_or in Hin. destruct Hin as [Hin|[<-|[]]].
        -- apply Hm. apply in_or_app. left. exact Hin.
        -- exists m'. split; [exact Hin'|exact (spans_trans _ _ _ Hsp' Hc1)].
      * intros w' [<-|Hin]; [|apply Hr; exact Hin].
        exists m'. split; [exact Hin'|exact (spans_trans _ _ _ Hsp' Hc2)].
      * rewrite !length_app in *. simpl in *. lia.
    + specialize (IH (mw ++ [cm]) w Hs' Hw).
      destruct (fold_left merge_step rest (mw ++ [cm], w)) as [mw' cm'].
      destruct IH as (Hm & Hr & Hlen).
      split; [|split].
      * intros m Hin. apply Hm. apply in_or_app. left. exact Hin.
      * intros w' [<-|Hin]; [|apply Hr; exact Hin].
        apply Hm. apply in_or_app. right. left. reflexivity.
      * rewrite !length_app in *. simpl in *. lia.
Qed.

Lemma merge_words_spans (word_cluster : list Word) :
  (forall w, In w word_cluster ->
     exists m, In m (merge_words word_cluster) /\ spans m w)
  /\ (List.length (merge_words word_cluster) <= List.length word_cluster)%nat
  /\ (word_cluster <> [] -> merge_words word_cluster <> []).
Proof.
  unfold merge_words.
  pose proof (sort_by_key_ordered w_x0 word_cluster) as Hs.
  pose proof (sort_by_In by_x0 word_cluster) as Hin.
  pose proof (sort_by_length by_x0 word_cluster) as Hlen.
  change (fun a b : Word => Py.leb (w_x0 a) (w_x0 b)) with by_x0 in Hs.
  destruct (PyList.sort_by by_x0 word_cluster) as [|w0 rest].
  - split; [|split].
    + intros w Hw. apply Hin in Hw. destruct Hw.
    + simpl. lia.
    + intros Hne. destruct word_cluster; [contradiction|discriminate].
  - inversion Hs as [|? ? Hs' Hw0]; subst. rewrite Forall_forall in Hw0.
    pose proof (merge_fold_spans rest [] w0 Hs' Hw0) as H.
    destruct (fold_left merge_step rest ([], w0)) as [mw' cm'].
    destruct H as (Hm & Hr & Hl). split; [|split].
    + intros w Hw. apply Hin in Hw. destruct Hw as [<-|Hw].
      * apply Hm. left. reflexivity.
      * apply Hr. exact Hw.
    + rewrite <- Hlen. simpl in *. lia.
    + intros _ E. apply app_eq_nil in E. destruct E; discriminate.
Qed.

(** The box of a text block reaches from the leftmost to the rightmost edge
    of the line's words and down to their lowest bottom. *)
Theorem text_block_spans_words (word_cluster : list Word) (tb : TextBlock) (w : Word) :
  text_block_of word_cluster = Some tb ->
  In w word_cluster ->
  bx0 (tb_bbox tb) <= w_x0 w
  /\ w_x1 w <= bx1 (tb_bbox tb)
  /\ w_bottom w <= bbottom (tb_bbox tb).
Proof.
  unfold text_block_of. intros H Hw.
  destruct (merge_words_spans word_cluster) as (Hsp & _ & _).
  destruct (Hsp w Hw) as (m & Hm & Hx0 & Hx1 & Hb).
  destruct (Py.min_of (map w_x0 (merge_words word_cluster))) as [a|] eqn:Ea;
    [|discriminate].
  destruct (Py.min_of (map w_top (merge_words word_cluster))) as [b|] eqn:Eb;
    [|discriminate].
  destruct (Py.max_of (map w_x1 (merge_words word_cluster))) as [c|] eqn:Ec;
    [|discriminate].
  destruct (Py.max_of (map w_bottom (merge_words word_cluster))) as [d|] eqn:Ed;
    [|discriminate].
  injection H as <-. simpl.
  apply min_of_spec in Ea. apply max_of_spec in Ec. apply max_of_spec in Ed.
  destruct Ea as [_ Ea]. destruct Ec as [_ Ec]. destruct Ed as [_ Ed].
  specialize (Ea _ (in_map w_x0 _ _ Hm)). specialize (Ec _ (in_map w_x1 _ _ Hm)).
  specialize (Ed _ (in_map w_bottom _ _ Hm)).
  repeat split; lra.
Qed.

Lemma text_block_spans_words_witness :
  let a := mkWord "Total" 10 40 100 110 in
  let b := mkWord "42" 60 70 98 112 in
  exists tb,
    TextBlocks.text_block_of [b; a] = Some tb
    /\ bx0 (tb_bbox tb) <= w_x0 b
    /\ w_x1 b <= bx1 (tb_bbox tb)
    /\ w_bottom b <= bbottom (tb_bbox tb).
Proof.
  intros a b. eexists. split; [vm_compute; reflexivity|].
  apply (text_block_spans_words [b; a]); [vm_compute; reflexivity|left; reflexivity].
Defined.

Lemma text_block_of_some (word_cluster : list Word) :
  word_cluster <> [] -> exists tb, text_block_of word_cluster = Some tb.
Proof.
  intros Hne. unfold text_block_of.
  destruct (merge_words_spans word_cluster) as (_ & _ & Hm). specialize (Hm Hne).
  destruct (merge_words word_cluster) as [|m ms]; [contradiction|].
  simpl. eexists. reflexivity.
Qed.

(** Every line of words yields one text block: no line is skipped and the
    smallest and largest coordinates are always defined. *)
Theorem text_blocks_one_per_line (words : list Word) :
  List.length (text_blocks words) = List.length (cluster_words words).
Proof.
  unfold text_blocks.
  destruct (cluster_words_lines words) as [_ Hne].
  induction (cluster_words words) as [|c cs IH]; [reflexivity|].
  inversion Hne as [|? ? Hc Hcs]; subst. cbn [flat_map].
  destruct (text_block_of_some c Hc) as [tb ->]. simpl. rewrite (IH Hcs). reflexivity.
Qed.

End TextBlockProperties.

(** ** Lines and rectangles: the two places that tag them *)

Lemma ltb_compat (a a' b b' : Q) : a == a' -> b == b' -> Py.ltb a b = Py.ltb a' b'.
Proof.
  intros Ha Hb. destruct (Py.ltb a b) eqn:E1; destruct (Py.ltb a' b') eqn:E2;
    try reflexivity; qcases; exfalso; lra.
Qed.

Lemma leb_compat (a a' b b' : Q) : a == a' -> b == b' -> Py.leb a b = Py.leb a' b'.
Proof.
  intros Ha Hb. destruct (Py.leb a b) eqn:E1; destruct (Py.leb a' b') eqn:E2;
    try reflexivity; qcases; exfalso; lra.
Qed.

Lemma eqb_compat (a a' b b' : Q) : a == a' -> b == b' -> Py.eqb a b = Py.eqb a' b'.
Proof.
  intros Ha Hb. destruct (Py.eqb a b) eqn:E1; destruct (Py.eqb a' b') eqn:E2;
    try reflexivity; qcases; exfalso; [apply E2|apply E1]; lra.
Qed.

Lemma eqb_sym (a b : Q) : Py.eqb a b = Py.eqb b a.
Proof.
  destruct (Py.eqb a b) eqn:E1; destruct (Py.eqb b a) eqn:E2;
    try reflexivity; qcases; exfalso; [apply E2|apply E1]; lra.
Qed.

(** The page analysis and the geometric finder give a line the same tag:
    for a line record that is untagged or tagged 'line', whose width and
    height keys (when present) are the differences of its coordinates,
    [line_element] and the finder's loop over the lines agree. *)
Theorem line_tags_agree (l : GeometricTableFinder.RawGeom) (r : Primitives.RawRecord) :
  Primitives.r_x0 r = Some (GeometricTableFinder.x0 l) ->
  Primitives.r_top r = Some (GeometricTableFinder.top l) ->
  Primitives.r_x1 r = Some (GeometricTableFinder.x1 l) ->
  Primitives.r_bottom r = GeometricTableFinder.bottom l ->
  (forall w, Primitives.r_width r = Some w ->
             w == GeometricTableFinder.x1 l - GeometricTableFinder.x0 l) ->
  (forall h, Primitives.r_height r = Some h ->
             h == Primitives.bottom_of r - GeometricTableFinder.top l) ->
  (GeometricTableFinder.geom_type l = None
   \/ GeometricTableFinder.geom_type l = Some BuildStructureMap.GLine) ->
  GeometricTableFinder.geom_type (GeometricTableFinder.classify_line l)
  = Some (Primitives.e_geom_type (Primitives.line_element r)).
Proof.
  intros Hx0 Htop Hx1 Hbot Hw Hh Hg.
  assert (Ew : Primitives.width_of r
               == GeometricTableFinder.x1 l - GeometricTableFinder.x0 l).
  { unfold Primitives.width_of. destruct (Primitives.r_width r) as [w|];
      [apply Hw; reflexivity|]. rewrite Hx0, Hx1. reflexivity. }
  assert (Eb : Primitives.bottom_of r
               = match GeometricTableFinder.bottom l with
                 | Some b => b
                 | None => GeometricTableFinder.top l
                 end).
  { unfold Primitives.bottom_of. rewrite Hbot, Htop. reflexivity. }
  assert (Eh : Primitives.height_of r
               == Primitives.bottom_of r - GeometricTableFinder.top l).
  { unfold Primitives.height_of. destruct (Primitives.r_height r) as [h|];
      [apply Hh; reflexivity|]. rewrite Eb, Htop, Hbot.
    destruct (GeometricTableFinder.bottom l); [reflexivity|]. ring. }
  unfold GeometricTableFinder.classify_line, Primitives.line_element, Primitives.bbox_of.
  cbn [bx0 bx1 btop bbottom Primitives.e_geom_type].
  rewrite (ltb_compat _ _ _ _ Eh Ew), Eb, Hx0, Htop, Hx1.
  cbn [Primitives.get_or_0].
  destruct Hg as [-> | ->];
    repeat match goal with |- context [if ?c then _ else _] => destruct c end;
    reflexivity.
Qed.

Lemma line_tags_agree_witness :
  let l := GeometricTableFinder.mkRawGeom 10 20 110 None 100 0 None in
  let r := Primitives.mkRawRecord (Some 10) (Some 20) (Some 110) None None None in
  GeometricTableFinder.geom_type (GeometricTableFinder.classify_line l)
  = Some (Primitives.e_geom_type (Primitives.line_element r)).
Proof.
  intros l r. apply (line_tags_agree l r); try reflexivity.
  - intros w H. discriminate.
  - intros h H. discriminate.
  - left. reflexivity.
Defined.

(** The page analysis and the geometric finder give a rectangle the same
    tag: both read the record's width and height. *)
Theorem rect_tags_agree (g : GeometricTableFinder.RawGeom) (r : Primitives.RawRecord) :
  Primitives.r_width r = Some (GeometricTableFinder.width g) ->
  Primitives.r_height r = Some (GeometricTableFinder.height g) ->
  GeometricTableFinder.geom_type (GeometricTableFinder.classify_rect g)
  = Some (Primitives.e_geom_type (Primitives.rect_element r)).
Proof.
  intros Hw Hh.
  unfold GeometricTableFinder.classify_rect, Primitives.rect_element,
    Primitives.width_of, Primitives.height_of.
  rewrite Hw, Hh. cbn [Primitives.e_geom_type].
  repeat match goal with |- context [if ?c then _ else _] => destruct c end;
    reflexivity.
Qed.

Lemma rect_tags_agree_witness :
  let g := GeometricTableFinder.mkRawGeom 10 20 110 (Some (41 # 2)) 100 (1 # 2) None in
  let r := Primitives.mkRawRecord (Some 10) (Some 20) (Some 110) (Some (41 # 2))
             (Some 100) (Some (1 # 2)) in
  GeometricTableFinder.geom_type (GeometricTableFinder.classify_rect g)
  = Some (Primitives.e_geom_type (Primitives.rect_element r)).
Proof.
  intros g r. apply (rect_tags_agree g r); reflexivity.
Defined.

Lemma classify_line_idempotent (l : GeometricTableFinder.RawGeom) :
  GeometricTableFinder.classify_line (GeometricTableFinder.classify_line l)
  = GeometricTableFinder.classify_line l.
Proof.
  assert (H : GeometricTableFinder.classify_line l = l
              \/ exists t, (t = BuildStructureMap.LineVertical
                            \/ t = BuildStructureMap.LineHorizontal)
                           /\ GeometricTableFinder.classify_line l
                              = GeometricTableFinder.set_geom_type l t).
  { unfold GeometricTableFinder.classify_line.
    destruct (GeometricTableFinder.geom_type l) as [[| | | |]|]; auto;
      repeat match goal with |- context [if ?c then _ else _] => destruct c end;
      right; eauto. }
  destruct H as [H|(t & Ht & H)]; rewrite H; [exact H|].
  destruct Ht as [-> | ->]; reflexivity.
Qed.

Lemma classify_rect_idempotent (r : GeometricTableFinder.RawGeom) :
  GeometricTableFinder.classify_rect (GeometricTableFinder.classify_rect r)
  = GeometricTableFinder.classify_rect r.
Proof.
  unfold GeometricTableFinder.classify_rect.
  destruct (Py.ltb 5 (GeometricTableFinder.width r)
            && Py.leb (GeometricTableFinder.height r) 1) eqn:E1.
  - cbn [GeometricTableFinder.set_geom_type GeometricTableFinder.width
         GeometricTableFinder.height].
    rewrite E1. reflexivity.
  - destruct (Py.ltb 5 (GeometricTableFinder.height r)
              && Py.leb (GeometricTableFinder.width r) 1) eqn:E2;
      cbn [GeometricTableFinder.set_geom_type GeometricTableFinder.width
           GeometricTableFinder.height];
      rewrite E1, E2; reflexivity.
Qed.

(** Tagging the page's lines and rectangles a second time changes nothing:
    the records and [all_geoms] come out as after the first pass. *)
Theorem collect_geoms_idempotent (page : GeometricTableFinder.PageRecords) :
  GeometricTableFinder.collect_geoms (fst (GeometricTableFinder.collect_geoms page))
  = GeometricTableFinder.collect_geoms page.
Proof.
  unfold GeometricTableFinder.collect_geoms. cbn [fst GeometricTableFinder.lines
    GeometricTableFinder.rects].
  rewrite !map_map.
  rewrite (map_ext _ _ classify_line_idempotent), (map_ext _ _ classify_rect_idempotent).
  reflexivity.
Qed.

(** ** Merging the expanded candidates *)

Section CandidateMergeProperties.
Import CandidateMerge.

Lemma inside_refl (a : BBox) : inside a a.
Proof. unfold inside. repeat split; lra. Qed.

Lemma inside_trans (a b c : BBox) : inside a b -> inside b c -> inside a c.
Proof. unfold inside. intros (?&?&?&?) (?&?&?&?). repeat split; lra. Qed.

Lemma union_inside (a b : BBox) : inside a (union a b) /\ inside b (union a b).
Proof.
  unfold inside, union. simpl.
  pose proof (min2_lb_l (bx0 a) (bx0 b)). pose proof (min2_lb_r (bx0 a) (bx0 b)).
  pose proof (min2_lb_l (btop a) (btop b)). pose proof (min2_lb_r (btop a) (btop b)).
  pose proof (max2_ub_l (bx1 a) (bx1 b)). pose proof (max2_ub_r (bx1 a) (bx1 b)).
  pose proof (max2_ub_l (bbottom a) (bbottom b)).
  pose proof (max2_ub_r (bbottom a) (bbottom b)).
  repeat split; lra.
Qed.

Lemma absorbed_refl (c : Candidate) : absorbed_by c c.
Proof. split; [apply inside_refl|auto]. Qed.

Lemma absorbed_trans (a b c : Candidate) :
  absorbed_by a b -> absorbed_by b c -> absorbed_by a c.
Proof.
  intros [H1 H2] [H3 H4]. split; [exact (inside_trans _ _ _ H1 H3)|auto].
Qed.

Lemma sweep_fold (rest : list Candidate) (mc : list Candidate) (cur : Candidate) :
  let '(mc', cur') := fold_left sweep_step rest (mc, cur) in
  (forall c, In c (mc ++ [cur] ++ rest) ->
     exists m, In m (mc' ++ [cur']) /\ absorbed_by c m)
  /\ (List.length (mc' ++ [cur']) <= List.length (mc ++ [cur]) + List.length rest)%nat.
Proof.
  revert mc cur. induction rest as [|n rest IH]; intros mc cur; cbn [fold_left].
  - split; [|simpl; lia]. intros c Hc. rewrite app_nil_r in Hc.
    exists c. split; [exact Hc|apply absorbed_refl].
  - unfold sweep_step at 2.
    destruct (overlap (c_bbox cur) (c_bbox n)).
    + set (cur2 := {| c_bbox := union (c_bbox cur) (c_bbox n);
                      c_strategy := match c_strategy n with
                                    | BuildStructureMap.Lattice => BuildStructureMap.Lattice
                                    | _ => c_strategy cur
                                    end |}).
      specialize (IH mc cur2).
      destruct (fold_left sweep_step rest (mc, cur2)) as [mc' cur'].
      destruct IH as [Hcov Hlen].
      destruct (union_inside (c_bbox cur) (c_bbox n)) as [Hu1 Hu2].
      assert (H2 : exists m, In m (mc' ++ [cur']) /\ absorbed_by cur2 m)
        by (apply Hcov; apply in_or_app; right; left; reflexivity).
      destruct H2 as (m2 & Hin2 & Hab2).
      assert (Hcur : absorbed_by cur cur2).
      { split; [exact Hu1|]. simpl. intros ->. destruct (c_strategy n); reflexivity. }
      assert (Hn : absorbed_by n cur2).
      { split; [exact Hu2|]. simpl. intros ->. reflexivity. }
      split.
      * intros c Hc. apply in_app_or in Hc. destruct Hc as [Hc|[<-|[<-|Hc]]].
        -- apply Hcov. apply in_or_app. left. exact Hc.
        -- exists m2. split; [exact Hin2|exact (absorbed_trans _ _ _ Hcur Hab2)].
        -- exists m2. split; [exact Hin2|exact (absorbed_trans _ _ _ Hn Hab2)].
        -- apply Hcov. apply in_or_app. right. right. exact Hc.
      * rewrite !length_app in *. simpl in *. lia.
    + specialize (IH (mc ++ [cur]) n).
      destruct (fold_left sweep_step rest (mc ++ [cur], n)) as [mc' cur'].
      destruct IH as [Hcov Hlen]. split.
      * intros c Hc. apply Hcov. rewrite <- app_assoc. exact Hc.
      * rewrite !length_app in *. simpl in *. lia.
Qed.

End CandidateMergeProperties.

(** The merge of the expanded candidates loses no area and no lattice
    verdict: every candidate lies within a merged candidate, which is a
    lattice candidate if the candidate was one; and the merge never makes
    more candidates than it was given. *)
Theorem merge_candidates_covers (expanded_candidates : list CandidateMerge.Candidate) :
  (forall c, In c expanded_candidates ->
     exists m, In m (CandidateMerge.merge_candidates expanded_candidates)
               /\ absorbed_by c m)
  /\ (List.length (CandidateMerge.merge_candidates expanded_candidates)
      <= List.length expanded_candidates)%nat.
Proof.
  unfold CandidateMerge.merge_candidates.
  pose proof (sort_by_In CandidateMerge.top_x0_le expanded_candidates) as Hin.
  pose proof (sort_by_length CandidateMerge.top_x0_le expanded_candidates) as Hlen.
  destruct (PyList.sort_by CandidateMerge.top_x0_le expanded_candidates) as [|c0 rest].
  - split; [|simpl; lia]. intros c Hc. apply Hin in Hc. destruct Hc.
  - pose proof (sweep_fold rest [] c0) as H.
    destruct (fold_left CandidateMerge.sweep_step rest ([], c0)) as [mc' cur'].
    destruct H as [Hcov Hl]. split.
    + intros c Hc. apply Hcov. apply Hin in Hc. exact Hc.
    + rewrite <- Hlen. simpl in *. lia.
Qed.

Lemma merge_candidates_covers_witness :
  let upper := CandidateMerge.mkCandidate (mkBBox 0 0 100 50) BuildStructureMap.Stream in
  let lower := CandidateMerge.mkCandidate (mkBBox 0 40 120 90) BuildStructureMap.Lattice in
  exists m, In m (CandidateMerge.merge_candidates [lower; upper]) /\ absorbed_by upper m.
Proof.
  intros upper lower.
  exact (proj1 (merge_candidates_covers [lower; upper]) upper (or_intror (or_introl eq_refl))).
Defined.

(** ** Intersections and closed cells *)

Section Intersections.
Import LatticeTableDetector.

Lemma ForallOrdPairs_snoc {A : Type} (R : A -> A -> Prop) (u : list A) (p : A) :
  ForallOrdPairs R u -> (forall a, In a u -> R a p) -> ForallOrdPairs R (u ++ [p]).
Proof.
  induction 1 as [|a u Ha Hu IH]; intros Hp; simpl.
  - constructor; constructor.
  - constructor.
    + apply Forall_app. split; [exact Ha|]. constructor; [|constructor].
      apply Hp. left. reflexivity.
    + apply IH. intros b Hb. apply Hp. right. exact Hb.
Qed.

Lemma unique_fold {A : Type} (eqb : A -> A -> bool) (l u : list A) :
  let r := fold_left (fun u p => if existsb (eqb p) u then u else u ++ [p]) l u in
  (forall x, In x r -> In x u \/ In x l)
  /\ (forall x, In x u -> In x r)
  /\ ((forall a, eqb a a = true) ->
      forall x, In x l -> exists y, In y r /\ eqb x y = true)
  /\ (ForallOrdPairs (fun a b => eqb b a = false) u ->
      ForallOrdPairs (fun a b => eqb b a = false) r).
Proof.
  revert u. induction l as [|p l IH]; intros u; cbn [fold_left].
  - cbv zeta. split; [auto|]. split; [auto|]. split; [intros _ x []|auto].
  - destruct (existsb (eqb p) u) eqn:E.
    + destruct (IH u) as (H1 & H2 & H3 & H4). cbv zeta in *.
      split; [|split; [|split]].
      * intros x Hx. destruct (H1 x Hx); [left|right; right]; assumption.
      * exact H2.
      * intros Hr x [<-|Hx]; [|exact (H3 Hr x Hx)].
        apply existsb_exists in E. destruct E as [y [Hy Hxy]].
        exists y. split; [apply H2; exact Hy|exact Hxy].
      * exact H4.
    + destruct (IH (u ++ [p])) as (H1 & H2 & H3 & H4). cbv zeta in *.
      split; [|split; [|split]].
      * intros x Hx. destruct (H1 x Hx) as [Hu|Hl]; [|right; right; exact Hl].
        apply in_app_or in Hu. destruct Hu as [Hu|[<-|[]]];
          [left; exact Hu|right; left; reflexivity].
      * intros x Hx. apply H2. apply in_or_app. left. exact Hx.
      * intros Hr x [<-|Hx]; [|exact (H3 Hr x Hx)].
        exists p. split; [|apply Hr]. apply H2. apply in_or_app. right. left. reflexivity.
      * intros Hu. apply H4. apply ForallOrdPairs_snoc; [exact Hu|].
        intros a Ha. destruct (eqb p a) eqn:Epa; [|reflexivity].
        assert (Hex : existsb (eqb p) u = true)
          by (apply existsb_exists; exists a; auto).
        congruence.
Qed.

Lemma unique_by_spec {A : Type} (eqb : A -> A -> bool) (l : list A) :
  (forall x, In x (unique_by eqb l) -> In x l)
  /\ ((forall a, eqb a a = true) ->
      forall x, In x l -> exists y, In y (unique_by eqb l) /\ eqb x y = true)
  /\ ForallOrdPairs (fun a b => eqb b a = false) (unique_by eqb l).
Proof.
  unfold unique_by. destruct (unique_fold eqb l []) as (H1 & _ & H3 & H4).
  cbv zeta in *. split; [|split].
  - intros x Hx. destruct (H1 x Hx) as [[]|Hl]. exact Hl.
  - exact H3.
  - apply H4. constructor.
Qed.

Lemma point_eqb_same (p q : Point) : point_eqb p q = true <-> same_point p q.
Proof.
  unfold point_eqb, same_point. rewrite andb_true_iff, !eqb_eq. reflexivity.
Qed.

Lemma point_eqb_refl (p : Point) : point_eqb p p = true.
Proof. apply point_eqb_same. split; reflexivity. Qed.

Lemma ForallOrdPairs_impl {A : Type} (R S : A -> A -> Prop) (l : list A) :
  (forall a b, R a b -> S a b) -> ForallOrdPairs R l -> ForallOrdPairs S l.
Proof.
  intros HRS. induction 1 as [|a l Ha Hl IH]; constructor; [|exact IH].
  eapply Forall_impl; [|exact Ha]. intros b. apply HRS.
Qed.

Lemma crossing_points (h_lines v_lines : list Line) (p : Point) :
  In p (flat_map
          (fun h_line =>
             flat_map
               (fun v_line =>
                  if Py.leb (x0 h_line) (x0 v_line) && Py.leb (x0 v_line) (x1 h_line)
                     && Py.leb (top v_line) (top h_line)
                     && Py.leb (top h_line) (bottom_or_top v_line)
                  then [(x0 v_line, top h_line)] else [])
               v_lines)
          h_lines)
  <-> exists h v, In h h_lines /\ In v v_lines /\ crosses h v /\ p = (x0 v, top h).
Proof.
  rewrite in_flat_map. split.
  - intros (h & Hh & Hp). apply in_flat_map in Hp. destruct Hp as (v & Hv & Hp).
    destruct (Py.leb (x0 h) (x0 v) && Py.leb (x0 v) (x1 h)
              && Py.leb (top v) (top h) && Py.leb (top h) (bottom_or_top v)) eqn:E;
      [|destruct Hp].
    destruct Hp as [<-|[]].
    apply andb_true_iff in E. destruct E as [E E4].
    apply andb_true_iff in E. destruct E as [E E3].
    apply andb_true_iff in E. destruct E as [E1 E2]. qcases.
    exists h, v. unfold crosses. repeat split; assumption.
  - intros (h & v & Hh & Hv & (C1 & C2 & C3 & C4) & ->).
    exists h. split; [exact Hh|]. apply in_flat_map. exists v. split; [exact Hv|].
    apply leb_le in C1, C2, C3, C4. rewrite C1, C2, C3, C4. left. reflexivity.
Qed.

End Intersections.

(** The intersections are exactly the crossings of a horizontal with a
    vertical ruling: every returned point is [(x0 of v, top of h)] for two
    rulings that meet, every such crossing is returned (up to equal
    coordinates), and no two returned points have equal coordinates. *)
Theorem find_line_intersections_spec (h_lines v_lines : list LatticeTableDetector.Line) :
  let points := LatticeTableDetector.find_line_intersections h_lines v_lines in
  (forall p, In p points ->
     exists h v, In h h_lines /\ In v v_lines /\ crosses h v
                 /\ p = (LatticeTableDetector.x0 v, LatticeTableDetector.top h))
  /\ (forall h v, In h h_lines -> In v v_lines -> crosses h v ->
        exists p, In p points
                  /\ same_point (LatticeTableDetector.x0 v, LatticeTableDetector.top h) p)
  /\ ForallOrdPairs (fun p q => ~ same_point q p) points.
Proof.
  cbv zeta. unfold LatticeTableDetector.find_line_intersections.
  match goal with
  | |- context [LatticeTableDetector.unique_by _ ?l] => set (all := l)
  end.
  destruct (unique_by_spec LatticeTableDetector.point_eqb all) as (H1 & H2 & H3).
  split; [|split].
  - intros p Hp. apply H1 in Hp. apply crossing_points in Hp. exact Hp.
  - intros h v Hh Hv Hc.
    destruct (H2 point_eqb_refl (LatticeTableDetector.x0 v, LatticeTableDetector.top h))
      as (y & Hy & Hxy).
    + apply crossing_points. exists h, v. auto.
    + exists y. split; [exact Hy|]. apply point_eqb_same. exact Hxy.
  - eapply ForallOrdPairs_impl; [|exact H3].
    intros a b Hab Hsame. apply point_eqb_same in Hsame. congruence.
Qed.

Lemma find_line_intersections_spec_witness :
  let h := LatticeTableDetector.mkLine 0 10 20 (Some 10) in
  let v := LatticeTableDetector.mkLine 5 0 5 (Some 20) in
  exists p, In p (LatticeTableDetector.find_line_intersections [h] [v])
            /\ same_point (LatticeTableDetector.x0 v, LatticeTableDetector.top h) p.
Proof.
  intros h v.
  pose proof (find_line_intersections_spec [h] [v]) as H. cbv zeta in H.
  destruct H as (_ & H & _).
  apply (H h v); [left; reflexivity|left; reflexivity|].
  unfold crosses. repeat split; vm_compute; discriminate.
Defined.

Section CellGrid.
Import LatticeTableDetector.

Lemma adjacent_In (l : list Q) (p : Q * Q) :
  In p (adjacent l) -> In (fst p) l /\ In (snd p) l.
Proof.
  unfold adjacent. intros H. destruct p as [a b]. split.
  - exact (in_combine_l _ _ _ _ H).
  - apply in_combine_r in H. destruct l; [destruct H|right; exact H].
Qed.

Lemma adjacent_apart (l : list Q) (p q : Q * Q) :
  StronglySorted Qle l -> In p (adjacent l) -> In q (adjacent l) ->
  p = q \/ snd p <= fst q \/ snd q <= fst p.
Proof.
  unfold adjacent. induction 1 as [|a l Hs IH Ha]; intros Hp Hq; [destruct Hp|].
  destruct l as [|b l]; [destruct Hp|].
  cbn [tl combine] in Hp, Hq. cbn [tl] in IH.
  inversion Hs as [|? ? Hs' Hb]; subst. rewrite Forall_forall in Ha, Hb.
  assert (Hlater : forall r, In r (combine (b :: l) l) -> b <= fst r).
  { intros [c d] Hr. apply in_combine_l in Hr. destruct Hr as [<-|Hr]; simpl; [lra|].
    apply Hb. exact Hr. }
  destruct Hp as [<-|Hp]; destruct Hq as [<-|Hq].
  - left. reflexivity.
  - right. left. simpl. apply Hlater. exact Hq.
  - right. right. simpl. apply Hlater. exact Hp.
  - apply IH; assumption.
Qed.

Lemma sort_leb_ordered (l : list Q) : StronglySorted Qle (PyList.sort_by Py.leb l).
Proof. exact (sort_by_key_ordered (fun x : Q => x) l). Qed.

Lemma find_closed_cells_grid (h_lines v_lines : list Line) (intersections : list Point)
    (c : ClosedCell) :
  In c (find_closed_cells h_lines v_lines intersections) ->
  In (fst (fst c), fst (snd c))
     (adjacent (PyList.sort_by Py.leb (unique_by Py.eqb (map fst intersections))))
  /\ In (snd (fst c), snd (snd c))
        (adjacent (PyList.sort_by Py.leb (unique_by Py.eqb (map snd intersections)))).
Proof.
  unfold find_closed_cells. intros H.
  apply in_flat_map in H. destruct H as [[x1_ x2_] [Hx H]].
  apply in_flat_map in H. destruct H as [[y1_ y2_] [Hy H]].
  destruct (Py.ltb (x2_ - x1_) 1 || Py.ltb (y2_ - y1_) 1); [destruct H|].
  destruct (3 <=? edges_count h_lines v_lines (x1_, y1_, (x2_, y2_)))%nat; [|destruct H].
  destruct H as [<-|[]]. simpl. auto.
Qed.

End CellGrid.

(** Two closed cells of a page are the same cell or their interiors are
    disjoint: cells are taken between neighbouring coordinates of the
    sorted axes. *)
Theorem closed_cells_do_not_overlap
    (h_lines v_lines : list LatticeTableDetector.Line)
    (intersections : list LatticeTableDetector.Point)
    (c1 c2 : LatticeTableDetector.ClosedCell) :
  In c1 (LatticeTableDetector.find_closed_cells h_lines v_lines intersections) ->
  In c2 (LatticeTableDetector.find_closed_cells h_lines v_lines intersections) ->
  c1 = c2 \/ apart (cell_box c1) (cell_box c2).
Proof.
  intros H1 H2.
  apply find_closed_cells_grid in H1, H2. destruct H1 as [Hx1 Hy1], H2 as [Hx2 Hy2].
  destruct (adjacent_apart _ _ _ (sort_leb_ordered _) Hx1 Hx2) as [Ex|Hx];
    [|right; unfold apart, cell_box; simpl in *; tauto].
  destruct (adjacent_apart _ _ _ (sort_leb_ordered _) Hy1 Hy2) as [Ey|Hy];
    [|right; unfold apart, cell_box; simpl in *; tauto].
  left. destruct c1 as [[a1 b1] [a2 b2]], c2 as [[a1' b1'] [a2' b2']]. simpl in *.
  congruence.
Qed.

Lemma closed_cells_do_not_overlap_witness :
  let h := fun y => LatticeTableDetector.mkLine 0 y 20 (Some y) in
  let v := fun x => LatticeTableDetector.mkLine x 0 x (Some 20) in
  let upper : LatticeTableDetector.ClosedCell := ((0, 0), (20, 10)) in
  let lower : LatticeTableDetector.ClosedCell := ((0, 10), (20, 20)) in
  upper = lower \/ apart (cell_box upper) (cell_box lower).
Proof.
  intros h v upper lower.
  apply (closed_cells_do_not_overlap [h 0; h 10; h 20] [v 0; v 20]
           (LatticeTableDetector.find_line_intersections [h 0; h 10; h 20] [v 0; v 20])).
  - vm_compute. auto.
  - vm_compute. auto.
Defined.

(** Adjacency of two cells does not depend on the order in which they are
    given. *)
Theorem are_cells_adjacent_sym (cell1 cell2 : LatticeTableDetector.ClosedCell) :
  CellAdjacency.are_cells_adjacent cell1 cell2
  = CellAdjacency.are_cells_adjacent cell2 cell1.
Proof.
  destruct cell1 as [[a1 b1] [a2 b2]], cell2 as [[c1 d1] [c2 d2]].
  unfold CellAdjacency.are_cells_adjacent, LatticeTableDetector.point_eqb.
  cbn [existsb fst snd].
  rewrite (ltb_compat _ _ _ _ (max2_comm d1 b1) (min2_comm d2 b2)).
  rewrite (ltb_compat _ _ _ _ (max2_comm c1 a1) (min2_comm c2 a2)).
  rewrite (eqb_sym c1 a1), (eqb_sym c1 a2), (eqb_sym c2 a1), (eqb_sym c2 a2).
  rewrite (eqb_sym d1 b1), (eqb_sym d1 b2), (eqb_sym d2 b1), (eqb_sym d2 b2).
  generalize (Py.ltb (Py.max2 b1 d1) (Py.min2 b2 d2)).
  generalize (Py.ltb (Py.max2 a1 c1) (Py.min2 a2 c2)).
  generalize (Py.eqb a1 c1), (Py.eqb a1 c2), (Py.eqb a2 c1), (Py.eqb a2 c2).
  generalize (Py.eqb b1 d1), (Py.eqb b1 d2), (Py.eqb b2 d1), (Py.eqb b2 d2).
  intros [] [] [] [] [] [] [] [] [] []; reflexivity.
Qed.

(** ** The box of a lattice table *)

Section LatticeBoundsProperties.
Import LatticeTableDetector LatticeBounds.

Lemma expand_h_grows (ls : list Line) (b : BBox) :
  inside b (expand_h ls b)
  /\ forall line, In line ls ->
       bx0 (expand_h ls b) <= x0 line /\ x1 line <= bx1 (expand_h ls b).
Proof.
  unfold expand_h.
  destruct (Py.min_of (map x0 ls)) as [lo|] eqn:El.
  2:{ destruct ls; [|discriminate]. split; [apply inside_refl|intros line []]. }
  destruct (Py.max_of (map x1 ls)) as [hi|] eqn:Eh.
  2:{ destruct ls; [|discriminate]. split; [apply inside_refl|intros line []]. }
  apply min_of_spec in El. apply max_of_spec in Eh.
  destruct El as [_ El], Eh as [_ Eh].
  pose proof (min2_lb_l (bx0 b) lo). pose proof (min2_lb_r (bx0 b) lo).
  pose proof (max2_ub_l (bx1 b) hi). pose proof (max2_ub_r (bx1 b) hi).
  split; [unfold inside; simpl; repeat split; lra|].
  intros line Hl. simpl.
  specialize (El _ (in_map x0 _ _ Hl)). specialize (Eh _ (in_map x1 _ _ Hl)).
  split; lra.
Qed.

Lemma expand_v_grows (ls : list Line) (b : BBox) :
  inside b (expand_v ls b)
  /\ forall line, In line ls ->
       btop (expand_v ls b) <= top line
       /\ bottom_or_top line <= bbottom (expand_v ls b).
Proof.
  unfold expand_v.
  destruct (Py.min_of (map top ls)) as [lo|] eqn:El.
  2:{ destruct ls; [|discriminate]. split; [apply inside_refl|intros line []]. }
  destruct (Py.max_of (map bottom_or_top ls)) as [hi|] eqn:Eh.
  2:{ destruct ls; [|discriminate]. split; [apply inside_refl|intros line []]. }
  apply min_of_spec in El. apply max_of_spec in Eh.
  destruct El as [_ El], Eh as [_ Eh].
  pose proof (min2_lb_l (btop b) lo). pose proof (min2_lb_r (btop b) lo).
  pose proof (max2_ub_l (bbottom b) hi). pose proof (max2_ub_r (bbottom b) hi).
  split; [unfold inside; simpl; repeat split; lra|].
  intros line Hl. simpl.
  specialize (El _ (in_map top _ _ Hl)).
  specialize (Eh _ (in_map bottom_or_top _ _ Hl)).
  split; lra.
Qed.

Lemma snap_h_grows (b : BBox) (line : Line) : inside b (snap_h b line).
Proof.
  unfold snap_h. cbv zeta.
  pose proof (min2_lb_l (bx0 b) (x0 line)). pose proof (max2_ub_l (bx1 b) (x1 line)).
  pose proof (min2_lb_l (btop b) (top line)). pose proof (max2_ub_l (bbottom b) (top line)).
  destruct (_ && _ && _); [|apply inside_refl].
  unfold inside. simpl.
  destruct (Py.ltb (Py.abs (top line - btop b)) 5);
    destruct (Py.ltb (Py.abs (top line - bbottom b)) 5); repeat split; lra.
Qed.

Lemma snap_v_grows (b : BBox) (line : Line) : inside b (snap_v b line).
Proof.
  unfold snap_v. cbv zeta.
  pose proof (min2_lb_l (bx0 b) (x0 line)). pose proof (max2_ub_l (bx1 b) (x0 line)).
  pose proof (min2_lb_l (btop b) (top line)).
  pose proof (max2_ub_l (bbottom b) (bottom_or_top line)).
  destruct (_ && _ && _); [|apply inside_refl].
  unfold inside. simpl.
  destruct (Py.ltb (Py.abs (x0 line - bx0 b)) 5);
    destruct (Py.ltb (Py.abs (x0 line - bx1 b)) 5); repeat split; lra.
Qed.

Lemma fold_grows (step : BBox -> Line -> BBox) (ls : list Line) (b : BBox) :
  (forall b line, inside b (step b line)) -> inside b (fold_left step ls b).
Proof.
  intros Hstep. revert b. induction ls as [|l ls IH]; intros b; simpl;
    [apply inside_refl|].
  exact (inside_trans _ _ _ (Hstep b l) (IH _)).
Qed.

Lemma cells_bbox_covers (table_cells : list ClosedCell) (b0 : BBox) (c : ClosedCell) :
  cells_bbox table_cells = Some b0 -> In c table_cells -> inside (cell_box c) b0.
Proof.
  unfold cells_bbox. intros H Hc.
  destruct (Py.min_of (map (fun cell => fst (fst cell)) table_cells)) as [a|] eqn:Ea;
    [|discriminate].
  destruct (Py.min_of (map (fun cell => snd (fst cell)) table_cells)) as [b|] eqn:Eb;
    [|discriminate].
  destruct (Py.max_of (map (fun cell => fst (snd cell)) table_cells)) as [x|] eqn:Ex;
    [|discriminate].
  destruct (Py.max_of (map (fun cell => snd (snd cell)) table_cells)) as [y|] eqn:Ey;
    [|discriminate].
  injection H as <-.
  apply min_of_spec in Ea, Eb. apply max_of_spec in Ex, Ey.
  destruct Ea as [_ Ea], Eb as [_ Eb], Ex as [_ Ex], Ey as [_ Ey].
  unfold inside, cell_box. simpl.
  specialize (Ea _ (in_map (fun cell : ClosedCell => fst (fst cell)) _ _ Hc)).
  specialize (Eb _ (in_map (fun cell : ClosedCell => snd (fst cell)) _ _ Hc)).
  specialize (Ex _ (in_map (fun cell : ClosedCell => fst (snd cell)) _ _ Hc)).
  specialize (Ey _ (in_map (fun cell : ClosedCell => snd (snd cell)) _ _ Hc)).
  simpl in *. repeat split; lra.
Qed.

End LatticeBoundsProperties.

(** The box of a lattice table contains every cell of the table, and it
    spans the whole length of every ruling that meets the box of the
    cells: the expansion steps only ever enlarge the box. *)
Theorem table_bbox_covers
    (h_lines v_lines : list LatticeTableDetector.Line)
    (table_cells : list LatticeTableDetector.ClosedCell) (b0 b : BBox) :
  LatticeBounds.cells_bbox table_cells = Some b0 ->
  LatticeBounds.table_bbox h_lines v_lines table_cells = Some b ->
  (forall c, In c table_cells -> inside (cell_box c) b)
  /\ (forall line, In line (LatticeBounds.h_lines_in_table h_lines b0) ->
        bx0 b <= LatticeTableDetector.x0 line /\ LatticeTableDetector.x1 line <= bx1 b)
  /\ (forall line, In line (LatticeBounds.v_lines_in_table v_lines b0) ->
        btop b <= LatticeTableDetector.top line
        /\ LatticeTableDetector.bottom_or_top line <= bbottom b).
Proof.
  intros H0 H. unfold LatticeBounds.table_bbox in H. rewrite H0 in H. cbv zeta in H.
  injection H as <-.
  set (b1 := LatticeBounds.expand_h (LatticeBounds.h_lines_in_table h_lines b0) b0).
  set (b2 := LatticeBounds.expand_v (LatticeBounds.v_lines_in_table v_lines b0) b1).
  set (b3 := fold_left LatticeBounds.snap_h h_lines b2).
  set (b4 := fold_left LatticeBounds.snap_v v_lines b3).
  destruct (expand_h_grows (LatticeBounds.h_lines_in_table h_lines b0) b0) as [G1 L1].
  destruct (expand_v_grows (LatticeBounds.v_lines_in_table v_lines b0) b1) as [G2 L2].
  fold b1 in G1, L1, G2. fold b2 in G2, L2.
  assert (G3 : inside b2 b3) by (apply fold_grows, snap_h_grows).
  assert (G4 : inside b3 b4) by (apply fold_grows, snap_v_grows).
  assert (G24 : inside b2 b4) by exact (inside_trans _ _ _ G3 G4).
  assert (G14 : inside b1 b4) by exact (inside_trans _ _ _ G2 G24).
  split; [|split].
  - intros c Hc.
    exact (inside_trans _ _ _ (cells_bbox_covers _ _ _ H0 Hc) (inside_trans _ _ _ G1 G14)).
  - intros line Hl. destruct (L1 line Hl) as [La Lb].
    destruct G14 as (?&?&?&?). split; lra.
  - intros line Hl. destruct (L2 line Hl) as [La Lb].
    destruct G24 as (?&?&?&?). split; lra.
Qed.

Lemma table_bbox_covers_witness :
  let h := fun y => LatticeTableDetector.mkLine 0 y 20 (Some y) in
  let v := fun x => LatticeTableDetector.mkLine x 0 x (Some 20) in
  let cells : list LatticeTableDetector.ClosedCell :=
    [((0, 0), (20, 10)); ((0, 10), (20, 20))] in
  exists b,
    LatticeBounds.table_bbox [h 0; h 10; h 20] [v 0; v 20] cells = Some b
    /\ forall c, In c cells -> inside (cell_box c) b.
Proof.
  intros h v cells. eexists. split; [vm_compute; reflexivity|].
  refine (proj1 (table_bbox_covers [h 0; h 10; h 20] [v 0; v 20] cells _ _ _ _)).
  - vm_compute. reflexivity.
  - vm_compute. reflexivity.
Defined.

(** ** The column estimate *)

Lemma x_distances_above (sorted_words : list Word) (d : Q) :
  In d (ColumnEstimate.x_distances sorted_words) -> 5 < d.
Proof.
  unfold ColumnEstimate.x_distances. intros H. apply in_flat_map in H.
  destruct H as (p & _ & H). cbv zeta in H.
  destruct (Py.ltb 5 (w_x0 (snd p) - w_x1 (fst p))) eqn:E; [|destruct H].
  destruct H as [<-|[]]. qcases. exact E.
Qed.

(** The estimated number of columns of a lattice table is always between
    2 and 10.  When there are at least three words and some distance
    above 5 between neighbours, the median distance counts as a
    significant gap itself, so the estimate is [min(10, gaps + 1)] with at
    least one gap: the lower bound 2 is never what decides. *)
Theorem estimate_table_columns_range (table_words : list Word) :
  (2 <= ColumnEstimate.estimate_table_columns table_words <= 10)%nat
  /\ forall distances,
       distances = PyList.sort_by Py.leb
                     (ColumnEstimate.x_distances
                        (PyList.sort_by ColumnEstimate.by_x0 table_words)) ->
       (3 <= List.length table_words)%nat -> distances <> [] ->
       let median_dist := nth (List.length distances / 2) distances 0 in
       let significant_gaps :=
         List.length (filter (fun d => Py.ltb (median_dist * (8 # 10)) d) distances) in
       (1 <= significant_gaps)%nat
       /\ ColumnEstimate.estimate_table_columns table_words
          = Nat.min 10 (significant_gaps + 1).
Proof.
  split.
  - unfold ColumnEstimate.estimate_table_columns.
    destruct (List.length table_words <? 3)%nat; [lia|].
    destruct (PyList.sort_by Py.leb _); [lia|]. cbv zeta. lia.
  - intros distances Hd Hlen Hne. cbv zeta.
    set (median_dist := nth (List.length distances / 2) distances 0).
    assert (Hin : In median_dist distances).
    { apply nth_In. destruct distances as [|d0 ds]; [contradiction|].
      apply Nat.div_lt; simpl; lia. }
    assert (Hpos : 5 < median_dist).
    { rewrite Hd in Hin. apply sort_by_In in Hin. exact (x_distances_above _ _ Hin). }
    assert (Hgap : In median_dist
                      (filter (fun d => Py.ltb (median_dist * (8 # 10)) d) distances)).
    { apply filter_In. split; [exact Hin|]. apply ltb_lt. lra. }
    assert (Hone : (1 <= List.length
                           (filter (fun d => Py.ltb (median_dist * (8 # 10)) d)
                                   distances))%nat).
    { destruct (filter _ distances); [destruct Hgap|simpl; lia]. }
    split; [exact Hone|].
    unfold ColumnEstimate.estimate_table_columns.
    destruct (Nat.ltb_spec (List.length table_words) 3) as [|_]; [lia|].
    cbv zeta. rewrite <- Hd. unfold median_dist in *. clear Hd Hin Hgap Hpos.
    destruct distances as [|d0 ds]; [contradiction|]. cbv beta iota.
    apply Nat.max_r. apply Nat.min_glb; lia.
Qed.

Lemma estimate_table_columns_range_witness :
  let w := fun a b => mkWord "x" a b 0 10 in
  ColumnEstimate.estimate_table_columns [w 0 10; w 20 30; w 40 50] = 3%nat.
Proof.
  intros w.
  destruct (estimate_table_columns_range [w 0 10; w 20 30; w 40 50]) as [_ H].
  destruct (H _ eq_refl) as [_ ->]; [simpl; lia|vm_compute; discriminate|].
  vm_compute. reflexivity.
Defined.

(** ** The stitcher conserves the rows *)

Section RowConservation.
Import LatticeTable.

Lemma rows_of_app (a b : list TableInfo) : rows_of (a ++ b) = rows_of a ++ rows_of b.
Proof. apply flat_map_app. Qed.

Lemma accounted_add (tabs : list TableInfo) (st : LoopState) (t : TableInfo) :
  In t tabs -> ~ In (table_id t) (processed_table_ids st) ->
  accounted tabs st ->
  accounted tabs {| merged_tables := merged_tables st ++ [t];
                    processed_table_ids := processed_table_ids st ++ [table_id t];
                    log := log st |}.
Proof.
  intros Hin Hnew (ts & Hsub & Hids & Hrows & Hnd).
  exists (ts ++ [t]). cbn [merged_tables processed_table_ids].
  split; [|split; [|split]].
  - intros x Hx. apply in_app_or in Hx. destruct Hx as [Hx|[<-|[]]]; auto.
  - rewrite map_app, Hids. reflexivity.
  - rewrite !rows_of_app, Hrows. reflexivity.
  - apply NoDup_app; [exact Hnd|constructor; [intros []|constructor]|].
    intros a Ha [<-|[]]. exact (Hnew Ha).
Qed.

Lemma accounted_log (tabs : list TableInfo) (m : list TableInfo) (p : list TableId)
    (l l' : list Event) :
  accounted tabs (mkLoopState m p l) -> accounted tabs (mkLoopState m p l').
Proof. intros H. exact H. Qed.

Lemma merge_pair_accounted (tabs : list TableInfo) (st : LoopState) (p q : Z) :
  accounted tabs st -> accounted tabs (merge_pair (make_context tabs) st p q).
Proof.
  intros Hacc. unfold merge_pair.
  destruct (Z.eqb_spec q (p + 1)) as [->|Hq]; cbn [negb]; [|exact Hacc].
  destruct (is_nil _ || is_nil _); [exact Hacc|].
  destruct (PyList.get (bottom_tables_by_page (make_context tabs)) p)
    as [cb|] eqn:Hb; [|exact Hacc].
  destruct (id_in (table_id cb) (processed_table_ids st)) eqn:E1; [exact Hacc|].
  destruct (PyList.get (top_tables_by_page (make_context tabs)) (p + 1))
    as [nt|] eqn:Ht; [|exact Hacc].
  destruct (id_in (table_id nt) (processed_table_ids st)) eqn:E2; [exact Hacc|].
  apply id_in_not_In in E1. apply id_in_not_In in E2.
  destruct (bottom_table_spec tabs p cb Hb) as (Hcb & Hpb & _).
  destruct (top_table_spec tabs (p + 1) nt Ht) as (Hnt & Hpt & _).
  destruct (negb (Orientation_eqb (orientation cb) (orientation nt))); [exact Hacc|].
  destruct (should_merge (make_context tabs) cb nt).
  - destruct Hacc as (ts & Hsub & Hids & Hrows & Hnd).
    exists (ts ++ [cb; nt]). cbn [merged_tables processed_table_ids].
    split; [|split; [|split]].
    + intros x Hx. apply in_app_or in Hx. destruct Hx as [Hx|[<-|[<-|[]]]]; auto.
    + rewrite map_app, Hids. reflexivity.
    + rewrite !rows_of_app, Hrows. unfold rows_of. simpl.
      rewrite !app_nil_r. reflexivity.
    + apply NoDup_app; [exact Hnd| |].
      * constructor; [|constructor; [intros []|constructor]].
        intros [H|[]]. unfold table_id in H. injection H as H1 _. lia.
      * intros i Hi [<-|[<-|[]]]; [exact (E1 Hi)|exact (E2 Hi)].
  - apply (accounted_log tabs _ _ (log st)). apply (accounted_add tabs st cb Hcb E1 Hacc).
Qed.

Lemma merge_loop_accounted (tabs : list TableInfo) (page_nums : list Z) (st : LoopState) :
  accounted tabs st -> accounted tabs (merge_loop (make_context tabs) page_nums st).
Proof.
  unfold merge_loop. generalize (page_pairs page_nums). intros pairs. revert st.
  induction pairs as [|[p q] pairs IH]; intros st H; simpl; [exact H|].
  apply IH, merge_pair_accounted, H.
Qed.

Lemma add_last_bottom_accounted (tabs : list TableInfo) (page_nums : list Z)
    (st : LoopState) :
  accounted tabs st -> accounted tabs (add_last_bottom (make_context tabs) page_nums st).
Proof.
  intros Hacc. unfold add_last_bottom.
  destruct (PyList.get (bottom_tables_by_page (make_context tabs)) (last page_nums 0%Z))
    as [lb|] eqn:Hb; [|exact Hacc].
  destruct (id_in (table_id lb) (processed_table_ids st)) eqn:E; [exact Hacc|].
  apply id_in_not_In in E.
  destruct (bottom_table_spec tabs _ lb Hb) as (Hlb & _).
  exact (accounted_add tabs st lb Hlb E Hacc).
Qed.

Lemma add_unprocessed_accounted (tabs l : list TableInfo) (st : LoopState) :
  (forall t, In t l -> In t tabs) -> accounted tabs st ->
  accounted tabs (add_unprocessed l st)
  /\ (forall i, In i (processed_table_ids st) ->
                In i (processed_table_ids (add_unprocessed l st)))
  /\ (forall t, In t l -> In (table_id t) (processed_table_ids (add_unprocessed l st))).
Proof.
  unfold add_unprocessed. revert st.
  induction l as [|t l IH]; intros st Hsub Hacc; cbn [fold_left].
  - split; [exact Hacc|]. split; [auto|intros t []].
  - assert (Hsub' : forall x, In x l -> In x tabs) by (intros x Hx; apply Hsub; right; exact Hx).
    destruct (id_in (table_id t) (processed_table_ids st)) eqn:E.
    + destruct (IH st Hsub' Hacc) as (H1 & H2 & H3).
      split; [exact H1|]. split; [exact H2|].
      intros x [<-|Hx]; [|exact (H3 x Hx)]. apply H2. apply id_in_In. exact E.
    + apply id_in_not_In in E.
      pose proof (accounted_add tabs st t (Hsub t (or_introl eq_refl)) E Hacc) as Hacc'.
      destruct (IH _ Hsub' Hacc') as (H1 & H2 & H3).
      split; [exact H1|]. split.
      * intros i Hi. apply H2. cbn [processed_table_ids]. apply in_or_app. left. exact Hi.
      * intros x [<-|Hx]; [|exact (H3 x Hx)].
        apply H2. cbn [processed_table_ids]. apply in_or_app. right. left. reflexivity.
Qed.

Lemma map_injective_on {A B : Type} (f : A -> B) (l : list A) (a b : A) :
  NoDup (map f l) -> In a l -> In b l -> f a = f b -> a = b.
Proof.
  induction l as [|x l IH]; intros Hnd Ha Hb Hab; [destruct Ha|].
  simpl in Hnd. inversion Hnd as [|? ? Hx Hl]; subst.
  destruct Ha as [<-|Ha]; destruct Hb as [<-|Hb].
  - reflexivity.
  - exfalso. apply Hx. rewrite Hab. apply in_map. exact Hb.
  - exfalso. apply Hx. rewrite <- Hab. apply in_map. exact Ha.
  - exact (IH Hl Ha Hb Hab).
Qed.

Lemma merge_cross_page_run_rows (tabs : list TableInfo) :
  NoDup (map table_id tabs) ->
  let c := make_context tabs in
  let page_nums := PyList.sort_by Z.leb (PyList.keys (tables_by_page c)) in
  let st := merge_loop c page_nums (mkLoopState [] [] []) in
  Permutation (rows_of (merged_tables (add_unprocessed tabs (add_last_bottom c page_nums st))))
              (rows_of tabs).
Proof.
  intros Hnd c page_nums st.
  assert (H0 : accounted tabs (mkLoopState [] [] [])).
  { exists []. simpl. repeat split; try constructor. intros t []. }
  pose proof (merge_loop_accounted tabs page_nums _ H0) as H1.
  pose proof (add_last_bottom_accounted tabs page_nums _ H1) as H2.
  destruct (add_unprocessed_accounted tabs tabs _ (fun t H => H) H2)
    as ((ts & Hsub & Hids & Hrows & Hnd') & _ & Hall).
  fold c page_nums st in Hids, Hrows, Hnd', Hall.
  rewrite Hrows. unfold rows_of. apply Permutation_flat_map.
  apply NoDup_Permutation.
  - apply (NoDup_map_inv table_id). rewrite Hids. exact Hnd'.
  - exact (NoDup_map_inv table_id _ Hnd).
  - intros t. split; [apply Hsub|].
    intros Ht. specialize (Hall t Ht). rewrite <- Hids in Hall.
    apply in_map_iff in Hall. destruct Hall as (t' & Hid & Ht').
    rewrite <- (map_injective_on table_id tabs t' t Hnd (Hsub t' Ht') Ht Hid).
    exact Ht'.
Qed.

End RowConservation.

(** The stitcher conserves the rows: when no two tables share an id, the
    rows of the returned tables are the rows of the given tables, each as
    often as it was given; merging only changes which table holds a row. *)
Theorem merge_cross_page_tables_conserves_rows (all_tables : list LatticeTable.TableInfo) :
  NoDup (map LatticeTable.table_id all_tables) ->
  Permutation (rows_of (LatticeTable.merge_cross_page_tables all_tables))
              (rows_of all_tables).
Proof.
  intros Hnd. unfold LatticeTable.merge_cross_page_tables.
  destruct all_tables as [|t0 rest]; [reflexivity|].
  set (all_tables := t0 :: rest) in *.
  change (LatticeTable.is_nil all_tables) with false. cbv iota.
  unfold LatticeTable.merge_cross_page_run.
  pose proof (sort_by_perm LatticeTable.page_top_le all_tables) as Hp.
  assert (Hnd' : NoDup (map LatticeTable.table_id
                          (PyList.sort_by LatticeTable.page_top_le all_tables))).
  { eapply Permutation_NoDup; [apply Permutation_map; exact Hp|exact Hnd]. }
  pose proof (merge_cross_page_run_rows _ Hnd') as H. cbv zeta in H.
  etransitivity; [exact H|].
  unfold rows_of. apply Permutation_flat_map. symmetry. exact Hp.
Qed.

Lemma merge_cross_page_tables_conserves_rows_witness :
  let a := LatticeTable.mkTableInfo 1 1 (mkBBox 50 100 500 780)
             [[Some "a"%string; Some "b"%string]] 2 Portrait false [] in
  let b := LatticeTable.mkTableInfo 2 1 (mkBBox 50 60 500 300)
             [[Some "c"%string; Some "d"%string]] 2 Portrait false [] in
  Permutation (rows_of (LatticeTable.merge_cross_page_tables [b; a])) (rows_of [b; a]).
Proof.
  intros a b. apply (merge_cross_page_tables_conserves_rows [b; a]).
  repeat constructor; simpl; intuition discriminate.
Defined.

(** ** The centered-text repair keeps the text of every row *)

Section RepairContents.
Import LatticeTable.

Lemma swap_contents (row : list Cell) (i : nat) :
  (i + 2 < List.length row)%nat ->
  is_empty_cell (nth i row None) = true ->
  contents (PyList.set_nth (i + 1) None (PyList.set_nth i (nth (i + 1) row None) row))
  = contents row.
Proof.
  revert i. induction row as [|a row IH]; intros i Hlen He; [simpl in Hlen; lia|].
  destruct i as [|i].
  - destruct row as [|b row]; [simpl in Hlen; lia|].
    cbn [nth] in He. unfold contents. cbn [Nat.add nth PyList.set_nth filter].
    rewrite He. reflexivity.
  - simpl in Hlen. cbn [nth] in He.
    change (S i + 1)%nat with (S (i + 1)). cbn [nth PyList.set_nth].
    unfold contents in *. cbn [filter]. rewrite IH; [reflexivity|lia|exact He].
Qed.

Lemma scan_row_contents (fuel : nat) (row : list Cell) (i : nat) :
  contents (scan_row fuel row i) = contents row.
Proof.
  revert row i. induction fuel as [|fuel IH]; intros row i; [reflexivity|].
  rewrite scan_row_S.
  destruct (i + 2 <? List.length row)%nat eqn:E; [|reflexivity].
  destruct (is_empty_cell (nth i row None)) eqn:C; cbn [andb]; [|apply IH].
  match goal with |- context [if ?c then _ else _] => destruct c end;
    rewrite IH; [|reflexivity].
  apply swap_contents; [apply Nat.ltb_lt|]; assumption.
Qed.

Lemma combine_seq_nth (s : nat) (row : list Cell) (i : nat) (c : Cell) :
  In (i, c) (combine (seq s (List.length row)) row) ->
  (s <= i)%nat /\ (i - s < List.length row)%nat /\ nth (i - s) row None = c.
Proof.
  revert s. induction row as [|a row IH]; intros s H; [destruct H|].
  cbn [List.length seq combine] in H. destruct H as [H|H].
  - injection H as <- <-. rewrite Nat.sub_diag. simpl. repeat split; lia.
  - apply IH in H. destruct H as (H1 & H2 & H3).
    replace (i - s)%nat with (S (i - S s)) by lia. simpl. repeat split; try lia.
    exact H3.
Qed.

Lemma filter_keep_contents (keep : nat * Cell -> bool) (l : list (nat * Cell)) :
  (forall ic, In ic l -> keep ic = false -> is_empty_cell (snd ic) = true) ->
  contents (map snd (filter keep l)) = contents (map snd l).
Proof.
  induction l as [|ic l IH]; intros H; [reflexivity|].
  assert (IH' : contents (map snd (filter keep l)) = contents (map snd l))
    by (apply IH; intros x Hx; apply H; right; exact Hx).
  cbn [filter map]. destruct (keep ic) eqn:K.
  - unfold contents in *. cbn [map filter]. rewrite IH'. reflexivity.
  - unfold contents in *. cbn [filter].
    rewrite (H ic (or_introl eq_refl) K). exact IH'.
Qed.

Lemma drop_contents (processed : list (list Cell)) (row : list Cell) :
  In row processed -> contents (drop_empty_columns processed row) = contents row.
Proof.
  intros Hin. unfold drop_empty_columns.
  rewrite filter_keep_contents; [rewrite combine_seq_snd; reflexivity|].
  intros [i c] Hic K. cbn [fst snd] in *.
  apply combine_seq_nth in Hic. destruct Hic as (_ & Hlt & Hnth).
  rewrite Nat.sub_0_r in Hlt, Hnth.
  apply negb_false_iff in K. unfold is_empty_column in K.
  rewrite forallb_forall in K. specialize (K row Hin).
  subst c. apply negb_true_iff in K. apply andb_false_iff in K.
  destruct K as [K|K]; [apply Nat.ltb_ge in K; unfold Cell in *; lia|].
  apply negb_false_iff in K. exact K.
Qed.

End RepairContents.

(** The centered-text repair never loses, adds or reorders text: in every
    row the cells that hold text are the same, in the same order, before
    and after the repair; only empty cells move or disappear. *)
Theorem fix_centered_text_issues_keeps_contents
    (table_data : list (list Cell)) (estimated_cols : Z) :
  map contents (LatticeTable.fix_centered_text_issues table_data estimated_cols)
  = map contents table_data.
Proof.
  destruct table_data as [|r0 rest]; [reflexivity|].
  set (table_data := r0 :: rest).
  destruct (Z.leb_spec (Z.abs (Z.of_nat (LatticeTable.current_cols table_data)
                                - estimated_cols)) 1) as [Hle|Hgt].
  - rewrite fix_centered_text_issues_close; [reflexivity|exact Hle].
  - rewrite fix_centered_text_issues_runs; [|discriminate|exact Hgt].
    rewrite map_map.
    transitivity (map contents (map LatticeTable.fix_row table_data)).
    + rewrite <- (map_map (drop_empty_columns (map LatticeTable.fix_row table_data))
                          contents).
      rewrite !map_map. apply map_ext_in. intros row Hrow.
      apply drop_contents. apply in_map. exact Hrow.
    + rewrite map_map. apply map_ext. intros row. apply scan_row_contents.
Qed.

(** ** Rows of text blocks *)

Section Banding.
Import Rows.

Lemma band_step_inv (threshold : Q) (st : Banding) (text : TextBlock) :
  Permutation (List.concat (text_rows (band_step threshold st text))
               ++ current_row_texts (band_step threshold st text))
              (List.concat (text_rows st) ++ current_row_texts st ++ [text])
  /\ (Forall ordered_row (text_rows st) ->
      Forall ordered_row (text_rows (band_step threshold st text))).
Proof.
  unfold band_step.
  destruct (Py.ltb threshold (btop (tb_bbox text) - current_top st)).
  - destruct (current_row_texts st) as [|t0 row] eqn:E;
      cbn [text_rows current_row_texts].
    + split; [reflexivity|auto].
    + split.
      * rewrite concat_app. cbn [List.concat]. rewrite app_nil_r, <- app_assoc.
        apply Permutation_app_head. apply Permutation_app_tail.
        symmetry. apply sort_by_perm.
      * intros H. apply Forall_app. split; [exact H|].
        constructor; [|constructor]. split.
        -- intros Hnil. apply (f_equal (@List.length TextBlock)) in Hnil.
           rewrite sort_by_length in Hnil. discriminate.
        -- exact (sort_by_key_ordered (fun tb => bx0 (tb_bbox tb)) (t0 :: row)).
  - cbn [text_rows current_row_texts]. split; [reflexivity|auto].
Qed.

Lemma band_fold_inv (threshold : Q) (texts : list TextBlock) (st : Banding) :
  let st' := fold_left (band_step threshold) texts st in
  Permutation (List.concat (text_rows st') ++ current_row_texts st')
              (List.concat (text_rows st) ++ current_row_texts st ++ texts)
  /\ (Forall ordered_row (text_rows st) -> Forall ordered_row (text_rows st')).
Proof.
  revert st. induction texts as [|t texts IH]; intros st; cbn [fold_left].
  - cbv zeta. rewrite app_nil_r. split; [reflexivity|auto].
  - destruct (IH (band_step threshold st t)) as [Hp Hf].
    destruct (band_step_inv threshold st t) as [Hp1 Hf1]. cbv zeta in *.
    split; [|auto].
    etransitivity; [exact Hp|].
    rewrite app_assoc. etransitivity; [apply Permutation_app_tail; exact Hp1|].
    rewrite <- !app_assoc. reflexivity.
Qed.

End Banding.

(** Banding puts every text block of the table into exactly one row: the
    rows, concatenated, are a rearrangement of the table's text blocks, no
    row is empty, and every row is ordered by [x0]. *)
Theorem band_rows_lossless (threshold : Q) (first : TextBlock) (table_texts : list TextBlock) :
  Permutation (List.concat (Rows.band threshold first table_texts)) table_texts
  /\ Forall ordered_row (Rows.band threshold first table_texts).
Proof.
  unfold Rows.band.
  destruct (band_fold_inv threshold table_texts
              (Rows.mkBanding [] [] (btop (tb_bbox first)))) as [Hp Hf].
  cbv zeta in *. cbn [Rows.text_rows Rows.current_row_texts List.concat app] in Hp, Hf.
  specialize (Hf (Forall_nil _)).
  destruct (Rows.current_row_texts _) as [|t0 row] eqn:E.
  - rewrite app_nil_r in Hp. split; assumption.
  - split.
    + rewrite concat_app. cbn [List.concat]. rewrite app_nil_r.
      etransitivity; [|exact Hp]. apply Permutation_app_head.
      symmetry. apply sort_by_perm.
    + apply Forall_app. split; [exact Hf|]. constructor; [|constructor]. split.
      * intros Hnil. apply (f_equal (@List.length TextBlock)) in Hnil.
        rewrite sort_by_length in Hnil. discriminate.
      * exact (sort_by_key_ordered (fun tb => bx0 (tb_bbox tb)) (t0 :: row)).
Qed.

(** ** Placing the words of a stream table *)

Section StreamPlacement.
Import StreamTable.

Lemma put_length (processed_row : list string) (i : nat) (text : string) :
  List.length (Rows.put processed_row i text) = List.length processed_row.
Proof. unfold Rows.put. apply set_nth_length. Qed.

Lemma stream_place_word_length (standard : bool) (bs : list (Q * Q)) (row_idx : nat)
    (st : list string * list Diagnostic) (word : Word) :
  List.length (fst (place_word standard bs row_idx st word)) = List.length (fst st).
Proof.
  unfold place_word. destruct st as [processed_row diags]. destruct standard.
  - destruct (first_containing _ _ _ _); simpl; [apply put_length|reflexivity].
  - destruct (snd (best_overlap _ _ _ _ _)); simpl; [apply put_length|reflexivity].
Qed.

Lemma stream_place_row_length (word_rows : list (list Word)) (bs : list (Q * Q))
    (row_idx : nat) (words_in_row : list Word) :
  List.length (fst (place_row word_rows bs row_idx words_in_row)) = List.length bs.
Proof.
  unfold place_row.
  generalize (is_standard_row word_rows words_in_row). intros standard.
  assert (H : forall ws st,
             List.length (fst (fold_left (place_word standard bs row_idx) ws st))
             = List.length (fst st)).
  { induction ws as [|w ws IH]; intros st; simpl; [reflexivity|].
    rewrite IH. apply stream_place_word_length. }
  rewrite H. simpl. apply repeat_length.
Qed.

Lemma first_containing_some (word_x0 word_x1 : Q) (bs : list (Q * Q)) (col_idx : nat) :
  (exists b, In b bs /\ fst b - 1 <= word_x0 /\ word_x1 <= snd b + 1) ->
  exists j, first_containing word_x0 word_x1 bs col_idx = Some j.
Proof.
  revert col_idx. induction bs as [|[col_x0 col_x1] bs IH]; intros col_idx (b & Hb & H0 & H1).
  - destruct Hb.
  - simpl.
    destruct (Py.leb (col_x0 - 1) word_x0 && Py.leb word_x1 (col_x1 + 1)) eqn:E;
      [eexists; reflexivity|].
    destruct Hb as [<-|Hb].
    + simpl in H0, H1. apply leb_le in H0, H1. rewrite H0, H1 in E. discriminate.
    + apply IH. exists b. auto.
Qed.

Lemma standard_row_quiet (word_rows : list (list Word)) (bs : list (Q * Q)) (row_idx : nat)
    (words_in_row : list Word) :
  is_standard_row word_rows words_in_row = true ->
  (forall w, In w words_in_row ->
     exists b, In b bs /\ fst b - 1 <= w_x0 w /\ w_x1 w <= snd b + 1) ->
  snd (place_row word_rows bs row_idx words_in_row) = [].
Proof.
  intros Hstd Hall. unfold place_row. rewrite Hstd.
  assert (H : forall ws st,
             (forall w, In w ws ->
                exists b, In b bs /\ fst b - 1 <= w_x0 w /\ w_x1 w <= snd b + 1) ->
             snd st = [] ->
             snd (fold_left (place_word true bs row_idx) ws st) = []).
  { induction ws as [|w ws IH]; intros st Hws Hst; simpl; [exact Hst|].
    apply IH; [intros w' Hw'; apply Hws; right; exact Hw'|].
    unfold place_word. destruct st as [processed_row diags]. simpl in Hst.
    destruct (first_containing_some (w_x0 w) (w_x1 w) bs O (Hws w (or_introl eq_refl)))
      as [j ->].
    exact Hst. }
  apply H; [exact Hall|reflexivity].
Qed.

End StreamPlacement.

(** The grid of a stream table is rectangular, one cell per column
    boundary in every row, and a standard row of the table is placed
    without a warning: each of its words lies within the boundary of its
    own position, so the strict search always finds a column. *)
Theorem stream_standard_rows_placed (word_rows : list (list Word)) :
  (0 < StreamTable.max_words_count word_rows)%nat ->
  let bs := StreamTable.column_boundaries word_rows in
  (forall row_idx words_in_row,
      List.length (fst (StreamTable.place_row word_rows bs row_idx words_in_row))
      = StreamTable.max_words_count word_rows)
  /\ (forall row_idx words_in_row,
        In words_in_row word_rows ->
        StreamTable.is_standard_row word_rows words_in_row = true ->
        snd (StreamTable.place_row word_rows bs row_idx words_in_row) = []).
Proof.
  intros Hm bs. split.
  - intros row_idx words_in_row. rewrite stream_place_row_length.
    apply column_boundaries_length. exact Hm.
  - intros row_idx words_in_row Hin Hstd.
    apply standard_row_quiet; [exact Hstd|].
    intros w Hw. apply In_nth_error in Hw. destruct Hw as [i Hi].
    assert (Hlen : List.length words_in_row = StreamTable.max_words_count word_rows)
      by (apply Nat.eqb_eq; exact Hstd).
    assert (Hlt : (i < StreamTable.max_words_count word_rows)%nat).
    { rewrite <- Hlen. apply nth_error_Some. rewrite Hi. discriminate. }
    destruct (column_boundary_at word_rows i Hlt) as (lo & hi & Hb & Hall & _).
    assert (Hf : In words_in_row
                    (filter (StreamTable.is_standard_row word_rows) word_rows))
      by (apply filter_In; split; assumption).
    destruct (Hall words_in_row Hf) as (w' & Hw' & Hlo & Hhi).
    rewrite Hi in Hw'. injection Hw' as <-.
    exists (lo, hi). split; [exact (nth_error_In _ _ Hb)|]. simpl. split; lra.
Qed.

Lemma stream_standard_rows_placed_witness :
  let w := fun t a b => mkWord t a b 0 10 in
  let rows := [[w "a" 0 10]; [w "c" 0 9; w "d" 20 30]; [w "e" 1 11; w "f" 19 28]]%string in
  snd (StreamTable.place_row rows (StreamTable.column_boundaries rows) 1
         [w "c" 0 9; w "d" 20 30]%string) = [].
Proof.
  intros w rows.
  refine (proj2 (stream_standard_rows_placed rows _) 1%nat _ _ _).
  - vm_compute. lia.
  - right. left. reflexivity.
  - vm_compute. reflexivity.
Defined.

(** ** Separators and columns of a text-only table *)

Section TextOnlyColumns.
Import TextOnly.

Lemma sorted_below_last (l : list Q) (x d : Q) :
  StronglySorted Qle l -> In x l -> x <= last l d.
Proof.
  intros Hs. revert x. induction Hs as [|a l Hs IH Ha]; intros x Hx; [destruct Hx|].
  rewrite Forall_forall in Ha.
  destruct l as [|b l]; [destruct Hx as [<-|[]]; simpl; lra|].
  change (last (a :: b :: l) d) with (last (b :: l) d).
  destruct Hx as [<-|Hx]; [|exact (IH x Hx)].
  assert (Hb : b <= last (b :: l) d) by (apply IH; left; reflexivity).
  specialize (Ha b (or_introl eq_refl)). lra.
Qed.

Lemma sorted_snoc (l : list Q) (b : Q) :
  StronglySorted Qle l -> (forall x, In x l -> x <= b) -> StronglySorted Qle (l ++ [b]).
Proof.
  induction 1 as [|a l Hs IH Ha]; intros Hb; simpl.
  - constructor; constructor.
  - constructor.
    + apply IH. intros x Hx. apply Hb. right. exact Hx.
    + apply Forall_app. split; [exact Ha|]. constructor; [|constructor].
      apply Hb. left. reflexivity.
Qed.

Lemma sorted_cons (a : Q) (l : list Q) :
  StronglySorted Qle l -> (forall s r, l = s :: r -> a <= s) -> StronglySorted Qle (a :: l).
Proof.
  intros Hs Hhd. constructor; [exact Hs|].
  destruct l as [|s r]; [constructor|].
  specialize (Hhd s r eq_refl). inversion Hs as [|? ? _ Hall]; subst.
  rewrite Forall_forall in Hall. apply Forall_forall.
  intros x [<-|Hx]; [exact Hhd|]. specialize (Hall x Hx). lra.
Qed.

Lemma count_passed_spec (word_center : Q) (seps : list Q) :
  let k := count_passed word_center seps in
  (k <= List.length seps)%nat
  /\ (forall j, (j < k)%nat -> nth j seps 0 <= word_center)
  /\ ((k < List.length seps)%nat -> word_center < nth k seps 0).
Proof.
  induction seps as [|s seps IH]; cbn [count_passed].
  - cbv zeta. simpl. split; [lia|]. split; intros; lia.
  - destruct (Py.ltb word_center s) eqn:E; qcases; cbv zeta in *.
    + simpl. split; [lia|]. split; [intros; lia|]. intros _. exact E.
    + destruct IH as (H1 & H2 & H3). cbn [List.length nth].
      split; [lia|]. split.
      * intros [|j] Hj; [exact E|]. apply H2. lia.
      * intros Hk. apply H3. lia.
Qed.

Lemma text_only_place_word_length (seps : list Q) (st : list string * list Diagnostic)
    (word : Word) :
  List.length (fst (place_word seps st word)) = List.length (fst st).
Proof.
  unfold place_word. destruct st as [processed_row diags].
  destruct (_ <? _)%nat; simpl; [apply put_length|reflexivity].
Qed.

Lemma text_only_place_row_length (seps : list Q) (row : list TextBlock) :
  List.length (fst (place_row seps row)) = (List.length seps - 1)%nat.
Proof.
  unfold place_row.
  assert (H : forall ws st,
             List.length (fst (fold_left (place_word seps) ws st)) = List.length (fst st)).
  { induction ws as [|w ws IH]; intros st; simpl; [reflexivity|].
    rewrite IH. apply text_only_place_word_length. }
  rewrite H. simpl. apply repeat_length.
Qed.

End TextOnlyColumns.

(** The column separators of a text-only table are never empty and, for a
    table whose left edge is not right of its right edge, they are in
    ascending order: the edges of the table are only added left of the
    first and right of the last separator. *)
Theorem column_separators_ordered (tbl : BBox) (geoms : list BuildStructureMap.Geometry) :
  bx0 tbl <= bx1 tbl ->
  fst (TextOnly.column_separators tbl geoms) <> []
  /\ StronglySorted Qle (fst (TextOnly.column_separators tbl geoms)).
Proof.
  intros Hbox. unfold TextOnly.column_separators.
  match goal with
  | |- context [PyList.sort_by Py.leb ?l] =>
      pose proof (sort_leb_ordered l) as Hs; destruct (PyList.sort_by Py.leb l) as [|s0 seps]
  end.
  - simpl. split; [discriminate|].
    constructor; [constructor; constructor|]. constructor; [exact Hbox|constructor].
  - cbv zeta. cbn [fst].
    set (seps1 := if Py.ltb (bx0 tbl + 5) s0 then bx0 tbl :: s0 :: seps else s0 :: seps).
    assert (H1 : seps1 <> [] /\ StronglySorted Qle seps1).
    { unfold seps1. destruct (Py.ltb (bx0 tbl + 5) s0) eqn:E; qcases.
      - split; [discriminate|]. apply sorted_cons; [exact Hs|].
        intros s r Heq. injection Heq as <- _. lra.
      - split; [discriminate|exact Hs]. }
    destruct H1 as [Hne1 Hs1].
    destruct (Py.ltb (last seps1 0) (bx1 tbl - 5)) eqn:E2; qcases.
    + split; [intros H; apply app_eq_nil in H; destruct H; discriminate|].
      apply sorted_snoc; [exact Hs1|].
      intros x Hx. pose proof (sorted_below_last seps1 x 0 Hs1 Hx). lra.
    + split; assumption.
Qed.

Lemma column_separators_ordered_witness :
  let line := fun x => BuildStructureMap.mkGeometry x 0 x 20 BuildStructureMap.VirtualLine in
  StronglySorted Qle
    (fst (TextOnly.column_separators (mkBBox 10 0 100 20) [line 60; line 30])).
Proof.
  intros line.
  refine (proj2 (column_separators_ordered (mkBBox 10 0 100 20) [line 60; line 30] _)).
  vm_compute. discriminate.
Defined.

(** The column of a word in a text-only table is the number of separators,
    from the second on, that its center has reached before the first one
    it is left of: every separator from the second to the one that opens
    the column is at or left of the center, and the separator that closes
    the column, when there is one, is right of it.  The first separator is
    never compared with the word. *)
Theorem text_only_column_of_spec (seps : list Q) (word : Word) :
  let word_center := (w_x0 word + w_x1 word) / 2 in
  let col_idx := TextOnly.column_of seps word in
  (col_idx <= List.length seps - 1)%nat
  /\ (forall j, (1 <= j <= col_idx)%nat -> nth j seps 0 <= word_center)
  /\ ((col_idx + 1 < List.length seps)%nat -> word_center < nth (col_idx + 1) seps 0)
  /\ forall s0 s0',
       TextOnly.column_of (s0 :: tl seps) word = TextOnly.column_of (s0' :: tl seps) word.
Proof.
  cbv zeta. unfold TextOnly.column_of.
  destruct (count_passed_spec ((w_x0 word + w_x1 word) / 2) (tl seps)) as (H1 & H2 & H3).
  cbv zeta in *.
  destruct seps as [|s seps]; cbn [tl List.length] in *.
  - simpl in *. split; [lia|]. split; [intros j Hj; lia|]. split; [intros; lia|reflexivity].
  - split; [lia|]. split; [|split].
    + intros [|j] Hj; [lia|]. cbn [nth]. apply H2. lia.
    + intros Hk. replace (TextOnly.count_passed ((w_x0 word + w_x1 word) / 2) seps + 1)%nat
        with (S (TextOnly.count_passed ((w_x0 word + w_x1 word) / 2) seps)) by lia.
      cbn [nth]. apply H3. lia.
    + reflexivity.
Qed.

Lemma text_only_column_of_spec_witness :
  let seps := [10; 30; 50] in
  let word := mkWord "b" 36 44 0 10 in
  nth 1 seps 0 <= (w_x0 word + w_x1 word) / 2.
Proof.
  intros seps word.
  pose proof (text_only_column_of_spec seps word) as H. cbv zeta in H.
  destruct H as (_ & H & _).
  apply (H 1%nat). vm_compute. lia.
Defined.

(** The grid of a text-only table is rectangular: every row has one cell
    less than there are separators, whatever the words of the row. *)
Theorem text_only_grid_rectangular (t : BuildStructureMap.TableElement)
    (text_elements : list TextBlock) (grid : list (list string)) (d : list Diagnostic) :
  TextOnly.extract_table t text_elements = (Some grid, d) ->
  forall row, In row grid ->
    List.length row
    = (List.length (fst (TextOnly.column_separators (BuildStructureMap.tbbox t)
                           (BuildStructureMap.geometries t))) - 1)%nat.
Proof.
  unfold TextOnly.extract_table. intros H row Hrow.
  destruct (TextOnly.column_separators (BuildStructureMap.tbbox t)
              (BuildStructureMap.geometries t)) as [seps d0].
  destruct (PyList.sort_by Rows.by_top _) as [|first rest]; [discriminate|].
  cbv zeta in H. injection H as <- _.
  rewrite map_map in Hrow. apply in_map_iff in Hrow.
  destruct Hrow as (r & <- & _). apply text_only_place_row_length.
Qed.

Lemma text_only_grid_rectangular_witness :
  let line := BuildStructureMap.mkGeometry 30 0 30 20 BuildStructureMap.VirtualLine in
  let t := BuildStructureMap.mkTableElement (mkBBox 10 0 50 20) BuildStructureMap.TextOnly
             "Found by text alignment" [line] in
  let block := mkTextBlock "a b" (mkBBox 12 2 48 12)
                 [mkWord "a" 12 20 2 12; mkWord "b" 40 48 2 12] in
  TextOnly.extract_table t [block] = (Some [["a"; "b"]]%string, [])
  /\ List.length ["a"; "b"]%string = 2%nat.
Proof.
  intros line t block. split; [reflexivity|].
  exact (text_only_grid_rectangular t [block] [["a"; "b"]]%string [] eq_refl
           ["a"; "b"]%string (or_introl eq_refl)).
Defined.

(** ** The text-alignment detector always returns *)

Section AlignmentTotal.
Import TextAlignment.

Lemma sort_by_nonempty {A : Type} (le : A -> A -> bool) (l : list A) :
  l <> [] -> PyList.sort_by le l <> [].
Proof.
  intros Hne Hnil. apply (f_equal (@List.length A)) in Hnil.
  rewrite sort_by_length in Hnil. destruct l; [contradiction|discriminate].
Qed.

Lemma cluster_lines_fold (rest : list Word) (st : Clustering) :
  current_line st <> [] -> Forall (fun l => l <> []) (lines st) ->
  let st' := fold_left cluster_step rest st in
  current_line st' <> [] /\ Forall (fun l => l <> []) (lines st').
Proof.
  revert st. induction rest as [|w rest IH]; intros st Hc Hl; cbn [fold_left];
    [split; assumption|].
  apply IH; unfold cluster_step; destruct (Py.ltb _ (tolerance st));
    cbn [current_line lines]; try discriminate; try assumption.
  - intros E. apply app_eq_nil in E. destruct E; discriminate.
  - apply Forall_app. split; [exact Hl|].
    constructor; [apply sort_by_nonempty; exact Hc|constructor].
Qed.

Lemma cluster_lines_nonempty (words : list Word) :
  Forall (fun l => l <> []) (cluster_lines words).
Proof.
  unfold cluster_lines. destruct words as [|w0 rest]; [constructor|].
  destruct (cluster_lines_fold rest (mkClustering [] [w0] (tolerance_of w0)))
    as [Hc Hl]; [discriminate|constructor|].
  cbv zeta in *. apply Forall_app. split; [exact Hl|].
  constructor; [apply sort_by_nonempty; exact Hc|constructor].
Qed.

Lemma keep_group_proper (groups : list (list (list Word))) (current_group : list (list Word)) :
  Forall proper_band groups -> Forall (fun l => l <> []) current_group ->
  Forall proper_band (keep_group groups current_group).
Proof.
  intros Hg Hc. unfold keep_group.
  destruct (Nat.leb_spec 3 (List.length current_group)); [|exact Hg].
  apply Forall_app. split; [exact Hg|]. constructor; [split; assumption|constructor].
Qed.

Lemma last_nonempty (l : list (list Word)) :
  l <> [] -> Forall (fun x => x <> []) l -> last l [] <> [].
Proof.
  intros Hne Hall. rewrite Forall_forall in Hall. apply Hall.
  destruct l as [|x l]; [contradiction|].
  clear Hne Hall. revert x. induction l as [|y l IH]; intros x; [left; reflexivity|].
  change (last (x :: y :: l) []) with (last (y :: l) []). right. apply IH.
Qed.

Lemma group_fold (max_line_gap : Q) (rest : list (list Word))
    (groups : list (list (list Word))) (current_group : list (list Word)) :
  Forall (fun l => l <> []) rest ->
  Forall proper_band groups ->
  current_group <> [] -> Forall (fun l => l <> []) current_group ->
  exists groups' current_group',
    fold_left (group_step max_line_gap) rest (Some (groups, current_group))
    = Some (groups', current_group')
    /\ Forall proper_band groups'
    /\ current_group' <> [] /\ Forall (fun l => l <> []) current_group'.
Proof.
  revert groups current_group.
  induction rest as [|line rest IH]; intros groups current_group Hr Hg Hne Hc;
    cbn [fold_left].
  - exists groups, current_group. auto.
  - inversion Hr as [|? ? Hline Hrest]; subst.
    unfold group_step at 2.
    destruct (max_of_some (map w_bottom (last current_group [])))
      as [prev ->].
    { pose proof (last_nonempty current_group Hne Hc) as Hl.
      destruct (last current_group []); [contradiction|discriminate]. }
    destruct (min_of_some (map w_top line)) as [cur ->].
    { destruct line; [contradiction|discriminate]. }
    destruct (Py.ltb (cur - prev) max_line_gap).
    + apply IH; try assumption.
      * intros E. apply app_eq_nil in E. destruct E; discriminate.
      * apply Forall_app. split; [exact Hc|]. constructor; [exact Hline|constructor].
    + apply IH; try assumption.
      * apply keep_group_proper; assumption.
      * discriminate.
      * constructor; [exact Hline|constructor].
Qed.

Lemma table_line_groups_total (lines : list (list Word)) :
  Forall (fun l => l <> []) lines ->
  exists groups, table_line_groups lines = Some groups /\ Forall proper_band groups.
Proof.
  intros Hl. unfold table_line_groups. destruct lines as [|l0 rest].
  - exists []. split; [reflexivity|constructor].
  - destruct (avg_heights (l0 :: rest)) as [|h hs].
    + exists []. split; [reflexivity|constructor].
    + inversion Hl as [|? ? H0 Hrest]; subst.
      destruct (group_fold (average (h :: hs) * 2) rest [] [l0] Hrest)
        as (groups' & current' & -> & Hg & Hne & Hc);
        [constructor|discriminate|constructor; [exact H0|constructor]|].
      eexists. split; [reflexivity|]. apply keep_group_proper; assumption.
Qed.

Lemma group_bbox_some (group : list (list Word)) :
  proper_band group -> exists box, group_bbox group = Some box.
Proof.
  intros [Hlen Hall]. unfold group_bbox.
  destruct group as [|l0 group]; [simpl in Hlen; lia|].
  inversion Hall as [|? ? H0 _]; subst.
  destruct l0 as [|w l0]; [contradiction|].
  cbn [List.concat app map]. simpl. eexists. reflexivity.
Qed.

Lemma process_group_returns (group : list (list Word)) :
  proper_band group -> process_group group <> Raised.
Proof.
  intros Hp. unfold process_group.
  destruct (group_bbox_some group Hp) as [box ->].
  destruct (modal_count group) as [m|]; [|discriminate].
  destruct (m <? 2)%nat; [discriminate|].
  destruct (LatticeTable.is_nil _); [discriminate|].
  destruct (Z.leb_spec (py_int (bx1 box - bx0 box)) 0) as [|Hw]; [discriminate|].
  destruct (find_gaps_some (band_projection group box m) (py_int (bx1 box - bx0 box)))
    as [gaps ->].
  { intros Hnil. apply (f_equal (@List.length nat)) in Hnil.
    unfold band_projection in Hnil. rewrite projection_of_length in Hnil.
    simpl in Hnil. lia. }
  cbv zeta. destruct (_ <? _)%nat; discriminate.
Qed.

Lemma collect_tables_total (groups : list (list (list Word))) :
  Forall proper_band groups -> exists result, collect_tables groups = Some result.
Proof.
  induction 1 as [|g groups Hg _ IH]; [exists []; reflexivity|].
  destruct IH as [cs Hcs]. cbn [collect_tables].
  pose proof (process_group_returns g Hg) as Hr.
  destruct (process_group g); [|eauto|contradiction].
  rewrite Hcs. eauto.
Qed.

End AlignmentTotal.

(** The text-alignment detector returns for every list of words: no line
    and no band is ever empty, so [min], [max] and [projection[0]] never
    fail; and every band that it examines has at least three lines. *)
Theorem find_text_alignment_tables_returns (words : list Word) :
  (exists result, TextAlignment.find_text_alignment_tables words = Some result)
  /\ forall group, is_band words group -> proper_band group.
Proof.
  destruct (table_line_groups_total
              (TextAlignment.cluster_lines (PyList.sort_by TextAlignment.top_x0_le words))
              (cluster_lines_nonempty _)) as (groups & Hg & Hp).
  split.
  - unfold TextAlignment.find_text_alignment_tables. rewrite Hg.
    apply collect_tables_total. exact Hp.
  - intros group (groups' & Hg' & Hin). rewrite Hg in Hg'. injection Hg' as <-.
    rewrite Forall_forall in Hp. apply Hp. exact Hin.
Qed.

Lemma find_text_alignment_tables_returns_witness :
  let w := fun a b t => mkWord "x" a b t (t + 10) in
  let words := [w 0 10 0; w 20 30 0; w 0 10 12; w 20 30 12; w 0 10 24; w 20 30 24] in
  let band := [[w 0 10 0; w 20 30 0]; [w 0 10 12; w 20 30 12];
               [w 0 10 24; w 20 30 24]] in
  proper_band band.
Proof.
  intros w words band.
  apply (proj2 (find_text_alignment_tables_returns words) band).
  eexists. split; [vm_compute; reflexivity|]. vm_compute. left. reflexivity.
Defined.

(** ** The table of a band covers the band *)

Section AlignmentCover.
Import TextAlignment.

Lemma py_int_below (q : Q) : (0 < py_int q)%Z -> inject_Z (py_int q) <= q.
Proof.
  unfold py_int. destruct q as [n d]. cbn [Qnum Qden]. intros Hpos.
  assert (Hn : (0 <= n)%Z).
  { destruct (Z.le_gt_cases 0 n) as [|Hneg]; [assumption|].
    assert (H : (0 <= Z.quot (- n) (Z.pos d))%Z) by (apply Z.quot_pos; lia).
    rewrite Z.quot_opp_l in H by lia. lia. }
  unfold Qle, inject_Z. cbn [Qnum Qden]. rewrite Z.mul_1_r.
  pose proof (Z.mul_quot_le n (Z.pos d) Hn ltac:(lia)). lia.
Qed.

Lemma group_bbox_covers (group : list (list Word)) (box : BBox)
    (line : list Word) (w : Word) :
  group_bbox group = Some box -> In line group -> In w line -> word_inside box w.
Proof.
  unfold group_bbox. intros H Hl Hw.
  assert (Hin : In w (List.concat group)) by (apply in_concat; exists line; auto).
  destruct (Py.min_of (map w_x0 (List.concat group))) as [a|] eqn:Ea; [|discriminate].
  destruct (Py.min_of (map w_top (List.concat group))) as [b|] eqn:Eb; [|discriminate].
  destruct (Py.max_of (map w_x1 (List.concat group))) as [c|] eqn:Ec; [|discriminate].
  destruct (Py.max_of (map w_bottom (List.concat group))) as [d|] eqn:Ed; [|discriminate].
  injection H as <-.
  apply min_of_spec in Ea, Eb. apply max_of_spec in Ec, Ed.
  destruct Ea as [_ Ea], Eb as [_ Eb], Ec as [_ Ec], Ed as [_ Ed].
  unfold word_inside. simpl.
  specialize (Ea _ (in_map w_x0 _ _ Hin)). specialize (Eb _ (in_map w_top _ _ Hin)).
  specialize (Ec _ (in_map w_x1 _ _ Hin)). specialize (Ed _ (in_map w_bottom _ _ Hin)).
  repeat split; assumption.
Qed.

Lemma virtual_line_within (box : BBox) (projection : list nat) (g : Gap) :
  List.length projection = Z.to_nat (py_int (bx1 box - bx0 box)) ->
  zero_run projection g ->
  bx0 box < BuildStructureMap.gx0 (virtual_line box g)
  /\ BuildStructureMap.gx0 (virtual_line box g) < bx1 box.
Proof.
  intros Hlen (Hse & Hend & Hw & _).
  assert (Hpos : (0 < py_int (bx1 box - bx0 box))%Z) by lia.
  pose proof (py_int_below _ Hpos) as Hbelow.
  assert (Hend' : (gap_end g <= py_int (bx1 box - bx0 box))%Z) by lia.
  unfold virtual_line. cbn [BuildStructureMap.gx0]. rewrite Hw.
  assert (H0 : 0 <= inject_Z (gap_start g))
    by (change 0 with (inject_Z 0); rewrite <- Zle_Qle; lia).
  assert (H1 : inject_Z (gap_start g) < inject_Z (gap_end g))
    by (rewrite <- Zlt_Qlt; lia).
  assert (H2 : inject_Z (gap_end g) <= inject_Z (py_int (bx1 box - bx0 box)))
    by (rewrite <- Zle_Qle; exact Hend').
  assert (Hwd : inject_Z (gap_end g - gap_start g)
                == inject_Z (gap_end g) - inject_Z (gap_start g))
    by (unfold Z.sub; rewrite inject_Z_plus, inject_Z_opp; reflexivity).
  rewrite Hwd.
  change ((inject_Z (gap_end g) - inject_Z (gap_start g)) / 2)
    with ((inject_Z (gap_end g) - inject_Z (gap_start g)) * (1 # 2)).
  split; lra.
Qed.

End AlignmentCover.

(** A table of the text-alignment detector covers its band: every word of
    the band lies within the table's bbox, and every virtual line stands
    strictly between the left and the right edge of the bbox. *)
Theorem text_alignment_table_covers_band (group : list (list Word))
    (c : BuildStructureMap.TextCandidate) :
  TextAlignment.process_group group = TextAlignment.Emitted c ->
  (forall line w, In line group -> In w line ->
     word_inside (BuildStructureMap.cand_bbox c) w)
  /\ (forall l, In l (BuildStructureMap.cand_geometries c) ->
        bx0 (BuildStructureMap.cand_bbox c) < BuildStructureMap.gx0 l
        /\ BuildStructureMap.gx0 l < bx1 (BuildStructureMap.cand_bbox c)).
Proof.
  intros H.
  destruct (process_group_emitted group c H)
    as (box & m & tops & Hb & Hm & Hm2 & Hc & Hg & Hl & Hnd & Hruns).
  rewrite Hc, Hg. split.
  - intros line w Hline Hw. exact (group_bbox_covers group box line w Hb Hline Hw).
  - intros l Hin. apply in_map_iff in Hin. destruct Hin as (g & <- & Hgin).
    destruct (Hruns g Hgin) as [Hrun _].
    apply (virtual_line_within box (TextAlignment.band_projection group box m) g);
      [|exact Hrun].
    unfold TextAlignment.band_projection. apply projection_of_length.
Qed.

Lemma text_alignment_table_covers_band_witness :
  let w := fun a b t => mkWord "x" a b t (t + 10) in
  let band := [[w 0 10 0; w 20 30 0]; [w 0 10 12; w 20 30 12];
               [w 0 10 24; w 20 30 24]] in
  exists c,
    TextAlignment.process_group band = TextAlignment.Emitted c
    /\ forall line w', In line band -> In w' line ->
         word_inside (BuildStructureMap.cand_bbox c) w'.
Proof.
  intros w band.
  assert (H : exists c, TextAlignment.process_group band = TextAlignment.Emitted c)
    by (eexists; vm_compute; reflexivity).
  destruct H as [c H]. exists c. split; [exact H|].
  exact (proj1 (text_alignment_table_covers_band band c H)).
Defined.

(** ** Words of a row with merged cells *)

Section MergedCells.
Import StreamTable.

Lemma best_overlap_spec (word : Word) (bs : list (Q * Q)) (k : nat) (acc : Q * option nat) :
  let r := best_overlap (w_x0 word) (w_x1 word) bs k acc in
  (forall b, In b bs -> column_overlap word b <= fst r)
  /\ fst acc <= fst r
  /\ (r = acc
      \/ exists j b, snd r = Some (k + j)%nat /\ nth_error bs j = Some b
                     /\ fst r = column_overlap word b /\ fst acc < column_overlap word b).
Proof.
  revert k acc. induction bs as [|[col_x0 col_x1] bs IH]; intros k acc; cbn [best_overlap].
  - cbv zeta. split; [intros b []|]. split; [lra|left; reflexivity].
  - cbv zeta.
    change (Py.max2 0 (Py.min2 (w_x1 word) col_x1 - Py.max2 (w_x0 word) col_x0))
      with (column_overlap word (col_x0, col_x1)).
    set (ov := column_overlap word (col_x0, col_x1)).
    set (acc' := if Py.ltb (fst acc) ov then (ov, Some k) else acc).
    destruct (IH (S k) acc') as (Hall & Hle & Hwho). cbv zeta in *.
    assert (Hacc : fst acc <= fst acc' /\ ov <= fst acc').
    { unfold acc'. destruct (Py.ltb (fst acc) ov) eqn:E; qcases; simpl; split; lra. }
    destruct Hacc as [Ha Ho].
    split; [|split].
    + intros b [<-|Hb]; [fold ov; lra|apply Hall; exact Hb].
    + lra.
    + destruct Hwho as [Hr|(j & b & Hs & Hn & Hf & Hlt)].
      * rewrite Hr. unfold acc'. destruct (Py.ltb (fst acc) ov) eqn:E; qcases;
          [|left; reflexivity].
        right. exists O, (col_x0, col_x1). simpl. rewrite Nat.add_0_r.
        repeat split; try reflexivity. exact E.
      * right. exists (S j), b. rewrite Nat.add_succ_r.
        repeat split; try assumption. lra.
Qed.

End MergedCells.

(** A word of a row that is not standard goes to a column of greatest
    overlap, and the overlap there is positive; the warning about a word
    without overlap is printed exactly when the word shares no width with
    any column, and then the word is left out of the row. *)
Theorem stream_merged_row_word (bs : list (Q * Q)) (row_idx : nat)
    (processed_row : list string) (diags : list Diagnostic) (word : Word) :
  let r := StreamTable.place_word false bs row_idx (processed_row, diags) word in
  ((forall b, In b bs -> column_overlap word b <= 0) ->
   r = (processed_row, diags ++ [NoOverlap (w_text word) (S row_idx)]))
  /\ ((exists b, In b bs /\ 0 < column_overlap word b) ->
      exists j b,
        nth_error bs j = Some b /\ 0 < column_overlap word b
        /\ (forall b', In b' bs -> column_overlap word b' <= column_overlap word b)
        /\ r = (Rows.put processed_row j (w_text word), diags)).
Proof.
  cbv zeta. unfold StreamTable.place_word.
  destruct (best_overlap_spec word bs O (0, None)) as (Hall & Hle & Hwho).
  cbv zeta in *. cbn [fst] in Hle, Hwho.
  split.
  - intros Hnone. destruct Hwho as [->|(j & b & _ & Hn & _ & Hlt)]; [reflexivity|].
    specialize (Hnone b (nth_error_In _ _ Hn)). exfalso. lra.
  - intros (b0 & Hb0 & Hpos). specialize (Hall b0 Hb0 ) as Hb.
    destruct Hwho as [Hr|(j & b & Hs & Hn & Hf & Hlt)].
    + rewrite Hr in Hb. simpl in Hb. exfalso. lra.
    + exists j, b. rewrite Hs. cbn [Nat.add]. split; [exact Hn|]. split; [exact Hlt|].
      split; [|reflexivity]. intros b' Hb'. rewrite <- Hf. apply Hall. exact Hb'.
Qed.

Lemma stream_merged_row_word_witness :
  let bs := [(0, 10); (20, 30)] in
  let word := mkWord "wide" 8 30 0 10 in
  exists j b,
    nth_error bs j = Some b /\ 0 < column_overlap word b
    /\ (forall b', In b' bs -> column_overlap word b' <= column_overlap word b)
    /\ StreamTable.place_word false bs 0 ([""; ""]%string, []) word
       = (Rows.put [""; ""]%string j "wide", []).
Proof.
  intros bs word.
  pose proof (stream_merged_row_word bs 0 [""; ""]%string [] word) as H.
  cbv zeta in H. destruct H as [_ H]. apply H.
  exists (20, 30). split; [right; left; reflexivity|]. vm_compute. reflexivity.
Defined.
